(** * Budget alerts, period resolution and summaries of the expense tracker

    A shallow embedding of [backend/server.py]: the period resolver
    [get_date_range], the budget evaluator [check_budget_alerts], the
    request handlers that call it, the aggregation of [get_summary], and
    the chart, report and category routes, with the properties the
    specification states about them and further properties of the
    code. *)

From Stdlib Require Import ZArith QArith Floats String Ascii List Bool Lia.
From Stdlib Require Import DecimalString.
From Stdlib Require OrderedTypeEx.
From Stdlib Require Import Sorted Permutation.
Import ListNotations.

Set Warnings "-inexact-float".

Local Open Scope string_scope.
Local Open Scope Z_scope.

(** ** Numbers

    Amounts are Python numbers.  The pydantic models declare them [float]
    (IEEE 754 binary64), and the code only uses [+], [-], [*], [/], the
    comparisons, [sum] and [format].  The embedding is written once over
    that interface; [float_PyNum] is the instance the server runs on, and
    [Q_PyNum] is the exact-arithmetic instance ([fractions.Fraction]). *)

Class PyNum : Type := {
  num : Type;
  (** an [int] literal used where a number of this type is expected *)
  of_int : Z -> num;
  add : num -> num -> num;
  sub : num -> num -> num;
  mul : num -> num -> num;
  (** [x / y]; [None] is [ZeroDivisionError] *)
  truediv : num -> num -> option num;
  lt : num -> num -> bool;
  le : num -> num -> bool;
  num_eq : num -> num -> bool;
  (** [format(x, '.kf')] *)
  format_f : nat -> num -> string;
  (** what every instance guarantees about zero *)
  truediv_pos : forall x y, lt (of_int 0) y = true -> truediv x y <> None;
  le_0_not_pos : forall y, le y (of_int 0) = true -> lt (of_int 0) y = false;
  sub_0_0 : sub (of_int 0) (of_int 0) = of_int 0
}.

(** [x > y] and [x >= y] are the flipped comparisons. *)
Definition gt {N : PyNum} (x y : num) : bool := lt y x.
Definition ge {N : PyNum} (x y : num) : bool := le y x.

(** Addition is exact: associative and commutative, with [0] neutral.
    Binary64 addition rounds and is not associative. *)
Class ExactAdd (N : PyNum) : Prop := {
  add_comm : forall x y : num, add x y = add y x;
  add_assoc : forall x y z : num, add x (add y z) = add (add x y) z;
  add_0_l : forall x : num, add (of_int 0) x = x
}.

(** [sum(xs)]: the items are added from left to right, starting from [0].
    (From Python 3.12 on, [sum] adds floats with compensation; the
    binary64 examples of this file come out the same either way.) *)
Definition sum {N : PyNum} (xs : list num) : num :=
  fold_left add xs (of_int 0).

(** *** Decimal rendering *)

Definition decimal (z : Z) : string :=
  NilZero.string_of_uint (N.to_uint (Z.to_N z)).

Fixpoint zeros (n : nat) : string :=
  match n with
  | O => ""
  | S n' => String "0" (zeros n')
  end.

(** [s.rjust(w, '0')] *)
Definition zfill (w : nat) (s : string) : string :=
  zeros (w - String.length s) ++ s.

(** [format(x, '.kf')] of the non-negative rational [n / d], with sign
    [neg]: [k] digits after the point, ties rounded to even. *)
Definition format_ratio (neg : bool) (n d : Z) (k : nat) : string :=
  let scaled := n * 10 ^ Z.of_nat k in
  let q := scaled / d in
  let r := scaled mod d in
  let q' := if (d <? 2 * r) || ((d =? 2 * r) && Z.odd q) then q + 1 else q in
  (if neg then "-" else "") ++ decimal (q' / 10 ^ Z.of_nat k) ++
  (if Nat.eqb k 0 then "" else "." ++ zfill k (decimal (q' mod 10 ^ Z.of_nat k))).

(** *** Binary64 *)

Definition float_of_int (z : Z) : float :=
  if z <? 0 then PrimFloat.opp (PrimFloat.of_uint63 (Uint63.of_Z (- z)))
  else PrimFloat.of_uint63 (Uint63.of_Z z).

Definition float_truediv (x y : float) : option float :=
  if PrimFloat.eqb y (float_of_int 0) then None else Some (PrimFloat.div x y).

Definition float_format (k : nat) (x : float) : string :=
  match Prim2SF x with
  | S754_zero s => format_ratio s 0 1 k
  | S754_infinity s => if s then "-inf" else "inf"
  | S754_nan => "nan"
  | S754_finite s m e =>
      if 0 <=? e then format_ratio s (Z.pos m * 2 ^ e) 1 k
      else format_ratio s (Z.pos m) (2 ^ (- e)) k
  end.

Lemma float_truediv_pos (x y : float) :
  PrimFloat.ltb (float_of_int 0) y = true -> float_truediv x y <> None.
Proof.
  unfold float_truediv. intros H.
  rewrite FloatAxioms.ltb_spec in H. rewrite FloatAxioms.eqb_spec.
  change (Prim2SF (float_of_int 0)) with (S754_zero false) in *.
  destruct (Prim2SF y) as [s|s| |s m e]; cbn in *;
    try destruct s; cbn in *; congruence.
Qed.

Lemma float_le_0_not_pos (y : float) :
  PrimFloat.leb y (float_of_int 0) = true ->
  PrimFloat.ltb (float_of_int 0) y = false.
Proof.
  intros H. rewrite FloatAxioms.leb_spec in H. rewrite FloatAxioms.ltb_spec.
  change (Prim2SF (float_of_int 0)) with (S754_zero false) in *.
  destruct (Prim2SF y) as [s|s| |s m e]; cbn in *;
    try destruct s; cbn in *; congruence.
Qed.

#[export] Instance float_PyNum : PyNum := {|
  num := float;
  of_int := float_of_int;
  add := PrimFloat.add;
  sub := PrimFloat.sub;
  mul := PrimFloat.mul;
  truediv := float_truediv;
  lt := PrimFloat.ltb;
  le := PrimFloat.leb;
  num_eq := PrimFloat.eqb;
  format_f := float_format;
  truediv_pos := float_truediv_pos;
  le_0_not_pos := float_le_0_not_pos;
  sub_0_0 := eq_refl
|}.

(** *** Exact rationals *)

Definition Q_lt (x y : Q) : bool := negb (Qle_bool y x).

Definition Q_truediv (x y : Q) : option Q :=
  if Qeq_bool y (inject_Z 0) then None else Some (Qdiv x y).

Definition Q_format (k : nat) (x : Q) : string :=
  format_ratio (Qnum x <? 0) (Z.abs (Qnum x)) (Z.pos (Qden x)) k.

Lemma Q_truediv_pos (x y : Q) :
  Q_lt (inject_Z 0) y = true -> Q_truediv x y <> None.
Proof.
  unfold Q_lt, Q_truediv. intros H.
  destruct (Qeq_bool y (inject_Z 0)) eqn:E; [|discriminate].
  apply Qeq_bool_iff in E.
  assert (L : Qle_bool y (inject_Z 0) = true)
    by (apply Qle_bool_iff; rewrite E; apply Qle_refl).
  rewrite L in H. discriminate.
Qed.

Lemma Q_le_0_not_pos (y : Q) :
  Qle_bool y (inject_Z 0) = true -> Q_lt (inject_Z 0) y = false.
Proof. unfold Q_lt. intros ->. reflexivity. Qed.

#[export] Instance Q_PyNum : PyNum := {|
  num := Q;
  of_int := inject_Z;
  add := Qplus;
  sub := Qminus;
  mul := Qmult;
  truediv := Q_truediv;
  lt := Q_lt;
  le := Qle_bool;
  num_eq := Qeq_bool;
  format_f := Q_format;
  truediv_pos := Q_truediv_pos;
  le_0_not_pos := Q_le_0_not_pos;
  sub_0_0 := eq_refl
|}.

(** ** Calendar dates

    [datetime.date] in the proleptic Gregorian calendar.  Python bounds
    the year by 9999 and raises [OverflowError] past it; the model leaves
    the year unbounded above. *)

Record date : Type := mkdate { year : Z; month : Z; day : Z }.

Definition is_leap (y : Z) : bool :=
  (y mod 4 =? 0) && (negb (y mod 100 =? 0) || (y mod 400 =? 0)).

Definition days_in_month (y m : Z) : Z :=
  if m =? 2 then (if is_leap y then 29 else 28)
  else if (m =? 4) || (m =? 6) || (m =? 9) || (m =? 11) then 30
  else 31.

Definition valid_date (d : date) : Prop :=
  1 <= year d /\ 1 <= month d <= 12 /\
  1 <= day d <= days_in_month (year d) (month d).

Definition tomorrow (d : date) : date :=
  if day d <? days_in_month (year d) (month d)
  then mkdate (year d) (month d) (day d + 1)
  else if month d =? 12 then mkdate (year d + 1) 1 1
  else mkdate (year d) (month d + 1) 1.

Definition yesterday (d : date) : date :=
  if 1 <? day d then mkdate (year d) (month d) (day d - 1)
  else if month d =? 1 then mkdate (year d - 1) 12 31
  else mkdate (year d) (month d - 1) (days_in_month (year d) (month d - 1)).

(** [d + timedelta(days=n)] and [d - timedelta(days=n)], for [n >= 0]. *)
Definition plus_days (d : date) (n : Z) : date :=
  Nat.iter (Z.to_nat n) tomorrow d.

Definition minus_days (d : date) (n : Z) : date :=
  Nat.iter (Z.to_nat n) yesterday d.

(** [d.replace(day=n)] and [d.replace(month=m, day=n)] *)
Definition replace_day (d : date) (n : Z) : date :=
  mkdate (year d) (month d) n.

Definition replace_month_day (d : date) (m n : Z) : date :=
  mkdate (year d) m n.

Definition days_before_year (y : Z) : Z :=
  let p := y - 1 in p * 365 + p / 4 - p / 100 + p / 400.

Fixpoint days_before_month_upto (y : Z) (k : nat) : Z :=
  match k with
  | O => 0
  | S k' => days_before_month_upto y k' + days_in_month y (Z.of_nat k)
  end.

Definition days_before_month (y m : Z) : Z :=
  days_before_month_upto y (Z.to_nat (m - 1)).

(** [d.toordinal()]: 0001-01-01 is day 1. *)
Definition toordinal (d : date) : Z :=
  days_before_year (year d) + days_before_month (year d) (month d) + day d.

(** [d.weekday()]: Monday is 0. *)
Definition weekday (d : date) : Z := (toordinal d + 6) mod 7.

(** [str(d)]: ISO format, [YYYY-MM-DD]. *)
Definition date_str (d : date) : string :=
  zfill 4 (decimal (year d)) ++ "-" ++ zfill 2 (decimal (month d)) ++ "-" ++
  zfill 2 (decimal (day d)).

(** ** Period resolver *)

(** Truth value of an optional string: [None] and [""] are false. *)
Definition truthy (s : option string) : bool :=
  match s with
  | Some s' => negb (s' =? "")%string
  | None => false
  end.

Definition str_or_empty (s : option string) : string :=
  match s with
  | Some s' => s'
  | None => ""
  end.

(** The first and the last day of the month of [today], as the source
    computes them: day 28 plus four days lands in the next month, and
    going back by that date's day number lands on the last day. *)
Definition month_bounds (today : date) : date * date :=
  let start := replace_day today 1 in
  let next_month := plus_days (replace_day today 28) 4 in
  let end_ := minus_days next_month (day next_month) in
  (start, end_).

Definition week_bounds (today : date) : date * date :=
  let start := minus_days today (weekday today) in
  let end_ := plus_days start 6 in
  (start, end_).

Definition get_date_range (today : date) (period : string)
    (custom_start custom_end : option string) : string * string :=
  if (period =? "today")%string then (date_str today, date_str today)
  else if (period =? "week")%string then
    let '(start, end_) := week_bounds today in (date_str start, date_str end_)
  else if (period =? "month")%string then
    let '(start, end_) := month_bounds today in (date_str start, date_str end_)
  else if (period =? "year")%string then
    (date_str (replace_month_day today 1 1),
     date_str (replace_month_day today 12 31))
  else if (period =? "custom")%string && truthy custom_start && truthy custom_end then
    (str_or_empty custom_start, str_or_empty custom_end)
  else
    let '(start, end_) := month_bounds today in (date_str start, date_str end_).



(** ** Documents

    The three collections hold the dictionaries that the pydantic models
    [Expense], [Budget] and [BudgetAlert] serialise to.  A [datetime] is
    its number of microseconds since the epoch. *)

Module Expense.
Record t {N : PyNum} : Type := mk {
  id : string;
  user_id : string;
  title : string;
  amount : num;
  category : string;
  type : string;
  description : option string;
  date : string;
  created_at : Z
}.
End Expense.

Module Budget.
Record t {N : PyNum} : Type := mk {
  id : string;
  user_id : string;
  category : string;
  limit_amount : num;
  period : string;
  start_date : string;
  end_date : string;
  current_spent : num;
  is_active : bool;
  created_at : Z
}.

(** [{"$set": {"current_spent": v}}] *)
Definition set_current_spent {N : PyNum} (v : num) (b : t) : t :=
  mk N (id b) (user_id b) (category b) (limit_amount b) (period b)
     (start_date b) (end_date b) v (is_active b) (created_at b).

Definition set_limit_amount {N : PyNum} (v : num) (b : t) : t :=
  mk N (id b) (user_id b) (category b) v (period b)
     (start_date b) (end_date b) (current_spent b) (is_active b) (created_at b).

Definition set_is_active {N : PyNum} (v : bool) (b : t) : t :=
  mk N (id b) (user_id b) (category b) (limit_amount b) (period b)
     (start_date b) (end_date b) (current_spent b) v (created_at b).
End Budget.

Module BudgetAlert.
Record t {N : PyNum} : Type := mk {
  id : string;
  user_id : string;
  budget_id : string;
  message : string;
  alert_type : string;
  percentage : num;
  created_at : Z;
  is_read : bool
}.

Definition set_is_read {N : PyNum} (v : bool) (a : t) : t :=
  mk N (id a) (user_id a) (budget_id a) (message a) (alert_type a)
     (percentage a) (created_at a) v.
End BudgetAlert.

(** ** Request bodies and responses *)

Module ExpenseCreate.
Record t {N : PyNum} : Type := mk {
  title : string;
  amount : num;
  category : string;
  type : string;
  description : option string;
  date : option string
}.
End ExpenseCreate.

Module ExpenseUpdate.
Record t {N : PyNum} : Type := mk {
  title : option string;
  amount : option num;
  category : option string;
  type : option string;
  description : option string;
  date : option string
}.
End ExpenseUpdate.

Module BudgetCreate.
Record t {N : PyNum} : Type := mk {
  category : string;
  limit_amount : num;
  period : string
}.
End BudgetCreate.

Module BudgetUpdate.
Record t {N : PyNum} : Type := mk {
  limit_amount : option num;
  is_active : option bool
}.
End BudgetUpdate.

(** The dictionary [get_summary] returns. *)
Module Summary.
Record t {N : PyNum} : Type := mk {
  total_expenses : num;
  total_income : num;
  balance : num;
  category_breakdown : list (string * num);
  transaction_count : nat;
  period : string;
  start_date : option string;
  end_date : option string
}.
End Summary.

(** ** Dictionaries

    A Python [dict] with string keys keeps its keys in the order of
    their first insertion; assigning to a present key keeps its place. *)

Section Dict.
Context {V : Type}.

(** [d.get(k, default)] *)
Fixpoint dict_get (d : list (string * V)) (k : string) (default : V) : V :=
  match d with
  | [] => default
  | (k', v) :: rest => if (k' =? k)%string then v else dict_get rest k default
  end.

(** [d[k] = v] *)
Fixpoint dict_set (d : list (string * V)) (k : string) (v : V)
    : list (string * V) :=
  match d with
  | [] => [(k, v)]
  | (k', v') :: rest =>
      if (k' =? k)%string then (k, v) :: rest else (k', v') :: dict_set rest k v
  end.

(** [list(d.keys())] and [list(d.values())] *)
Definition dict_keys (d : list (string * V)) : list string := map fst d.
Definition dict_values (d : list (string * V)) : list V := map snd d.
End Dict.

(** ** The store

    A collection is the list of its documents in insertion order, the
    order in which an unsorted [find] returns them. *)

Section Collections.
Context {A : Type}.

(** [find(filter).to_list(n)] *)
Definition find_to_list (p : A -> bool) (n : nat) (coll : list A) : list A :=
  firstn n (filter p coll).

(** [find_one(filter)] *)
Definition find_one (p : A -> bool) (coll : list A) : option A :=
  List.find p coll.

(** [insert_one(doc)] *)
Definition insert_one (doc : A) (coll : list A) : list A :=
  coll ++ [doc].

(** [update_one(filter, {"$set": ...})]: the first match is updated. *)
Fixpoint update_one (p : A -> bool) (f : A -> A) (coll : list A) : list A :=
  match coll with
  | [] => []
  | x :: rest => if p x then f x :: rest else x :: update_one p f rest
  end.

(** [delete_one(filter)]: the first match is removed. *)
Fixpoint delete_one (p : A -> bool) (coll : list A) : list A :=
  match coll with
  | [] => []
  | x :: rest => if p x then rest else x :: delete_one p rest
  end.

(** [matched_count] and [deleted_count] of the two operations above. *)
Definition matched_count (p : A -> bool) (coll : list A) : nat :=
  if existsb p coll then 1%nat else 0%nat.

(** [.sort(key, -1)]: a stable insertion sort, greatest key first. *)
Fixpoint insert_desc (geb : A -> A -> bool) (x : A) (l : list A) : list A :=
  match l with
  | [] => [x]
  | y :: rest => if geb x y then x :: l else y :: insert_desc geb x rest
  end.

Definition sort_desc (geb : A -> A -> bool) (l : list A) : list A :=
  fold_right (insert_desc geb) [] l.
End Collections.

Record DB {N : PyNum} : Type := mkDB {
  expenses : list Expense.t;
  budgets : list Budget.t;
  budget_alerts : list BudgetAlert.t
}.

(** The world a request runs in: the database, the source of random
    UUIDs with the number drawn so far, and a counter of the evaluation
    passes started, which the server does not have and which is kept
    here to state how often the evaluator runs. *)
Record World {N : PyNum} : Type := mkWorld {
  db : DB;
  uuid_source : nat -> string;
  uuid_drawn : nat;
  evaluations : nat
}.

(** ** Handlers as state transformers that may raise *)

Inductive Exception : Type :=
| HTTPException (status_code : Z) (detail : string)
| ZeroDivisionError.

Inductive Result (A : Type) : Type :=
| Ok (a : A)
| Raise (e : Exception).

Arguments Ok {A} a.
Arguments Raise {A} e.

Section Server.
Context {N : PyNum}.

Definition with_db (f : DB -> DB) (w : World) : World :=
  mkWorld N (f (db w)) (uuid_source w) (uuid_drawn w) (evaluations w).

Definition set_expenses (l : list Expense.t) (d : DB) : DB :=
  mkDB N l (budgets d) (budget_alerts d).

Definition set_budgets (l : list Budget.t) (d : DB) : DB :=
  mkDB N (expenses d) l (budget_alerts d).

Definition set_budget_alerts (l : list BudgetAlert.t) (d : DB) : DB :=
  mkDB N (expenses d) (budgets d) l.

Definition M (A : Type) : Type := World -> Result A * World.

Definition ret {A : Type} (a : A) : M A := fun w => (Ok a, w).

Definition raise {A : Type} (e : Exception) : M A := fun w => (Raise e, w).

Definition bind {A B : Type} (m : M A) (k : A -> M B) : M B :=
  fun w =>
    match m w with
    | (Ok a, w') => k a w'
    | (Raise e, w') => (Raise e, w')
    end.

Definition get_db : M DB := fun w => (Ok (db w), w).

Definition modify_db (f : DB -> DB) : M unit := fun w => (Ok tt, with_db f w).

(** [str(uuid.uuid4())] *)
Definition uuid4 : M string :=
  fun w => (Ok (uuid_source w (uuid_drawn w)),
            mkWorld N (db w) (uuid_source w) (S (uuid_drawn w)) (evaluations w)).

Definition count_evaluation : M unit :=
  fun w => (Ok tt,
            mkWorld N (db w) (uuid_source w) (uuid_drawn w) (S (evaluations w))).

(** [for x in l: body(x)] *)
Fixpoint for_each {A : Type} (l : list A) (body : A -> M unit) : M unit :=
  match l with
  | [] => ret tt
  | x :: rest => bind (body x) (fun _ => for_each rest body)
  end.

(** The world a computation leaves behind. *)
Definition exec {A : Type} (m : M A) (w : World) : World := snd (m w).


Notation "x <- m ;; k" := (bind m (fun x => k))
  (at level 100, m at next level, right associativity).
Notation "m ;;; k" := (bind m (fun _ => k))
  (at level 100, right associativity).

(** Truth value of what [find_one] returns: a document is true, [None]
    is false. *)
Definition found {A : Type} (doc : option A) : bool :=
  match doc with
  | Some _ => true
  | None => false
  end.

(** ** Budget evaluator *)

(** [timedelta(days=1)] *)
Definition one_day : Z := 86400000000.

(** The filter of the expense query: this user's expense-type
    transactions of the budget's category, dated within the budget's
    period.  Dates are strings and [$gte]/[$lte] compare them as such. *)
Definition budget_expense_filter (user_id : string) (budget : Budget.t)
    (e : Expense.t) : bool :=
  (Expense.user_id e =? user_id)%string &&
  (Expense.category e =? Budget.category budget)%string &&
  (Expense.type e =? "expense")%string &&
  String.leb (Budget.start_date budget) (Expense.date e) &&
  String.leb (Expense.date e) (Budget.end_date budget).

(** The filter of the deduplication query: an alert of this budget and
    kind created at or after [since]. *)
Definition recent_alert_filter (budget_id alert_type : string) (since : Z)
    (a : BudgetAlert.t) : bool :=
  (BudgetAlert.budget_id a =? budget_id)%string &&
  (BudgetAlert.alert_type a =? alert_type)%string &&
  (since <=? BudgetAlert.created_at a).

Definition active_budget_filter (user_id : string) (b : Budget.t) : bool :=
  (Budget.user_id b =? user_id)%string && Bool.eqb (Budget.is_active b) true.

(** [(current_spent / limit) * 100 if limit > 0 else 0] *)
Definition percentage_of (current_spent limit_amount : num) : M num :=
  if gt limit_amount (of_int 0) then
    match truediv current_spent limit_amount with
    | Some q => ret (mul q (of_int 100))
    | None => raise ZeroDivisionError
    end
  else ret (of_int 0).

Definition exceeded_message (budget : Budget.t) (current_spent : num) : string :=
  "Budget exceeded for " ++ Budget.category budget ++ "! Spent $" ++
  format_f 2 current_spent ++ " of $" ++ format_f 2 (Budget.limit_amount budget).

Definition warning_message (budget : Budget.t) (current_spent percentage : num)
    : string :=
  "Budget warning for " ++ Budget.category budget ++ "! " ++
  format_f 1 percentage ++ "% spent ($" ++ format_f 2 current_spent ++
  " of $" ++ format_f 2 (Budget.limit_amount budget) ++ ")".

(** The body of the loop of [check_budget_alerts], for one budget of the
    list fetched at the start of the pass.  [now] is what
    [datetime.utcnow()] returns; the source reads the clock again at each
    use, the model once per request. *)
Definition check_budget (now : Z) (user_id : string) (budget : Budget.t)
    : M unit :=
  d <- get_db ;;
  let found_expenses :=
    find_to_list (budget_expense_filter user_id budget) 1000 (expenses d) in
  let current_spent := sum (map Expense.amount found_expenses) in
  percentage <- percentage_of current_spent (Budget.limit_amount budget) ;;
  modify_db (fun d =>
    set_budgets
      (update_one (fun b => (Budget.id b =? Budget.id budget)%string)
                  (Budget.set_current_spent current_spent) (budgets d)) d) ;;;
  d <- get_db ;;
  let alert_created := false in
  if ge percentage (of_int 100) &&
     negb (found (find_one
       (recent_alert_filter (Budget.id budget) "exceeded" (now - one_day))
       (budget_alerts d)))
  then
    new_id <- uuid4 ;;
    modify_db (fun d =>
      set_budget_alerts
        (insert_one
           (BudgetAlert.mk N new_id user_id (Budget.id budget)
              (exceeded_message budget current_spent)
              "exceeded" percentage now false)
           (budget_alerts d)) d)
  else if ge percentage (of_int 80) && negb alert_created &&
     negb (found (find_one
       (recent_alert_filter (Budget.id budget) "warning" (now - one_day))
       (budget_alerts d)))
  then
    new_id <- uuid4 ;;
    modify_db (fun d =>
      set_budget_alerts
        (insert_one
           (BudgetAlert.mk N new_id user_id (Budget.id budget)
              (warning_message budget current_spent percentage)
              "warning" percentage now false)
           (budget_alerts d)) d)
  else ret tt.

(** [count_evaluation] is the model's bookkeeping of the passes started;
    the rest is the source's function. *)
Definition check_budget_alerts (now : Z) (user_id : string) : M unit :=
  count_evaluation ;;;
  d <- get_db ;;
  let active_budgets :=
    find_to_list (active_budget_filter user_id) 100 (budgets d) in
  for_each active_budgets (check_budget now user_id).

(** ** Budget routes *)

Definition user_budget_filter (current_user : string) (b : Budget.t) : bool :=
  (Budget.user_id b =? current_user)%string.

Definition owned_budget_filter (budget_id current_user : string) (b : Budget.t)
    : bool :=
  (Budget.id b =? budget_id)%string && (Budget.user_id b =? current_user)%string.

(** [GET /budgets]: one evaluation pass per budget of the user. *)
Definition get_budgets (now : Z) (current_user : string) : M (list Budget.t) :=
  d <- get_db ;;
  let user_budgets :=
    find_to_list (user_budget_filter current_user) 100 (budgets d) in
  for_each user_budgets (fun _ => check_budget_alerts now current_user) ;;;
  d <- get_db ;;
  ret (find_to_list (user_budget_filter current_user) 100 (budgets d)).

Definition existing_budget_filter (current_user : string)
    (budget_data : BudgetCreate.t) (b : Budget.t) : bool :=
  (Budget.user_id b =? current_user)%string &&
  (Budget.category b =? BudgetCreate.category budget_data)%string &&
  (Budget.period b =? BudgetCreate.period budget_data)%string &&
  Bool.eqb (Budget.is_active b) true.

(** [POST /budgets] *)
Definition create_budget (today : date) (now : Z)
    (budget_data : BudgetCreate.t) (current_user : string) : M Budget.t :=
  let '(start_date, end_date) :=
    if (BudgetCreate.period budget_data =? "monthly")%string
    then month_bounds today
    else week_bounds today in
  d <- get_db ;;
  let existing_budget :=
    find_one (existing_budget_filter current_user budget_data) (budgets d) in
  if found existing_budget then
    raise (HTTPException 400
             "Active budget already exists for this category and period")
  else
    new_id <- uuid4 ;;
    let budget :=
      Budget.mk N new_id current_user (BudgetCreate.category budget_data)
        (BudgetCreate.limit_amount budget_data)
        (BudgetCreate.period budget_data)
        (date_str start_date) (date_str end_date) (of_int 0) true now in
    modify_db (fun d => set_budgets (insert_one budget (budgets d)) d) ;;;
    ret budget.

Definition apply_budget_update (budget_data : BudgetUpdate.t) (b : Budget.t)
    : Budget.t :=
  let b :=
    match BudgetUpdate.limit_amount budget_data with
    | Some v => Budget.set_limit_amount v b
    | None => b
    end in
  match BudgetUpdate.is_active budget_data with
  | Some v => Budget.set_is_active v b
  | None => b
  end.

(** [PUT /budgets/{budget_id}] *)
Definition update_budget (budget_id : string) (budget_data : BudgetUpdate.t)
    (current_user : string) : M unit :=
  d <- get_db ;;
  let existing_budget :=
    find_one (owned_budget_filter budget_id current_user) (budgets d) in
  if negb (found existing_budget) then
    raise (HTTPException 404 "Budget not found")
  else if found (BudgetUpdate.limit_amount budget_data) ||
          found (BudgetUpdate.is_active budget_data)
  then
    modify_db (fun d =>
      set_budgets
        (update_one (owned_budget_filter budget_id current_user)
                    (apply_budget_update budget_data) (budgets d)) d)
  else ret tt.

(** [DELETE /budgets/{budget_id}] *)
Definition delete_budget (budget_id current_user : string) : M unit :=
  d <- get_db ;;
  let deleted_count :=
    matched_count (owned_budget_filter budget_id current_user) (budgets d) in
  modify_db (fun d =>
    set_budgets
      (delete_one (owned_budget_filter budget_id current_user) (budgets d)) d) ;;;
  if Nat.eqb deleted_count 0 then raise (HTTPException 404 "Budget not found")
  else ret tt.

(** [GET /budgets/alerts]: one evaluation pass, then the user's alerts,
    newest first. *)
Definition get_budget_alerts (now : Z) (current_user : string)
    : M (list BudgetAlert.t) :=
  check_budget_alerts now current_user ;;;
  d <- get_db ;;
  ret (firstn 50
         (sort_desc
            (fun a b => BudgetAlert.created_at b <=? BudgetAlert.created_at a)
            (filter (fun a => (BudgetAlert.user_id a =? current_user)%string)
                    (budget_alerts d)))).

Definition owned_alert_filter (alert_id current_user : string)
    (a : BudgetAlert.t) : bool :=
  (BudgetAlert.id a =? alert_id)%string &&
  (BudgetAlert.user_id a =? current_user)%string.

(** [PUT /budgets/alerts/{alert_id}/read] *)
Definition mark_alert_read (alert_id current_user : string) : M unit :=
  d <- get_db ;;
  let matched :=
    matched_count (owned_alert_filter alert_id current_user) (budget_alerts d) in
  modify_db (fun d =>
    set_budget_alerts
      (update_one (owned_alert_filter alert_id current_user)
                  (BudgetAlert.set_is_read true) (budget_alerts d)) d) ;;;
  if Nat.eqb matched 0 then raise (HTTPException 404 "Alert not found")
  else ret tt.

(** ** Expense routes *)

Definition owned_expense_filter (expense_id current_user : string)
    (e : Expense.t) : bool :=
  (Expense.id e =? expense_id)%string &&
  (Expense.user_id e =? current_user)%string.

(** [POST /expenses]: the evaluator runs when the new transaction is of
    type ["expense"]. *)
Definition create_expense (today : date) (now : Z)
    (expense_data : ExpenseCreate.t) (current_user : string) : M Expense.t :=
  new_id <- uuid4 ;;
  let expense :=
    Expense.mk N new_id current_user (ExpenseCreate.title expense_data)
      (ExpenseCreate.amount expense_data) (ExpenseCreate.category expense_data)
      (ExpenseCreate.type expense_data) (ExpenseCreate.description expense_data)
      (if truthy (ExpenseCreate.date expense_data)
       then str_or_empty (ExpenseCreate.date expense_data)
       else date_str today)
      now in
  modify_db (fun d => set_expenses (insert_one expense (expenses d)) d) ;;;
  (if (ExpenseCreate.type expense_data =? "expense")%string
   then check_budget_alerts now current_user
   else ret tt) ;;;
  ret expense.

(** A query parameter restricts the filter when it is a non-empty string. *)
Definition expenses_query (category type start_date end_date : option string)
    (current_user : string) (e : Expense.t) : bool :=
  (Expense.user_id e =? current_user)%string &&
  (if truthy category
   then (Expense.category e =? str_or_empty category)%string else true) &&
  (if truthy type
   then (Expense.type e =? str_or_empty type)%string else true) &&
  (if truthy start_date
   then String.leb (str_or_empty start_date) (Expense.date e) else true) &&
  (if truthy end_date
   then String.leb (Expense.date e) (str_or_empty end_date) else true).

(** [GET /expenses] *)
Definition get_expenses (category type start_date end_date : option string)
    (current_user : string) : M (list Expense.t) :=
  d <- get_db ;;
  ret (firstn 1000
         (sort_desc (fun a b => String.leb (Expense.date b) (Expense.date a))
            (filter
               (expenses_query category type start_date end_date current_user)
               (expenses d)))).

Definition or_else {A : Type} (o : option A) (a : A) : A :=
  match o with
  | Some v => v
  | None => a
  end.

(** [{"$set": update_data}], where [update_data] has the fields of the
    request that are not [None]. *)
Definition apply_expense_update (expense_data : ExpenseUpdate.t)
    (e : Expense.t) : Expense.t :=
  Expense.mk N (Expense.id e) (Expense.user_id e)
    (or_else (ExpenseUpdate.title expense_data) (Expense.title e))
    (or_else (ExpenseUpdate.amount expense_data) (Expense.amount e))
    (or_else (ExpenseUpdate.category expense_data) (Expense.category e))
    (or_else (ExpenseUpdate.type expense_data) (Expense.type e))
    (match ExpenseUpdate.description expense_data with
     | Some v => Some v
     | None => Expense.description e
     end)
    (or_else (ExpenseUpdate.date expense_data) (Expense.date e))
    (Expense.created_at e).

(** [update_data] is not empty. *)
Definition has_update (expense_data : ExpenseUpdate.t) : bool :=
  found (ExpenseUpdate.title expense_data) ||
  found (ExpenseUpdate.amount expense_data) ||
  found (ExpenseUpdate.category expense_data) ||
  found (ExpenseUpdate.type expense_data) ||
  found (ExpenseUpdate.description expense_data) ||
  found (ExpenseUpdate.date expense_data).

(** [PUT /expenses/{expense_id}]: the evaluator runs whenever a field is
    updated, whatever the type of the transaction. *)
Definition update_expense (now : Z) (expense_id : string)
    (expense_data : ExpenseUpdate.t) (current_user : string) : M unit :=
  d <- get_db ;;
  let existing_expense :=
    find_one (owned_expense_filter expense_id current_user) (expenses d) in
  if negb (found existing_expense) then
    raise (HTTPException 404 "Expense not found")
  else if has_update expense_data then
    modify_db (fun d =>
      set_expenses
        (update_one (owned_expense_filter expense_id current_user)
                    (apply_expense_update expense_data) (expenses d)) d) ;;;
    check_budget_alerts now current_user
  else ret tt.

(** [DELETE /expenses/{expense_id}] *)
Definition delete_expense (expense_id current_user : string) : M unit :=
  d <- get_db ;;
  let deleted_count :=
    matched_count (owned_expense_filter expense_id current_user) (expenses d) in
  modify_db (fun d =>
    set_expenses
      (delete_one (owned_expense_filter expense_id current_user) (expenses d))
      d) ;;;
  if Nat.eqb deleted_count 0 then raise (HTTPException 404 "Expense not found")
  else ret tt.

(** ** Summary *)

Definition is_expense (t : Expense.t) : bool :=
  (Expense.type t =? "expense")%string.

Definition is_income (t : Expense.t) : bool :=
  (Expense.type t =? "income")%string.

(** The loop that fills [category_totals]. *)
Definition add_to_category_totals (category_totals : list (string * num))
    (transaction : Expense.t) : list (string * num) :=
  if is_expense transaction then
    let category := Expense.category transaction in
    dict_set category_totals category
      (add (dict_get category_totals category (of_int 0))
           (Expense.amount transaction))
  else category_totals.

Definition category_totals_of (all_transactions : list Expense.t)
    : list (string * num) :=
  fold_left add_to_category_totals all_transactions [].

(** The aggregation of [get_summary] over the transactions it fetched. *)
Definition summarize (all_transactions : list Expense.t) (period : string)
    (start_date end_date : option string) : Summary.t :=
  let total_expenses :=
    sum (map Expense.amount (filter is_expense all_transactions)) in
  let total_income :=
    sum (map Expense.amount (filter is_income all_transactions)) in
  let balance := sub total_income total_expenses in
  Summary.mk N total_expenses total_income balance
    (category_totals_of all_transactions)
    (List.length all_transactions) period start_date end_date.

Definition summary_query (start_date end_date : option string)
    (current_user : string) (e : Expense.t) : bool :=
  (Expense.user_id e =? current_user)%string &&
  (if truthy start_date && truthy end_date
   then String.leb (str_or_empty start_date) (Expense.date e) &&
        String.leb (Expense.date e) (str_or_empty end_date)
   else true).

(** [GET /analytics/summary]; [period] is ["month"] when the request
    does not give it. *)
Definition get_summary (today : date) (period start_date end_date : option string)
    (current_user : string) : M Summary.t :=
  let period := or_else period "month" in
  let '(start_date, end_date) :=
    if negb (period =? "custom")%string
    then let '(s, e) := get_date_range today period None None in (Some s, Some e)
    else (start_date, end_date) in
  d <- get_db ;;
  let all_transactions :=
    find_to_list (summary_query start_date end_date current_user) 1000
                 (expenses d) in
  ret (summarize all_transactions period start_date end_date).

End Server.

(** ** Charts and reports *)

(** [k in d] *)
Definition dict_mem {V : Type} (d : list (string * V)) (k : string) : bool :=
  existsb (fun kv => (fst kv =? k)%string) d.

(** [sorted(set(l))]: the distinct strings of [l], least first. *)
Fixpoint insert_sorted (x : string) (l : list string) : list string :=
  match l with
  | [] => [x]
  | y :: rest =>
      match String.compare x y with
      | Lt => x :: l
      | Eq => l
      | Gt => y :: insert_sorted x rest
      end
  end.

Definition sorted_set (l : list string) : list string :=
  fold_right insert_sorted [] l.

(** [str(x)] of an optional string, as an f-string renders it. *)
Definition str_of_optional (s : option string) : string :=
  match s with
  | Some s' => s'
  | None => "None"
  end.

(** [datetime.isoformat()] of the moment [t] microseconds after the
    epoch: the fraction is left out when it is zero. *)
Definition date_of_timestamp (t : Z) : date :=
  let days := t / one_day in
  if 0 <=? days then plus_days (mkdate 1970 1 1) days
  else minus_days (mkdate 1970 1 1) (- days).

Definition isoformat (t : Z) : string :=
  let seconds := (t mod one_day) / 1000000 in
  let microsecond := t mod 1000000 in
  date_str (date_of_timestamp t) ++ "T" ++
  zfill 2 (decimal (seconds / 3600)) ++ ":" ++
  zfill 2 (decimal (seconds / 60 mod 60)) ++ ":" ++
  zfill 2 (decimal (seconds mod 60)) ++
  (if microsecond =? 0 then "" else "." ++ zfill 6 (decimal microsecond)).

(** The dictionary [get_chart_data] returns. *)
Module Series.
Record t {N : PyNum} : Type := mk {
  labels : list string;
  data : list num
}.
End Series.

Module PieChart.
Record t {N : PyNum} : Type := mk {
  expenses : Series.t;
  income : Series.t
}.
End PieChart.

Module BarChart.
Record t {N : PyNum} : Type := mk {
  labels : list string;
  expenses : list num;
  income : list num
}.
End BarChart.

Module ChartData.
Record t {N : PyNum} : Type := mk {
  pie_chart : PieChart.t;
  bar_chart : BarChart.t;
  period : string;
  start_date : option string;
  end_date : option string
}.
End ChartData.

(** The dictionaries [generate_report] returns. *)
Module CategoryStats.
Record t {N : PyNum} : Type := mk {
  expenses : num;
  income : num;
  transactions : num
}.
End CategoryStats.

Module ReportSummary.
Record t {N : PyNum} : Type := mk {
  total_income : num;
  total_expenses : num;
  net_balance : num;
  total_transactions : nat
}.
End ReportSummary.

Module Report.
Record t {N : PyNum} : Type := mk {
  report_period : string;
  summary : ReportSummary.t;
  category_breakdown : list (string * CategoryStats.t);
  top_expense_categories : list (string * num);
  transactions : list Expense.t;
  generated_at : string
}.
End Report.

(** A subscript [d[k]] of a dictionary without the key [k] raises
    [KeyError(k)]; no handler catches it. *)
Inductive Outcome (A : Type) : Type :=
| Returned (a : A)
| KeyError (key : string).

Arguments Returned {A} a.
Arguments KeyError {A} key.

Section Analytics.
Context {N : PyNum}.

Local Notation "x <- m ;; k" := (bind m (fun x => k))
  (at level 100, m at next level, right associativity).

(** [d[k] = d.get(k, 0) + amount], and [d[k] += amount] on a
    [defaultdict(float)]. *)
Definition add_to (d : list (string * num)) (k : string) (amount : num)
    : list (string * num) :=
  dict_set d k (add (dict_get d k (of_int 0)) amount).

(** The first loop of [get_chart_data]: every transaction that is not of
    type ["expense"] goes to the income side. *)
Definition chart_categories (all_transactions : list Expense.t)
    : list (string * num) * list (string * num) :=
  fold_left
    (fun '(expense_categories, income_categories) transaction =>
       let category := Expense.category transaction in
       let amount := Expense.amount transaction in
       if is_expense transaction
       then (add_to expense_categories category amount, income_categories)
       else (expense_categories, add_to income_categories category amount))
    all_transactions ([], []).

(** The second loop, by date. *)
Definition chart_days (all_transactions : list Expense.t)
    : list (string * num) * list (string * num) :=
  fold_left
    (fun '(daily_spending, daily_income) transaction =>
       let transaction_date := Expense.date transaction in
       let amount := Expense.amount transaction in
       if is_expense transaction
       then (add_to daily_spending transaction_date amount, daily_income)
       else (daily_spending, add_to daily_income transaction_date amount))
    all_transactions ([], []).

Definition chart_of (all_transactions : list Expense.t) (period : string)
    (start_date end_date : option string) : ChartData.t :=
  let '(expense_categories, income_categories) :=
    chart_categories all_transactions in
  let '(daily_spending, daily_income) := chart_days all_transactions in
  let sorted_dates :=
    sorted_set (dict_keys daily_spending ++ dict_keys daily_income) in
  ChartData.mk N
    (PieChart.mk N
       (Series.mk N (dict_keys expense_categories)
                    (dict_values expense_categories))
       (Series.mk N (dict_keys income_categories)
                    (dict_values income_categories)))
    (BarChart.mk N sorted_dates
       (map (fun date => dict_get daily_spending date (of_int 0)) sorted_dates)
       (map (fun date => dict_get daily_income date (of_int 0)) sorted_dates))
    period start_date end_date.

(** [GET /analytics/charts] *)
Definition get_chart_data (today : date)
    (period start_date end_date : option string) (current_user : string)
    : M ChartData.t :=
  let period := or_else period "month" in
  let '(start_date, end_date) :=
    if negb (period =? "custom")%string
    then let '(s, e) := get_date_range today period None None in (Some s, Some e)
    else (start_date, end_date) in
  d <- get_db ;;
  let all_transactions :=
    find_to_list (summary_query start_date end_date current_user) 1000
                 (expenses d) in
  ret (chart_of all_transactions period start_date end_date).

(** [{"expenses": 0, "income": 0, "transactions": 0}] *)
Definition no_stats : CategoryStats.t :=
  CategoryStats.mk N (of_int 0) (of_int 0) (of_int 0).

(** [stats[key] += amount]; [None] is [KeyError(key)]. *)
Definition stats_add (stats : CategoryStats.t) (key : string) (amount : num)
    : option CategoryStats.t :=
  if (key =? "expenses")%string then
    Some (CategoryStats.mk N (add (CategoryStats.expenses stats) amount)
            (CategoryStats.income stats) (CategoryStats.transactions stats))
  else if (key =? "income")%string then
    Some (CategoryStats.mk N (CategoryStats.expenses stats)
            (add (CategoryStats.income stats) amount)
            (CategoryStats.transactions stats))
  else if (key =? "transactions")%string then
    Some (CategoryStats.mk N (CategoryStats.expenses stats)
            (CategoryStats.income stats)
            (add (CategoryStats.transactions stats) amount))
  else None.

(** The body of the loop that fills [category_stats]. *)
Definition count_transaction (category_stats : list (string * CategoryStats.t))
    (transaction : Expense.t) : Outcome (list (string * CategoryStats.t)) :=
  let category := Expense.category transaction in
  let transaction_type := Expense.type transaction in
  let amount := Expense.amount transaction in
  let category_stats :=
    if negb (dict_mem category_stats category)
    then dict_set category_stats category no_stats
    else category_stats in
  match stats_add (dict_get category_stats category no_stats)
                  transaction_type amount with
  | None => KeyError transaction_type
  | Some stats =>
      let category_stats := dict_set category_stats category stats in
      Returned
        (dict_set category_stats category
           (CategoryStats.mk N (CategoryStats.expenses stats)
              (CategoryStats.income stats)
              (add (CategoryStats.transactions stats) (of_int 1))))
  end.

Fixpoint category_stats_of (all_transactions : list Expense.t)
    (category_stats : list (string * CategoryStats.t))
    : Outcome (list (string * CategoryStats.t)) :=
  match all_transactions with
  | [] => Returned category_stats
  | transaction :: rest =>
      match count_transaction category_stats transaction with
      | Returned category_stats' => category_stats_of rest category_stats'
      | KeyError key => KeyError key
      end
  end.

(** [sorted([(cat, data["expenses"]) ... if data["expenses"] > 0],
    key=lambda x: x[1], reverse=True)[:5]] *)
Definition top_categories (category_stats : list (string * CategoryStats.t))
    : list (string * num) :=
  firstn 5
    (sort_desc (fun x y => le (snd y) (snd x))
       (map (fun '(cat, data) => (cat, CategoryStats.expenses data))
          (filter (fun '(cat, data) =>
                     gt (CategoryStats.expenses data) (of_int 0))
                  category_stats))).

Definition report_of (now : Z) (all_transactions : list Expense.t)
    (start_date end_date : option string) : Outcome Report.t :=
  let total_expenses :=
    sum (map Expense.amount (filter is_expense all_transactions)) in
  let total_income :=
    sum (map Expense.amount (filter is_income all_transactions)) in
  let balance := sub total_income total_expenses in
  match category_stats_of all_transactions [] with
  | KeyError key => KeyError key
  | Returned category_stats =>
      Returned
        (Report.mk N
           (str_of_optional start_date ++ " to " ++ str_of_optional end_date)
           (ReportSummary.mk N total_income total_expenses balance
              (List.length all_transactions))
           category_stats
           (top_categories category_stats)
           all_transactions
           (isoformat now))
  end.

(** [GET /reports/summary]: the transactions are fetched newest first.
    The result [KeyError key] stands for the request ending in that
    exception, which the route does not catch. *)
Definition generate_report (today : date) (now : Z)
    (period start_date end_date : option string) (current_user : string)
    : M (Outcome Report.t) :=
  let period := or_else period "month" in
  let '(start_date, end_date) :=
    if negb (period =? "custom")%string
    then let '(s, e) := get_date_range today period None None in (Some s, Some e)
    else (start_date, end_date) in
  d <- get_db ;;
  let all_transactions :=
    firstn 1000
      (sort_desc (fun a b => String.leb (Expense.date b) (Expense.date a))
         (filter (summary_query start_date end_date current_user)
                 (expenses d))) in
  ret (report_of now all_transactions start_date end_date).

End Analytics.

(** ** Categories *)

Definition PREDEFINED_CATEGORIES : list (string * string) :=
  [("Food & Dining", "🍽️");
   ("Transportation", "🚗");
   ("Bills & Utilities", "💡");
   ("Shopping", "🛍️");
   ("Healthcare", "🏥");
   ("Entertainment", "🎬");
   ("Travel", "✈️");
   ("Education", "📚");
   ("Insurance", "🛡️");
   ("Other", "📦")].

Module CustomCategory.
Record t {N : PyNum} : Type := mk {
  id : string;
  user_id : string;
  name : string;
  icon : string;
  goal : option num;
  created_at : Z
}.
End CustomCategory.

Module CategoryCreate.
Record t {N : PyNum} : Type := mk {
  name : string;
  icon : option string;
  goal : option num
}.
End CategoryCreate.

Module CategoryUpdate.
Record t {N : PyNum} : Type := mk {
  name : option string;
  icon : option string;
  goal : option num
}.
End CategoryUpdate.

(** An entry of the lists [get_categories] returns: a predefined one has
    the keys [name], [icon] and [is_custom]; a custom one also [goal] and
    [id]. *)
Inductive CategoryEntry {N : PyNum} : Type :=
| Predefined (name icon : string)
| Custom (name icon : string) (goal : option num) (id : string).

Module Categories.
Record t {N : PyNum} : Type := mk {
  predefined : list CategoryEntry;
  custom : list CategoryEntry;
  all : list CategoryEntry
}.
End Categories.

(** The handlers of the category routes work on the collection
    [custom_categories] alone; they take it and return it. *)
Section CategoryRoutes.
Context {N : PyNum}.

Definition user_category_filter (current_user : string) (c : CustomCategory.t)
    : bool :=
  (CustomCategory.user_id c =? current_user)%string.

Definition named_category_filter (current_user name : string)
    (c : CustomCategory.t) : bool :=
  (CustomCategory.user_id c =? current_user)%string &&
  (CustomCategory.name c =? name)%string.

Definition owned_category_filter (category_id current_user : string)
    (c : CustomCategory.t) : bool :=
  (CustomCategory.id c =? category_id)%string &&
  (CustomCategory.user_id c =? current_user)%string.

(** [GET /categories] *)
Definition get_categories (current_user : string)
    (custom_categories : list CustomCategory.t) : Categories.t :=
  let found_categories :=
    find_to_list (user_category_filter current_user) 100 custom_categories in
  let predefined_list :=
    map (fun '(name, icon) => Predefined name icon) PREDEFINED_CATEGORIES in
  let custom_list :=
    map (fun cat =>
           Custom (CustomCategory.name cat) (CustomCategory.icon cat)
                  (CustomCategory.goal cat) (CustomCategory.id cat))
        found_categories in
  Categories.mk N predefined_list custom_list (predefined_list ++ custom_list)%list.

(** [POST /categories]; [new_id] is what [str(uuid.uuid4())] returns. *)
Definition create_category (new_id : string) (now : Z)
    (category_data : CategoryCreate.t) (current_user : string)
    (custom_categories : list CustomCategory.t)
    : Result CustomCategory.t * list CustomCategory.t :=
  let existing :=
    find_one (named_category_filter current_user
                (CategoryCreate.name category_data)) custom_categories in
  if found existing then
    (Raise (HTTPException 400 "Category already exists"), custom_categories)
  else if dict_mem PREDEFINED_CATEGORIES (CategoryCreate.name category_data) then
    (Raise (HTTPException 400 "Category already exists in predefined list"),
     custom_categories)
  else
    let category :=
      CustomCategory.mk N new_id current_user
        (CategoryCreate.name category_data)
        (if truthy (CategoryCreate.icon category_data)
         then str_or_empty (CategoryCreate.icon category_data)
         else "📦")
        (CategoryCreate.goal category_data) now in
    (Ok category, insert_one category custom_categories).

Definition apply_category_update (category_data : CategoryUpdate.t)
    (c : CustomCategory.t) : CustomCategory.t :=
  CustomCategory.mk N (CustomCategory.id c) (CustomCategory.user_id c)
    (or_else (CategoryUpdate.name category_data) (CustomCategory.name c))
    (or_else (CategoryUpdate.icon category_data) (CustomCategory.icon c))
    (match CategoryUpdate.goal category_data with
     | Some v => Some v
     | None => CustomCategory.goal c
     end)
    (CustomCategory.created_at c).

(** [PUT /categories/{category_id}] *)
Definition update_category (category_id : string)
    (category_data : CategoryUpdate.t) (current_user : string)
    (custom_categories : list CustomCategory.t)
    : Result unit * list CustomCategory.t :=
  let existing_category :=
    find_one (owned_category_filter category_id current_user)
             custom_categories in
  if negb (found existing_category) then
    (Raise (HTTPException 404 "Category not found"), custom_categories)
  else if found (CategoryUpdate.name category_data) ||
          found (CategoryUpdate.icon category_data) ||
          found (CategoryUpdate.goal category_data)
  then
    (Ok tt,
     update_one (owned_category_filter category_id current_user)
                (apply_category_update category_data) custom_categories)
  else (Ok tt, custom_categories).

End CategoryRoutes.

(** * Properties *)

(** ** Numbers *)

Lemma Q_add_comm (x y : Q) : Qplus x y = Qplus y x.
Proof.
  destruct x as [a b], y as [c d]. unfold Qplus; cbn.
  f_equal; [apply Z.add_comm | apply Pos.mul_comm].
Qed.

Lemma Q_add_assoc (x y z : Q) : Qplus x (Qplus y z) = Qplus (Qplus x y) z.
Proof.
  destruct x as [a b], y as [c d], z as [e f]. unfold Qplus; cbn.
  f_equal; [|apply Pos.mul_assoc].
  rewrite !Pos2Z.inj_mul. ring.
Qed.

Lemma Q_add_0_l (x : Q) : Qplus (inject_Z 0) x = x.
Proof.
  destruct x as [a b]. unfold Qplus; cbn. now rewrite Z.mul_1_r.
Qed.

#[export] Instance Q_ExactAdd : ExactAdd Q_PyNum := {|
  add_comm := Q_add_comm;
  add_assoc := Q_add_assoc;
  add_0_l := Q_add_0_l
|}.

Example format_float_2f :
  float_format 2 105%float = "105.00" /\ float_format 1 0.125%float = "0.1" /\
  float_format 2 0.1%float = "0.10" /\ float_format 2 (-0.001)%float = "-0.00".
Proof. repeat split; vm_compute; reflexivity. Qed.

(** ** Period resolver *)

Example get_date_range_samples :
  get_date_range (mkdate 2024 2 10) "month" None None
    = ("2024-02-01", "2024-02-29") /\
  get_date_range (mkdate 2023 2 28) "month" None None
    = ("2023-02-01", "2023-02-28") /\
  get_date_range (mkdate 1900 2 1) "month" None None
    = ("1900-02-01", "1900-02-28") /\
  get_date_range (mkdate 2026 12 31) "month" None None
    = ("2026-12-01", "2026-12-31") /\
  get_date_range (mkdate 2026 11 4) "week" None None
    = ("2026-11-02", "2026-11-08") /\
  get_date_range (mkdate 2026 11 4) "year" None None
    = ("2026-01-01", "2026-12-31") /\
  get_date_range (mkdate 2026 11 4) "custom" (Some "2026-01-05") (Some "2025-01-01")
    = ("2026-01-05", "2025-01-01").
Proof. repeat split; vm_compute; reflexivity. Qed.

Lemma days_in_month_bounds (y m : Z) : 28 <= days_in_month y m <= 31.
Proof.
  unfold days_in_month.
  destruct (m =? 2); [destruct (is_leap y); lia|].
  destruct ((m =? 4) || (m =? 6) || (m =? 9) || (m =? 11)); lia.
Qed.

Lemma tomorrow_within (y m d : Z) :
  d < days_in_month y m -> tomorrow (mkdate y m d) = mkdate y m (d + 1).
Proof.
  intros H. unfold tomorrow. cbn [year month day].
  destruct (Z.ltb_spec d (days_in_month y m)); [reflexivity | lia].
Qed.

Lemma tomorrow_last (y m d : Z) :
  days_in_month y m <= d ->
  tomorrow (mkdate y m d) =
  if m =? 12 then mkdate (y + 1) 1 1 else mkdate y (m + 1) 1.
Proof.
  intros H. unfold tomorrow. cbn [year month day].
  destruct (Z.ltb_spec d (days_in_month y m)); [lia | reflexivity].
Qed.

Lemma yesterday_within (y m d : Z) :
  1 < d -> yesterday (mkdate y m d) = mkdate y m (d - 1).
Proof.
  intros H. unfold yesterday. cbn [year month day].
  destruct (Z.ltb_spec 1 d); [reflexivity | lia].
Qed.

Lemma yesterday_first (y m : Z) :
  yesterday (mkdate y m 1) =
  if m =? 1 then mkdate (y - 1) 12 31
  else mkdate y (m - 1) (days_in_month y (m - 1)).
Proof. reflexivity. Qed.

Lemma plus_days_4 (d : date) :
  plus_days d 4 = tomorrow (tomorrow (tomorrow (tomorrow d))).
Proof. reflexivity. Qed.


Lemma minus_days_1 (d : date) : minus_days d 1 = yesterday d.
Proof. reflexivity. Qed.

Lemma minus_days_2 (d : date) : minus_days d 2 = yesterday (yesterday d).
Proof. reflexivity. Qed.

Lemma minus_days_3 (d : date) :
  minus_days d 3 = yesterday (yesterday (yesterday d)).
Proof. reflexivity. Qed.

Lemma minus_days_4 (d : date) :
  minus_days d 4 = yesterday (yesterday (yesterday (yesterday d))).
Proof. reflexivity. Qed.

(** Day 28 plus four days, minus the day number reached, is the last day
    of the month, whatever its length. *)
Lemma month_bounds_spec (today : date) :
  valid_date today ->
  month_bounds today =
    (mkdate (year today) (month today) 1,
     mkdate (year today) (month today)
            (days_in_month (year today) (month today))).
Proof.
  destruct today as [y m d]. unfold valid_date, month_bounds, replace_day.
  cbn [year month day]. intros (_ & Hm & _). f_equal.
  rewrite plus_days_4.
  pose proof (days_in_month_bounds y m) as B.
  pose proof (days_in_month_bounds (y + 1) 1) as B1.
  pose proof (days_in_month_bounds y (m + 1)) as B2.
  assert (D12 : m = 12 -> days_in_month y m = 31) by (intros ->; reflexivity).
  assert (C : days_in_month y m = 28 \/ days_in_month y m = 29 \/
              days_in_month y m = 30 \/ days_in_month y m = 31) by lia.
  destruct (Z.eqb_spec m 12) as [E12 | N12].
  - rewrite (D12 E12) in *. subst m.
    rewrite (tomorrow_within y 12 28), (tomorrow_within y 12 (28 + 1)),
      (tomorrow_within y 12 (28 + 1 + 1)), (tomorrow_last y 12 (28 + 1 + 1 + 1))
      by (rewrite ?D12 by reflexivity; lia).
    cbn [Z.eqb Pos.eqb day]. rewrite minus_days_1, yesterday_first.
    cbn [Z.eqb Pos.eqb]. f_equal; lia.
  - assert (M1 : (m + 1 =? 1) = false) by (apply Z.eqb_neq; lia).
    assert (M12 : (m =? 12) = false) by (apply Z.eqb_neq; lia).
    assert (R : m + 1 - 1 = m) by lia.
    destruct C as [C | [C | [C | C]]]; rewrite C.
    + rewrite (tomorrow_last y m 28) by lia. rewrite M12.
      rewrite !tomorrow_within by lia. cbn [day Z.add Pos.add Pos.succ].
      rewrite minus_days_4, !yesterday_within by lia.
      cbn [Z.sub Z.add Z.opp Z.pos_sub Pos.pred_double].
      rewrite yesterday_first, M1, R, C. reflexivity.
    + rewrite (tomorrow_within y m 28) by lia.
      rewrite (tomorrow_last y m (28 + 1)) by lia. rewrite M12.
      rewrite !tomorrow_within by lia. cbn [day Z.add Pos.add Pos.succ].
      rewrite minus_days_3, !yesterday_within by lia.
      cbn [Z.sub Z.add Z.opp Z.pos_sub Pos.pred_double].
      rewrite yesterday_first, M1, R, C. reflexivity.
    + rewrite (tomorrow_within y m 28), (tomorrow_within y m (28 + 1)) by lia.
      rewrite (tomorrow_last y m (28 + 1 + 1)) by lia. rewrite M12.
      rewrite !tomorrow_within by lia. cbn [day Z.add Pos.add Pos.succ].
      rewrite minus_days_2, !yesterday_within by lia.
      cbn [Z.sub Z.add Z.opp Z.pos_sub Pos.pred_double].
      rewrite yesterday_first, M1, R, C. reflexivity.
    + rewrite (tomorrow_within y m 28), (tomorrow_within y m (28 + 1)),
        (tomorrow_within y m (28 + 1 + 1)) by lia.
      rewrite (tomorrow_last y m (28 + 1 + 1 + 1)) by lia. rewrite M12.
      cbn [day]. rewrite minus_days_1.
      rewrite yesterday_first, M1, R, C. reflexivity.
Qed.






(** ** The evaluator as a function on worlds

    [check_budget] never raises; what it does to the world is written
    out below, and a pass is the fold of it over the fetched budgets. *)

Section EvaluatorFacts.
Context {N : PyNum}.
Local Open Scope list_scope.

(** The percentage [percentage_of] returns. *)
Definition percentage_value (current_spent limit_amount : num) : num :=
  if gt limit_amount (of_int 0) then
    match truediv current_spent limit_amount with
    | Some q => mul q (of_int 100)
    | None => of_int 0
    end
  else of_int 0.

(** The [current_spent] a pass computes for a budget. *)
Definition spent_of (user_id : string) (budget : Budget.t)
    (stored : list Expense.t) : num :=
  sum (map Expense.amount
         (find_to_list (budget_expense_filter user_id budget) 1000 stored)).

(** The deduplication query finds an alert. *)
Definition recently_alerted (budget_id alert_type : string) (now : Z)
    (alerts : list BudgetAlert.t) : bool :=
  found (find_one (recent_alert_filter budget_id alert_type (now - one_day))
                  alerts).

(** The alerts the evaluation of one budget inserts: none or one. *)
Definition new_alerts (now : Z) (user_id : string) (budget : Budget.t)
    (d : DB) (new_id : string) : list BudgetAlert.t :=
  let current_spent := spent_of user_id budget (expenses d) in
  let percentage := percentage_value current_spent (Budget.limit_amount budget) in
  if ge percentage (of_int 100) &&
     negb (recently_alerted (Budget.id budget) "exceeded" now (budget_alerts d))
  then [BudgetAlert.mk N new_id user_id (Budget.id budget)
          (exceeded_message budget current_spent) "exceeded" percentage now false]
  else if ge percentage (of_int 80) &&
     negb (recently_alerted (Budget.id budget) "warning" now (budget_alerts d))
  then [BudgetAlert.mk N new_id user_id (Budget.id budget)
          (warning_message budget current_spent percentage)
          "warning" percentage now false]
  else [].

Definition refresh_spent (user_id : string) (budget : Budget.t) (d : DB)
    : list Budget.t :=
  update_one (fun b => (Budget.id b =? Budget.id budget)%string)
             (Budget.set_current_spent (spent_of user_id budget (expenses d)))
             (budgets d).

Definition after_check_budget (now : Z) (user_id : string) (budget : Budget.t)
    (w : World) : World :=
  let d := db w in
  let inserted := new_alerts now user_id budget d (uuid_source w (uuid_drawn w)) in
  mkWorld N
    (mkDB N (expenses d) (refresh_spent user_id budget d)
          (budget_alerts d ++ inserted))
    (uuid_source w) (uuid_drawn w + List.length inserted)%nat (evaluations w).

Definition started_pass (w : World) : World :=
  mkWorld N (db w) (uuid_source w) (uuid_drawn w) (S (evaluations w)).

Definition after_pass (now : Z) (user_id : string) (w : World) : World :=
  fold_left (fun w' b => after_check_budget now user_id b w')
    (find_to_list (active_budget_filter user_id) 100 (budgets (db w)))
    (started_pass w).

Lemma percentage_of_eq (current_spent limit_amount : num) (w : World) :
  percentage_of current_spent limit_amount w
  = (Ok (percentage_value current_spent limit_amount), w).
Proof.
  unfold percentage_of, percentage_value.
  destruct (gt limit_amount (of_int 0)) eqn:G; [|reflexivity].
  destruct (truediv current_spent limit_amount) eqn:T; [reflexivity|].
  exfalso. exact (truediv_pos current_spent limit_amount G T).
Qed.

Lemma world_eta (w : World) :
  mkWorld N (db w) (uuid_source w) (uuid_drawn w) (evaluations w) = w.
Proof. destruct w; reflexivity. Qed.

Lemma check_budget_eq (now : Z) (user_id : string) (budget : Budget.t)
    (w : World) :
  check_budget now user_id budget w
  = (Ok tt, after_check_budget now user_id budget w).
Proof.
  unfold check_budget, bind, get_db. rewrite percentage_of_eq.
  unfold after_check_budget, new_alerts, recently_alerted, refresh_spent,
    spent_of, modify_db, with_db, set_budgets, set_budget_alerts, uuid4,
    insert_one, ret.
  cbn [db expenses budgets budget_alerts uuid_source uuid_drawn evaluations
       negb andb].
  rewrite andb_true_r.
  destruct (ge _ (of_int 100) && _) eqn:E1.
  - cbn [List.length]. rewrite Nat.add_1_r. reflexivity.
  - destruct (ge _ (of_int 80) && _) eqn:E2.
    + cbn [List.length]. rewrite Nat.add_1_r. reflexivity.
    + cbn [List.length]. rewrite Nat.add_0_r, app_nil_r.
      destruct w as [[es bs als] src drawn evs]. reflexivity.
Qed.

Lemma for_each_eq {A : Type} (body : A -> M unit) (f : A -> World -> World)
    (l : list A) :
  (forall x w, body x w = (Ok tt, f x w)) ->
  forall w, for_each l body w = (Ok tt, fold_left (fun w' x => f x w') l w).
Proof.
  intros H. induction l as [|x l IH]; intros w; [reflexivity|].
  cbn [for_each fold_left]. unfold bind. rewrite H. apply IH.
Qed.

Lemma check_budget_alerts_eq (now : Z) (user_id : string) (w : World) :
  check_budget_alerts now user_id w = (Ok tt, after_pass now user_id w).
Proof.
  unfold check_budget_alerts, bind, count_evaluation, get_db.
  cbn [db].
  rewrite (for_each_eq _ (after_check_budget now user_id));
    [reflexivity | intros; apply check_budget_eq].
Qed.

(** *** What a pass leaves alone *)

Lemma after_check_budget_expenses now user_id budget (w : World) :
  expenses (db (after_check_budget now user_id budget w)) = expenses (db w).
Proof. reflexivity. Qed.

Lemma fold_check_expenses now user_id (l : list Budget.t) (w : World) :
  expenses (db (fold_left (fun w' b => after_check_budget now user_id b w') l w))
  = expenses (db w).
Proof.
  revert w. induction l as [|b l IH]; intros w; [reflexivity|].
  cbn [fold_left]. rewrite IH. reflexivity.
Qed.

Lemma after_pass_expenses now user_id (w : World) :
  expenses (db (after_pass now user_id w)) = expenses (db w).
Proof. unfold after_pass. rewrite fold_check_expenses. reflexivity. Qed.

Lemma fold_check_evaluations now user_id (l : list Budget.t) (w : World) :
  evaluations (fold_left (fun w' b => after_check_budget now user_id b w') l w)
  = evaluations w.
Proof.
  revert w. induction l as [|b l IH]; intros w; [reflexivity|].
  cbn [fold_left]. rewrite IH. reflexivity.
Qed.

Lemma after_pass_evaluations now user_id (w : World) :
  evaluations (after_pass now user_id w) = S (evaluations w).
Proof. unfold after_pass. rewrite fold_check_evaluations. reflexivity. Qed.

(** *** The budgets after a pass *)

(** The write-back of one budget of the fetched list. *)
Definition write_back (user_id : string) (stored : list Expense.t)
    (bs : list Budget.t) (budget : Budget.t) : list Budget.t :=
  update_one (fun b => (Budget.id b =? Budget.id budget)%string)
             (Budget.set_current_spent (spent_of user_id budget stored)) bs.

Lemma fold_check_budgets now user_id (l : list Budget.t) (w : World) :
  budgets (db (fold_left (fun w' b => after_check_budget now user_id b w') l w))
  = fold_left (write_back user_id (expenses (db w))) l (budgets (db w)).
Proof.
  revert w. induction l as [|b l IH]; intros w; [reflexivity|].
  cbn [fold_left]. rewrite IH. reflexivity.
Qed.

Lemma after_pass_budgets now user_id (w : World) :
  budgets (db (after_pass now user_id w))
  = fold_left (write_back user_id (expenses (db w)))
      (find_to_list (active_budget_filter user_id) 100 (budgets (db w)))
      (budgets (db w)).
Proof. unfold after_pass. rewrite fold_check_budgets. reflexivity. Qed.

(** *** Running the write-backs twice

    A write-back reads the fetched budget's id, category and dates, and
    changes only [current_spent]; running the same write-backs again
    changes nothing. *)

(** A budget with its [current_spent] blanked. *)
Definition blank (b : Budget.t) : Budget.t :=
  Budget.set_current_spent (of_int 0) b.

Lemma blank_set_current_spent (v : num) (b : Budget.t) :
  blank (Budget.set_current_spent v b) = blank b.
Proof. reflexivity. Qed.

Lemma write_back_blank user_id stored (bs : list Budget.t) (x : Budget.t) :
  write_back user_id stored bs (blank x) = write_back user_id stored bs x.
Proof. reflexivity. Qed.

Lemma fold_write_back_blank user_id stored (l : list Budget.t) :
  forall bs,
    fold_left (write_back user_id stored) (map blank l) bs
    = fold_left (write_back user_id stored) l bs.
Proof.
  induction l as [|x l IH]; intros bs; [reflexivity|].
  cbn [map fold_left]. rewrite write_back_blank. apply IH.
Qed.

Lemma blank_update_one (p : Budget.t -> bool) (v : num) (bs : list Budget.t) :
  map blank (update_one p (Budget.set_current_spent v) bs) = map blank bs.
Proof.
  induction bs as [|b bs IH]; [reflexivity|].
  cbn [update_one]. destruct (p b); cbn [map]; [reflexivity|].
  now rewrite IH.
Qed.

Lemma blank_fold_write_back user_id stored (l : list Budget.t) :
  forall bs,
    map blank (fold_left (write_back user_id stored) l bs) = map blank bs.
Proof.
  induction l as [|x l IH]; intros bs; [reflexivity|].
  cbn [fold_left]. rewrite IH. apply blank_update_one.
Qed.

Lemma filter_blank (p : Budget.t -> bool) (bs : list Budget.t) :
  (forall b, p (blank b) = p b) ->
  map blank (filter p bs) = filter p (map blank bs).
Proof.
  intros H. induction bs as [|b bs IH]; [reflexivity|].
  cbn [filter map]. rewrite H. destruct (p b); cbn [map]; now rewrite IH.
Qed.

Lemma blank_find_to_list (p : Budget.t -> bool) (n : nat) (bs bs' : list Budget.t) :
  (forall b, p (blank b) = p b) ->
  map blank bs' = map blank bs ->
  map blank (find_to_list p n bs') = map blank (find_to_list p n bs).
Proof.
  intros H E. unfold find_to_list.
  rewrite <- !firstn_map, !(filter_blank p _ H), E. reflexivity.
Qed.

(** What the write-backs of [l] do to one stored budget that is the
    first of its id. *)
Definition write_back_head (user_id : string) (stored : list Expense.t)
    (l : list Budget.t) (b : Budget.t) : Budget.t :=
  fold_left
    (fun b' x =>
       if (Budget.id b' =? Budget.id x)%string
       then Budget.set_current_spent (spent_of user_id x stored) b' else b')
    l b.

Definition other_id (b x : Budget.t) : bool :=
  negb (Budget.id b =? Budget.id x)%string.

Lemma write_back_head_id user_id stored (l : list Budget.t) :
  forall b, Budget.id (write_back_head user_id stored l b) = Budget.id b.
Proof.
  unfold write_back_head.
  induction l as [|x l IH]; intros b; [reflexivity|].
  cbn [fold_left]. rewrite IH.
  destruct (Budget.id b =? Budget.id x)%string; reflexivity.
Qed.

Lemma fold_write_back_cons user_id stored (l : list Budget.t) :
  forall b r,
    fold_left (write_back user_id stored) l (b :: r)
    = write_back_head user_id stored l b
      :: fold_left (write_back user_id stored) (filter (other_id b) l) r.
Proof.
  unfold write_back_head.
  induction l as [|x l IH]; intros b r; [reflexivity|].
  cbn [fold_left filter]. unfold write_back at 2, other_id at 1.
  cbn [update_one].
  destruct (Budget.id b =? Budget.id x)%string eqn:E; cbn [negb].
  - rewrite IH. unfold other_id. reflexivity.
  - rewrite IH. reflexivity.
Qed.

(** The last value written to a budget of id [i]. *)
Fixpoint last_written (user_id : string) (stored : list Expense.t)
    (l : list Budget.t) (i : string) (acc : option num) : option num :=
  match l with
  | [] => acc
  | x :: l' =>
      last_written user_id stored l' i
        (if (i =? Budget.id x)%string
         then Some (spent_of user_id x stored) else acc)
  end.

Definition set_opt (o : option num) (b : Budget.t) : Budget.t :=
  match o with
  | Some v => Budget.set_current_spent v b
  | None => b
  end.

Lemma write_back_head_last user_id stored (l : list Budget.t) :
  forall b acc,
    write_back_head user_id stored l (set_opt acc b)
    = set_opt (last_written user_id stored l (Budget.id b) acc) b.
Proof.
  unfold write_back_head.
  induction l as [|x l IH]; intros b acc; [reflexivity|].
  cbn [fold_left last_written].
  assert (I : Budget.id (set_opt acc b) = Budget.id b)
    by (destruct acc; reflexivity).
  rewrite I. destruct (Budget.id b =? Budget.id x)%string.
  - rewrite <- (IH b (Some (spent_of user_id x stored))).
    destruct acc; reflexivity.
  - apply IH.
Qed.

Lemma last_written_acc user_id stored (l : list Budget.t) (i : string) :
  forall acc,
    last_written user_id stored l i
      (last_written user_id stored l i acc)
    = last_written user_id stored l i acc.
Proof.
  assert (G : forall acc,
      last_written user_id stored l i acc = acc \/
      forall acc', last_written user_id stored l i acc'
                   = last_written user_id stored l i acc).
  { induction l as [|x l IH]; intros acc; [left; reflexivity|].
    cbn [last_written]. destruct (i =? Budget.id x)%string.
    - right. intros acc'. reflexivity.
    - destruct (IH acc) as [E | E]; [left; exact E|].
      right. intros acc'. apply E. }
  intros acc. destruct (G acc) as [E | E].
  - rewrite E. exact E.
  - apply E.
Qed.

Lemma write_back_head_twice user_id stored (l : list Budget.t) (b : Budget.t) :
  write_back_head user_id stored l (write_back_head user_id stored l b)
  = write_back_head user_id stored l b.
Proof.
  pose proof (write_back_head_last user_id stored l b None) as E.
  cbn [set_opt] in E. rewrite E.
  rewrite write_back_head_last, last_written_acc. reflexivity.
Qed.

Lemma fold_write_back_twice user_id stored (bs : list Budget.t) :
  forall l,
    fold_left (write_back user_id stored) l
      (fold_left (write_back user_id stored) l bs)
    = fold_left (write_back user_id stored) l bs.
Proof.
  induction bs as [|b r IH]; intros l.
  - assert (E : forall l', fold_left (write_back user_id stored) l' [] = []).
    { induction l' as [|x l' IH']; [reflexivity | exact IH']. }
    now rewrite !E.
  - rewrite !fold_write_back_cons.
    rewrite write_back_head_twice. f_equal.
    assert (F : filter (other_id (write_back_head user_id stored l b)) l
                = filter (other_id b) l).
    { apply filter_ext. intros x. unfold other_id.
      now rewrite write_back_head_id. }
    rewrite F. apply IH.
Qed.

Lemma active_budget_filter_blank user_id (b : Budget.t) :
  active_budget_filter user_id (blank b) = active_budget_filter user_id b.
Proof. reflexivity. Qed.

(** A second pass over the same expenses leaves every budget as the
    first pass left it. *)
Lemma after_pass_budgets_twice now1 now2 user_id (w : World) :
  budgets (db (after_pass now2 user_id (after_pass now1 user_id w)))
  = budgets (db (after_pass now1 user_id w)).
Proof.
  rewrite (after_pass_budgets now2), after_pass_expenses.
  rewrite (after_pass_budgets now1).
  set (stored := expenses (db w)). set (bs := budgets (db w)).
  set (l := find_to_list (active_budget_filter user_id) 100 bs).
  set (bs' := fold_left (write_back user_id stored) l bs).
  rewrite <- (fold_write_back_blank user_id stored
                (find_to_list (active_budget_filter user_id) 100 bs')).
  rewrite (blank_find_to_list _ 100 bs bs' (active_budget_filter_blank user_id)
             (blank_fold_write_back user_id stored l bs)).
  fold l. rewrite fold_write_back_blank. apply fold_write_back_twice.
Qed.

(** *** The alerts a pass inserts *)

(** Every alert of [inserted] was created at [now], for a budget of
    [fetched], and when it was inserted no alert of its budget and kind
    created at or after [now - one_day] was stored: neither in [old] nor
    among those inserted before it. *)
Fixpoint deduplicated (now : Z) (fetched : list Budget.t)
    (old inserted : list BudgetAlert.t) : Prop :=
  match inserted with
  | [] => True
  | a :: rest =>
      (BudgetAlert.created_at a = now /\
       In (BudgetAlert.budget_id a) (map Budget.id fetched) /\
       recently_alerted (BudgetAlert.budget_id a) (BudgetAlert.alert_type a)
                        now old = false) /\
      deduplicated now fetched (old ++ [a]) rest
  end.

Lemma deduplicated_app now fetched (i1 : list BudgetAlert.t) :
  forall old i2,
    deduplicated now fetched old i1 ->
    deduplicated now fetched (old ++ i1) i2 ->
    deduplicated now fetched old (i1 ++ i2).
Proof.
  induction i1 as [|a i1 IH]; intros old i2 H1 H2.
  - now rewrite app_nil_r in H2.
  - cbn [deduplicated app] in *. destruct H1 as [Ha H1]. split; [exact Ha|].
    apply IH; [exact H1|]. now rewrite <- app_assoc.
Qed.

Lemma deduplicated_more_fetched now fetched fetched' (ins : list BudgetAlert.t) :
  (forall i, In i (map Budget.id fetched) -> In i (map Budget.id fetched')) ->
  forall old,
    deduplicated now fetched old ins -> deduplicated now fetched' old ins.
Proof.
  intros S. induction ins as [|a ins IH]; intros old H; [exact I|].
  cbn [deduplicated] in *. destruct H as [(H1 & H2 & H3) H4].
  split; [split; [exact H1 | split; [apply S, H2 | exact H3]] | apply IH, H4].
Qed.

Lemma recently_alerted_false (budget_id alert_type : string) (now : Z)
    (alerts : list BudgetAlert.t) :
  recently_alerted budget_id alert_type now alerts = false <->
  forall a, In a alerts ->
    recent_alert_filter budget_id alert_type (now - one_day) a = false.
Proof.
  unfold recently_alerted, find_one. split.
  - intros H a Ha.
    destruct (find _ alerts) eqn:F; [discriminate|].
    exact (find_none _ _ F a Ha).
  - intros H. destruct (find _ alerts) eqn:F; [|reflexivity].
    apply find_some in F. destruct F as [Ha Hf].
    rewrite (H _ Ha) in Hf. discriminate.
Qed.

(** An inserted alert has no recent alert of its budget and kind before it. *)
Lemma deduplicated_In now fetched (ins : list BudgetAlert.t) :
  forall old a,
    deduplicated now fetched old ins -> In a ins ->
    BudgetAlert.created_at a = now /\
    In (BudgetAlert.budget_id a) (map Budget.id fetched) /\
    forall a', In a' old ->
      recent_alert_filter (BudgetAlert.budget_id a) (BudgetAlert.alert_type a)
                          (now - one_day) a' = false.
Proof.
  induction ins as [|x ins IH]; intros old a H Ha; [destruct Ha|].
  cbn [deduplicated] in H. destruct H as [(H1 & H2 & H3) H4].
  destruct Ha as [-> | Ha].
  - split; [exact H1|]. split; [exact H2|].
    apply recently_alerted_false. exact H3.
  - destruct (IH _ _ H4 Ha) as (E1 & E2 & E3).
    split; [exact E1|]. split; [exact E2|].
    intros a' Ha'. apply E3. apply in_or_app. left. exact Ha'.
Qed.

Lemma new_alerts_deduplicated now user_id (budget : Budget.t) (d : DB) new_id :
  deduplicated now [budget] (budget_alerts d)
    (new_alerts now user_id budget d new_id).
Proof.
  unfold new_alerts.
  destruct (ge _ (of_int 100) && _) eqn:E1.
  - apply andb_prop in E1. destruct E1 as [_ E1]. apply negb_true_iff in E1.
    cbn. repeat split; auto.
  - destruct (ge _ (of_int 80) && _) eqn:E2; [|exact I].
    apply andb_prop in E2. destruct E2 as [_ E2]. apply negb_true_iff in E2.
    cbn. repeat split; auto.
Qed.

Lemma new_alerts_length now user_id (budget : Budget.t) (d : DB) new_id :
  (List.length (new_alerts now user_id budget d new_id) <= 1)%nat.
Proof.
  unfold new_alerts.
  destruct (ge _ (of_int 100) && _); [cbn; lia|].
  destruct (ge _ (of_int 80) && _); cbn; lia.
Qed.

Lemma fold_check_alerts now user_id (l : list Budget.t) :
  forall w : World,
  exists inserted,
    budget_alerts
      (db (fold_left (fun w' b => after_check_budget now user_id b w') l w))
    = budget_alerts (db w) ++ inserted /\
    deduplicated now l (budget_alerts (db w)) inserted /\
    (List.length inserted <= List.length l)%nat.
Proof.
  induction l as [|b l IH]; intros w.
  - exists []. cbn. rewrite app_nil_r. repeat split; auto.
  - cbn [fold_left].
    destruct (IH (after_check_budget now user_id b w)) as (ins & E & D & L).
    exists (new_alerts now user_id b (db w) (uuid_source w (uuid_drawn w)) ++ ins).
    split; [|split].
    + rewrite E. cbn. now rewrite app_assoc.
    + apply deduplicated_app.
      * apply (deduplicated_more_fetched now [b]);
          [|apply new_alerts_deduplicated].
        intros i [<- | []]. left. reflexivity.
      * apply (deduplicated_more_fetched now l); [|exact D].
        intros i Hi. right. exact Hi.
    + rewrite length_app. cbn [List.length].
      pose proof (new_alerts_length now user_id b (db w)
                    (uuid_source w (uuid_drawn w))). lia.
Qed.

Lemma after_pass_alerts now user_id (w : World) :
  exists inserted,
    budget_alerts (db (after_pass now user_id w))
    = budget_alerts (db w) ++ inserted /\
    deduplicated now
      (find_to_list (active_budget_filter user_id) 100 (budgets (db w)))
      (budget_alerts (db w)) inserted /\
    (List.length inserted <= 100)%nat.
Proof.
  unfold after_pass.
  destruct (fold_check_alerts now user_id
              (find_to_list (active_budget_filter user_id) 100 (budgets (db w)))
              (started_pass w)) as (ins & E & D & L).
  exists ins. split; [exact E|]. split; [exact D|].
  unfold find_to_list in L. rewrite length_firstn in L. lia.
Qed.

(** *** The budgets after a pass, when ids are unique

    Budget ids are UUIDs.  When no two stored budgets share an id, a pass
    refreshes exactly the fetched budgets and leaves the others as they
    are. *)

Definition fetched_in (l : list Budget.t) (b : Budget.t) : bool :=
  existsb (fun x => (Budget.id b =? Budget.id x)%string) l.

(** The budget with its [current_spent] recomputed. *)
Definition refreshed (user_id : string) (stored : list Expense.t)
    (b : Budget.t) : Budget.t :=
  Budget.set_current_spent (spent_of user_id b stored) b.

Lemma last_written_cases user_id stored (l : list Budget.t) (i : string) :
  forall acc,
    (existsb (fun x => (i =? Budget.id x)%string) l = false /\
     last_written user_id stored l i acc = acc) \/
    (existsb (fun x => (i =? Budget.id x)%string) l = true /\
     exists x, In x l /\ i = Budget.id x /\
       last_written user_id stored l i acc = Some (spent_of user_id x stored)).
Proof.
  induction l as [|x l IH]; intros acc; [left; split; reflexivity|].
  cbn [last_written existsb].
  destruct (i =? Budget.id x)%string eqn:E.
  - right. split; [reflexivity|].
    destruct (IH (Some (spent_of user_id x stored))) as [[_ H] | [_ H]].
    + exists x. split; [left; reflexivity|].
      split; [now apply String.eqb_eq | exact H].
    + destruct H as (y & Hy & Hi & Hl). exists y.
      split; [right; exact Hy | split; assumption].
  - destruct (IH acc) as [[H1 H2] | [H1 H]].
    + left. split; assumption.
    + right. split; [exact H1|]. destruct H as (y & Hy & Hi & Hl).
      exists y. split; [right; exact Hy | split; assumption].
Qed.

Lemma same_id_same_budget (bs : list Budget.t) (x y : Budget.t) :
  NoDup (map Budget.id bs) -> In x bs -> In y bs ->
  Budget.id x = Budget.id y -> x = y.
Proof.
  induction bs as [|b bs IH]; intros ND Hx Hy E; [destruct Hx|].
  cbn [map] in ND. apply NoDup_cons_iff in ND. destruct ND as [Nin ND].
  destruct Hx as [-> | Hx], Hy as [-> | Hy].
  - reflexivity.
  - exfalso. apply Nin. rewrite E. now apply in_map.
  - exfalso. apply Nin. rewrite <- E. now apply in_map.
  - now apply IH.
Qed.

Lemma fold_write_back_unique user_id stored (bs : list Budget.t) :
  forall l,
    NoDup (map Budget.id bs) ->
    (forall x, In x l -> In x bs) ->
    fold_left (write_back user_id stored) l bs
    = map (fun b => if fetched_in l b then refreshed user_id stored b else b) bs.
Proof.
  induction bs as [|b r IH]; intros l ND Sub.
  - destruct l as [|x l]; [reflexivity|]. destruct (Sub x (or_introl eq_refl)).
  - rewrite fold_write_back_cons. cbn [map]. f_equal.
    + pose proof (write_back_head_last user_id stored l b None) as E.
      cbn [set_opt] in E. rewrite E. unfold fetched_in.
      destruct (last_written_cases user_id stored l (Budget.id b) None)
        as [[H1 H2] | [H1 (x & Hx & Hi & H2)]]; rewrite H1, H2; [reflexivity|].
      cbn [set_opt]. unfold refreshed.
      assert (x = b) as ->; [|reflexivity].
      apply (same_id_same_budget (b :: r)); auto.
      left. reflexivity.
    + cbn [map] in ND. apply NoDup_cons_iff in ND. destruct ND as [Nin ND].
      rewrite IH; [|exact ND|].
      * apply map_ext_in. intros c Hc.
        assert (Hne : Budget.id c <> Budget.id b).
        { intros E. apply Nin. rewrite <- E. now apply in_map. }
        assert (F : fetched_in (filter (other_id b) l) c = fetched_in l c).
        { unfold fetched_in. clear - Hne.
          induction l as [|x l IHl]; [reflexivity|].
          cbn [filter existsb]. unfold other_id at 1.
          destruct (Budget.id b =? Budget.id x)%string eqn:Eb; cbn [negb].
          - apply String.eqb_eq in Eb.
            assert (Ec : (Budget.id c =? Budget.id x)%string = false).
            { apply String.eqb_neq. congruence. }
            rewrite Ec. exact IHl.
          - cbn [existsb]. now rewrite IHl. }
        now rewrite F.
      * intros x Hx. apply filter_In in Hx. destruct Hx as [Hx Ho].
        destruct (Sub x Hx) as [<- | Hr]; [|exact Hr].
        unfold other_id in Ho. rewrite String.eqb_refl in Ho. discriminate.
Qed.

Lemma In_firstn {A : Type} (n : nat) (l : list A) (x : A) :
  In x (firstn n l) -> In x l.
Proof.
  intros H. rewrite <- (firstn_skipn n l). apply in_or_app. left. exact H.
Qed.

Lemma find_to_list_In {A : Type} (p : A -> bool) (n : nat) (l : list A) (x : A) :
  In x (find_to_list p n l) -> In x l /\ p x = true.
Proof.
  unfold find_to_list. intros H. apply In_firstn in H.
  now apply filter_In in H.
Qed.

Lemma after_pass_budgets_unique now user_id (w : World) :
  NoDup (map Budget.id (budgets (db w))) ->
  budgets (db (after_pass now user_id w))
  = map (fun b =>
           if fetched_in
                (find_to_list (active_budget_filter user_id) 100 (budgets (db w)))
                b
           then refreshed user_id (expenses (db w)) b else b)
        (budgets (db w)).
Proof.
  intros ND. rewrite after_pass_budgets.
  apply fold_write_back_unique; [exact ND|].
  intros x Hx. now apply find_to_list_In in Hx.
Qed.

Lemma fetched_in_In (l : list Budget.t) (b : Budget.t) :
  In b l -> fetched_in l b = true.
Proof.
  intros H. unfold fetched_in. apply existsb_exists.
  exists b. split; [exact H | apply String.eqb_refl].
Qed.

End EvaluatorFacts.

(** ** Budget evaluator *)

Section EvaluatorProperties.
Context {N : PyNum}.
Local Open Scope list_scope.

(** The threshold policy in the specification's words: the kind of alert
    a percentage calls for. *)
Definition spec_candidate (percentage : num) : option string :=
  if ge percentage (of_int 100) then Some "exceeded"
  else if ge percentage (of_int 80) then Some "warning"
  else None.

(** The percentage the evaluator computes for a budget. *)
Definition budget_percentage (user_id : string) (budget : Budget.t)
    (w : World) : num :=
  percentage_value (spent_of user_id budget (expenses (db w)))
                   (Budget.limit_amount budget).

(** C4: for a budget whose limit is zero or negative the percentage is 0
    and nothing is divided; the evaluation of such a budget does not
    raise, and no pass ever raises. *)
Theorem C4_nonpositive_limit (now : Z) (user_id : string) (budget : Budget.t)
    (current_spent : num) (w : World) :
  le (Budget.limit_amount budget) (of_int 0) = true ->
  percentage_of current_spent (Budget.limit_amount budget) w
    = (Ok (of_int 0), w) /\
  fst (check_budget now user_id budget w) = Ok tt /\
  (forall w', fst (check_budget_alerts now user_id w') = Ok tt).
Proof.
  intros H. split; [|split].
  - unfold percentage_of, gt. rewrite (le_0_not_pos _ H). reflexivity.
  - rewrite check_budget_eq. reflexivity.
  - intros w'. rewrite check_budget_alerts_eq. reflexivity.
Qed.

Lemma new_alerts_candidate now user_id (budget : Budget.t) (w : World)
    (kind : string) :
  spec_candidate (budget_percentage user_id budget w) = Some kind ->
  ((exists a,
      In a (new_alerts now user_id budget (db w) (uuid_source w (uuid_drawn w))) /\
      BudgetAlert.alert_type a = kind /\
      BudgetAlert.budget_id a = Budget.id budget) <->
   recently_alerted (Budget.id budget) kind now (budget_alerts (db w)) = false).
Proof.
  unfold spec_candidate, budget_percentage, new_alerts.
  set (p := percentage_value _ _).
  destruct (ge p (of_int 100)) eqn:G100; cbn [andb].
  - intros [= <-].
    destruct (recently_alerted (Budget.id budget) "exceeded" now _) eqn:R;
      cbn [negb].
    + split; [|discriminate]. intros (a & Ha & Ht & _).
      destruct (ge p (of_int 80) && _); [|destruct Ha].
      destruct Ha as [<- | []]. discriminate Ht.
    + split; [reflexivity|]. intros _. eexists. split; [left; reflexivity|].
      split; reflexivity.
  - destruct (ge p (of_int 80)) eqn:G80; [|discriminate]. cbn [andb].
    intros [= <-].
    destruct (recently_alerted (Budget.id budget) "warning" now _) eqn:R;
      cbn [negb].
    + split; [|discriminate]. intros (a & [] & _).
    + split; [reflexivity|]. intros _. eexists. split; [left; reflexivity|].
      split; reflexivity.
Qed.

(** Where the second branch is reached at or above 100%: the [exceeded]
    alert is suppressed by a recent one and no recent [warning] exists. *)
Lemma suppressed_exceeded_falls_through now user_id (budget : Budget.t)
    (w : World) :
  ge (budget_percentage user_id budget w) (of_int 100) = true ->
  ge (budget_percentage user_id budget w) (of_int 80) = true ->
  recently_alerted (Budget.id budget) "exceeded" now (budget_alerts (db w))
    = true ->
  recently_alerted (Budget.id budget) "warning" now (budget_alerts (db w))
    = false ->
  map BudgetAlert.alert_type
      (new_alerts now user_id budget (db w) (uuid_source w (uuid_drawn w)))
  = ["warning"].
Proof.
  unfold budget_percentage, new_alerts. intros -> -> -> ->. reflexivity.
Qed.

(** C2: the evaluation of a budget inserts the alert its percentage calls
    for exactly when no alert of that kind for that budget was created at
    or after [now] minus 24 hours.  Of two passes in succession, the
    second no later than 24 hours after the first and with the same
    transactions, both succeed, the second leaves every [current_spent]
    as the first computed it, and no alert it inserts has the budget and
    kind of a stored alert that recent, so none repeats an alert of the
    first pass. *)
Theorem C2_deduplication (now : Z) (user_id : string) (w : World) :
  (forall (budget : Budget.t) (kind : string),
     spec_candidate (budget_percentage user_id budget w) = Some kind ->
     exists inserted,
       check_budget now user_id budget w
         = (Ok tt, exec (check_budget now user_id budget) w) /\
       budget_alerts (db (exec (check_budget now user_id budget) w))
         = budget_alerts (db w) ++ inserted /\
       ((exists a, In a inserted /\ BudgetAlert.alert_type a = kind /\
                   BudgetAlert.budget_id a = Budget.id budget) <->
        recently_alerted (Budget.id budget) kind now (budget_alerts (db w))
          = false)) /\
  (forall now2 : Z,
     now2 <= now + one_day ->
     let w1 := exec (check_budget_alerts now user_id) w in
     let w2 := exec (check_budget_alerts now2 user_id) w1 in
     fst (check_budget_alerts now user_id w) = Ok tt /\
     fst (check_budget_alerts now2 user_id w1) = Ok tt /\
     budgets (db w2) = budgets (db w1) /\
     exists inserted1 inserted2,
       budget_alerts (db w1) = budget_alerts (db w) ++ inserted1 /\
       budget_alerts (db w2) = budget_alerts (db w1) ++ inserted2 /\
       (forall a2 a, In a2 inserted2 -> In a (budget_alerts (db w1)) ->
          BudgetAlert.budget_id a = BudgetAlert.budget_id a2 ->
          BudgetAlert.alert_type a = BudgetAlert.alert_type a2 ->
          BudgetAlert.created_at a < now2 - one_day) /\
       (forall a1 a2, In a1 inserted1 -> In a2 inserted2 ->
          ~ (BudgetAlert.budget_id a1 = BudgetAlert.budget_id a2 /\
             BudgetAlert.alert_type a1 = BudgetAlert.alert_type a2))).
Proof.
  split.
  - intros budget kind C.
    exists (new_alerts now user_id budget (db w) (uuid_source w (uuid_drawn w))).
    unfold exec. rewrite check_budget_eq. cbn [snd].
    split; [reflexivity|]. split; [reflexivity|].
    apply new_alerts_candidate. exact C.
  - intros now2 Hnow w1 w2. unfold w2, w1, exec.
    repeat (rewrite check_budget_alerts_eq; cbn [fst snd]).
    split; [reflexivity|]. split; [reflexivity|].
    split; [apply after_pass_budgets_twice|].
    destruct (after_pass_alerts now user_id w) as (i1 & E1 & D1 & _).
    destruct (after_pass_alerts now2 user_id (after_pass now user_id w))
      as (i2 & E2 & D2 & _).
    exists i1, i2. split; [exact E1|]. split; [exact E2|].
    assert (Old : forall a2 a, In a2 i2 ->
              In a (budget_alerts (db (after_pass now user_id w))) ->
              BudgetAlert.budget_id a = BudgetAlert.budget_id a2 ->
              BudgetAlert.alert_type a = BudgetAlert.alert_type a2 ->
              BudgetAlert.created_at a < now2 - one_day).
    { intros a2 a H2 Ha Eb Et.
      destruct (deduplicated_In _ _ _ _ _ D2 H2) as (_ & _ & F).
      specialize (F a Ha). unfold recent_alert_filter in F.
      rewrite Eb, Et, !String.eqb_refl in F. cbn [andb] in F.
      apply Z.leb_gt in F. exact F. }
    split; [exact Old|].
    intros a1 a2 H1 H2 [Eb Et].
    destruct (deduplicated_In _ _ _ _ _ D1 H1) as (C1 & _ & _).
    assert (Ha1 : In a1 (budget_alerts (db (after_pass now user_id w)))).
    { rewrite E1. apply in_or_app. right. exact H1. }
    pose proof (Old a2 a1 H2 Ha1 Eb Et). lia.
Qed.

(** The budgets a pass fetches: the first 100 active budgets of the user. *)
Definition fetched_budgets (user_id : string) (w : World) : list Budget.t :=
  find_to_list (active_budget_filter user_id) 100 (budgets (db w)).

(** The transactions a pass sums for a budget: the first 1000 matches. *)
Definition summed_expenses (user_id : string) (budget : Budget.t) (w : World)
    : list Expense.t :=
  find_to_list (budget_expense_filter user_id budget) 1000 (expenses (db w)).

(** All the user's expense-type transactions of the budget's category
    dated within its period. *)
Definition matching_expenses (user_id : string) (budget : Budget.t) (w : World)
    : list Expense.t :=
  filter (budget_expense_filter user_id budget) (expenses (db w)).



Lemma all_active_fetched (user_id : string) (w : World) (b : Budget.t) :
  (List.length (filter (active_budget_filter user_id) (budgets (db w))) <= 100)%nat ->
  In b (budgets (db w)) -> active_budget_filter user_id b = true ->
  In b (fetched_budgets user_id w).
Proof.
  intros L Hb Ha. unfold fetched_budgets, find_to_list.
  rewrite firstn_all2 by exact L. apply filter_In. split; assumption.
Qed.


(** The caps of a pass: it fetches at most 100 budgets and sums at most
    1000 transactions for each; with unique budget ids, the budgets it
    did not fetch are left as stored and every alert it inserts is for a
    fetched budget. *)
Lemma pass_is_capped (now : Z) (user_id : string) (w : World) :
  NoDup (map Budget.id (budgets (db w))) ->
  let w' := exec (check_budget_alerts now user_id) w in
  (List.length (fetched_budgets user_id w) <= 100)%nat /\
  (forall b, (List.length (summed_expenses user_id b w) <= 1000)%nat) /\
  fetched_budgets user_id w
    = firstn 100 (filter (active_budget_filter user_id) (budgets (db w))) /\
  (forall b, summed_expenses user_id b w
             = firstn 1000 (matching_expenses user_id b w)) /\
  budgets (db w')
    = map (fun b =>
             if fetched_in (fetched_budgets user_id w) b
             then Budget.set_current_spent
                    (sum (map Expense.amount (summed_expenses user_id b w))) b
             else b)
          (budgets (db w)) /\
  exists inserted,
    budget_alerts (db w') = budget_alerts (db w) ++ inserted /\
    (List.length inserted <= 100)%nat /\
    forall a, In a inserted ->
      In (BudgetAlert.budget_id a) (map Budget.id (fetched_budgets user_id w)).
Proof.
  intros ND w'.
  assert (Ew : w' = after_pass now user_id w).
  { unfold w', exec. now rewrite check_budget_alerts_eq. }
  split; [apply firstn_le_length|]. split; [intros b; apply firstn_le_length|].
  split; [reflexivity|]. split; [reflexivity|]. split.
  - rewrite Ew. now apply after_pass_budgets_unique.
  - rewrite Ew. destruct (after_pass_alerts now user_id w) as (ins & E & D & L).
    exists ins. split; [exact E|]. split; [exact L|].
    intros a Ha. now destruct (deduplicated_In _ _ _ _ _ D Ha) as (_ & H & _).
Qed.

End EvaluatorProperties.

(** ** Request handlers *)

Section HandlerProperties.
Context {N : PyNum}.
Local Open Scope list_scope.

Ltac run_monad :=
  unfold exec, bind, get_db, modify_db, with_db, uuid4, ret, raise;
  cbn [fst snd db evaluations uuid_source uuid_drawn].

Lemma repeated_passes now user_id {A : Type} (l : list A) (w : World) :
  for_each l (fun _ => check_budget_alerts now user_id) w
  = (Ok tt, fold_left (fun w' _ => after_pass now user_id w') l w).
Proof.
  apply (for_each_eq _ (fun _ => after_pass now user_id)).
  intros _ w'. apply check_budget_alerts_eq.
Qed.

Lemma repeated_passes_evaluations now user_id {A : Type} (l : list A) :
  forall w : World,
    evaluations (fold_left (fun w' _ => after_pass now user_id w') l w)
    = (evaluations w + List.length l)%nat.
Proof.
  induction l as [|x l IH]; intros w; cbn [fold_left List.length]; [lia|].
  rewrite IH, after_pass_evaluations. lia.
Qed.

Lemma create_expense_evaluations today now (expense_data : ExpenseCreate.t)
    current_user (w : World) :
  evaluations (exec (create_expense today now expense_data current_user) w)
  = (evaluations w +
     if (ExpenseCreate.type expense_data =? "expense")%string then 1 else 0)%nat.
Proof.
  unfold create_expense. run_monad.
  destruct (ExpenseCreate.type expense_data =? "expense")%string.
  - rewrite check_budget_alerts_eq. cbn [fst snd].
    rewrite after_pass_evaluations. cbn [evaluations]. lia.
  - cbn [fst snd evaluations]. lia.
Qed.

Lemma create_expense_other_type today now (expense_data : ExpenseCreate.t)
    current_user (w : World) :
  ExpenseCreate.type expense_data <> "expense" ->
  let w' := exec (create_expense today now expense_data current_user) w in
  evaluations w' = evaluations w /\
  budgets (db w') = budgets (db w) /\
  budget_alerts (db w') = budget_alerts (db w).
Proof.
  intros H. apply String.eqb_neq in H.
  unfold create_expense. run_monad. rewrite H. cbn. auto.
Qed.

Lemma update_expense_evaluations now expense_id (expense_data : ExpenseUpdate.t)
    current_user (w : World) :
  evaluations (exec (update_expense now expense_id expense_data current_user) w)
  = (evaluations w +
     if found (find_one (owned_expense_filter expense_id current_user)
                        (expenses (db w))) && has_update expense_data
     then 1 else 0)%nat.
Proof.
  unfold update_expense. run_monad.
  destruct (found _); cbn [negb andb fst snd]; [|lia].
  destruct (has_update expense_data); cbn [fst snd]; [|lia].
  rewrite check_budget_alerts_eq. cbn [fst snd].
  rewrite after_pass_evaluations. cbn [evaluations]. lia.
Qed.

Lemma get_budgets_evaluations now current_user (w : World) :
  evaluations (exec (get_budgets now current_user) w)
  = (evaluations w +
     List.length
       (find_to_list (user_budget_filter current_user) 100 (budgets (db w))))%nat.
Proof.
  unfold get_budgets. run_monad. rewrite repeated_passes. cbn [fst snd].
  apply repeated_passes_evaluations.
Qed.

Lemma get_budget_alerts_evaluations now current_user (w : World) :
  evaluations (exec (get_budget_alerts now current_user) w)
  = S (evaluations w).
Proof.
  unfold get_budget_alerts. run_monad. rewrite check_budget_alerts_eq.
  cbn [fst snd]. apply after_pass_evaluations.
Qed.

Lemma other_handlers_evaluations (w : World) :
  (forall today now budget_data current_user,
     evaluations (exec (create_budget today now budget_data current_user) w)
     = evaluations w) /\
  (forall budget_id budget_data current_user,
     evaluations (exec (update_budget budget_id budget_data current_user) w)
     = evaluations w) /\
  (forall budget_id current_user,
     evaluations (exec (delete_budget budget_id current_user) w)
     = evaluations w) /\
  (forall alert_id current_user,
     evaluations (exec (mark_alert_read alert_id current_user) w)
     = evaluations w) /\
  (forall expense_id current_user,
     evaluations (exec (delete_expense expense_id current_user) w)
     = evaluations w) /\
  (forall category type start_date end_date current_user,
     evaluations
       (exec (get_expenses category type start_date end_date current_user) w)
     = evaluations w) /\
  (forall today period start_date end_date current_user,
     evaluations
       (exec (get_summary today period start_date end_date current_user) w)
     = evaluations w).
Proof.
  repeat split; intros; try reflexivity.
  - unfold create_budget.
    destruct (if (BudgetCreate.period budget_data =? "monthly")%string
              then month_bounds today else week_bounds today) as [s e].
    run_monad. destruct (found _); reflexivity.
  - unfold update_budget. run_monad.
    destruct (negb _); [reflexivity|]. destruct (_ || _); reflexivity.
  - unfold delete_budget. run_monad. destruct (Nat.eqb _ 0); reflexivity.
  - unfold mark_alert_read. run_monad. destruct (Nat.eqb _ 0); reflexivity.
  - unfold delete_expense. run_monad. destruct (Nat.eqb _ 0); reflexivity.
  - unfold get_summary.
    destruct (negb (or_else period "month" =? "custom")%string);
      [|reflexivity].
    destruct (get_date_range today (or_else period "month") None None).
    reflexivity.
Qed.

(** C7, amended: the evaluator runs once when a transaction is created
    with type ["expense"], once whenever [update_expense] finds the
    transaction and is given at least one field, whatever the type of the
    transaction, once per stored budget of the user (at most 100) when
    budgets are listed, and once when alerts are listed; no other handler
    runs it.  Creating a transaction of another type, such as
    ["income"], runs no evaluation and leaves the stored budgets and
    alerts as they are. *)
Theorem C7_evaluator_call_sites (w : World) :
  (forall today now expense_data current_user,
     evaluations (exec (create_expense today now expense_data current_user) w)
     = (evaluations w +
        if (ExpenseCreate.type expense_data =? "expense")%string
        then 1 else 0)%nat) /\
  (forall today now expense_data current_user,
     ExpenseCreate.type expense_data <> "expense" ->
     let w' := exec (create_expense today now expense_data current_user) w in
     evaluations w' = evaluations w /\
     budgets (db w') = budgets (db w) /\
     budget_alerts (db w') = budget_alerts (db w)) /\
  (forall now expense_id expense_data current_user,
     evaluations
       (exec (update_expense now expense_id expense_data current_user) w)
     = (evaluations w +
        if found (find_one (owned_expense_filter expense_id current_user)
                           (expenses (db w))) && has_update expense_data
        then 1 else 0)%nat) /\
  (forall now current_user,
     evaluations (exec (get_budgets now current_user) w)
     = (evaluations w +
        List.length
          (find_to_list (user_budget_filter current_user) 100
                        (budgets (db w))))%nat) /\
  (forall now current_user,
     evaluations (exec (get_budget_alerts now current_user) w)
     = S (evaluations w)) /\
  (forall today now budget_data current_user,
     evaluations (exec (create_budget today now budget_data current_user) w)
     = evaluations w) /\
  (forall budget_id budget_data current_user,
     evaluations (exec (update_budget budget_id budget_data current_user) w)
     = evaluations w) /\
  (forall budget_id current_user,
     evaluations (exec (delete_budget budget_id current_user) w)
     = evaluations w) /\
  (forall alert_id current_user,
     evaluations (exec (mark_alert_read alert_id current_user) w)
     = evaluations w) /\
  (forall expense_id current_user,
     evaluations (exec (delete_expense expense_id current_user) w)
     = evaluations w) /\
  (forall category type start_date end_date current_user,
     evaluations
       (exec (get_expenses category type start_date end_date current_user) w)
     = evaluations w) /\
  (forall today period start_date end_date current_user,
     evaluations
       (exec (get_summary today period start_date end_date current_user) w)
     = evaluations w).
Proof.
  split; [intros; apply create_expense_evaluations|].
  split; [intros today now expense_data current_user H;
          now apply create_expense_other_type|].
  split; [intros; apply update_expense_evaluations|].
  split; [intros; apply get_budgets_evaluations|].
  split; [intros; apply get_budget_alerts_evaluations|].
  apply other_handlers_evaluations.
Qed.

(** An active budget of this user, category and period kind. *)
Definition conflicts_with (current_user : string) (budget_data : BudgetCreate.t)
    (b : Budget.t) : Prop :=
  Budget.user_id b = current_user /\
  Budget.category b = BudgetCreate.category budget_data /\
  Budget.period b = BudgetCreate.period budget_data /\
  Budget.is_active b = true.

Lemma existing_budget_filter_spec current_user budget_data (b : Budget.t) :
  existing_budget_filter current_user budget_data b = true <->
  conflicts_with current_user budget_data b.
Proof.
  unfold existing_budget_filter, conflicts_with.
  rewrite !andb_true_iff, !String.eqb_eq, Bool.eqb_true_iff. tauto.
Qed.

(** C8: creating a budget raises the conflict error (HTTP 400) when an
    active budget of the same user, category and period kind is stored,
    and then the world is left as it was; otherwise it succeeds and the
    store gains exactly one budget, the new one, at the end. *)
Theorem C8_create_budget (today : date) (now : Z) (budget_data : BudgetCreate.t)
    (current_user : string) (w : World) :
  ((exists b, In b (budgets (db w)) /\
              conflicts_with current_user budget_data b) ->
   create_budget today now budget_data current_user w
   = (Raise (HTTPException 400
               "Active budget already exists for this category and period"),
      w)) /\
  ((forall b, In b (budgets (db w)) ->
              ~ conflicts_with current_user budget_data b) ->
   exists budget,
     fst (create_budget today now budget_data current_user w) = Ok budget /\
     let w' := exec (create_budget today now budget_data current_user) w in
     budgets (db w') = budgets (db w) ++ [budget] /\
     expenses (db w') = expenses (db w) /\
     budget_alerts (db w') = budget_alerts (db w) /\
     Budget.user_id budget = current_user /\
     Budget.category budget = BudgetCreate.category budget_data /\
     Budget.period budget = BudgetCreate.period budget_data /\
     Budget.limit_amount budget = BudgetCreate.limit_amount budget_data /\
     Budget.is_active budget = true).
Proof.
  unfold create_budget.
  destruct (if (BudgetCreate.period budget_data =? "monthly")%string
            then month_bounds today else week_bounds today) as [s e].
  run_monad. split.
  - intros (b & Hb & Hc).
    destruct (find_one _ (budgets (db w))) eqn:F; [reflexivity|].
    apply existing_budget_filter_spec in Hc.
    unfold find_one in F. rewrite (find_none _ _ F b Hb) in Hc. discriminate.
  - intros Hn.
    destruct (find_one _ (budgets (db w))) as [b|] eqn:F.
    + unfold find_one in F. apply find_some in F. destruct F as [Hb Hf].
      apply existing_budget_filter_spec in Hf. destruct (Hn b Hb Hf).
    + cbn [found fst snd db budgets expenses budget_alerts set_budgets].
      eexists. split; [reflexivity|]. unfold insert_one. cbn.
      repeat split; reflexivity.
Qed.

End HandlerProperties.

(** ** Summary *)

Section DictFacts.
Context {V : Type}.
Local Open Scope list_scope.

Lemma dict_keys_set (d : list (string * V)) (k : string) (v : V) (c : string) :
  In c (dict_keys (dict_set d k v)) <-> c = k \/ In c (dict_keys d).
Proof.
  unfold dict_keys. induction d as [|[k' v'] d IH]; cbn [dict_set map In fst].
  - split; [intros [<- | []]; now left | intros [-> | []]; now left].
  - destruct (String.eqb_spec k' k) as [-> | Hne]; cbn [map In fst].
    + intuition congruence.
    + rewrite IH. intuition congruence.
Qed.

Lemma dict_keys_set_NoDup (d : list (string * V)) (k : string) (v : V) :
  NoDup (dict_keys d) -> NoDup (dict_keys (dict_set d k v)).
Proof.
  induction d as [|[k' v'] d IH]; intros ND.
  - cbn. constructor; [intros [] | constructor].
  - cbn [dict_set]. unfold dict_keys in *. cbn [map fst] in ND.
    apply NoDup_cons_iff in ND. destruct ND as [Nin ND].
    destruct (String.eqb_spec k' k) as [-> | Hne]; cbn [map fst].
    + constructor; assumption.
    + constructor; [|now apply IH].
      intros H. apply (dict_keys_set d k v k') in H. destruct H as [-> | H].
      * now apply Hne.
      * now apply Nin.
Qed.

Lemma dict_get_set (d : list (string * V)) (k c : string) (v default : V) :
  dict_get (dict_set d k v) c default
  = if (c =? k)%string then v else dict_get d c default.
Proof.
  induction d as [|[k' v'] d IH]; cbn [dict_set dict_get].
  - rewrite (String.eqb_sym k c). destruct (c =? k)%string; reflexivity.
  - destruct (String.eqb_spec k' k) as [-> | Hne]; cbn [dict_get].
    + rewrite (String.eqb_sym k c). destruct (c =? k)%string; reflexivity.
    + destruct (String.eqb_spec k' c) as [-> | Hne'].
      * destruct (String.eqb_spec c k) as [-> | _]; [now destruct Hne|].
        reflexivity.
      * exact IH.
Qed.

Lemma dict_get_absent (d : list (string * V)) (c : string) (default : V) :
  ~ In c (dict_keys d) -> dict_get d c default = default.
Proof.
  unfold dict_keys. induction d as [|[k' v'] d IH]; intros H; [reflexivity|].
  cbn [dict_get]. cbn [map In fst] in H.
  destruct (String.eqb_spec k' c) as [-> | Hne]; [tauto|].
  apply IH. tauto.
Qed.

End DictFacts.

Section SummaryProperties.
Context {N : PyNum}.
Local Open Scope list_scope.

(** The expense-type transactions of one category. *)
Definition expense_of_category (c : string) (t : Expense.t) : bool :=
  is_expense t && (Expense.category t =? c)%string.

(** What the loop over the transactions keeps true of [category_totals]. *)
Definition totals_invariant (l : list Expense.t) (d : list (string * num))
    : Prop :=
  NoDup (dict_keys d) /\
  (forall c, In c (dict_keys d) <->
             exists t, In t l /\ is_expense t = true /\ Expense.category t = c) /\
  (forall c, In c (dict_keys d) ->
             dict_get d c (of_int 0)
             = sum (map Expense.amount (filter (expense_of_category c) l))).

Lemma sum_snoc (xs : list num) (a : num) : sum (xs ++ [a]) = add (sum xs) a.
Proof. unfold sum. now rewrite fold_left_app. Qed.

Lemma category_totals_of_snoc (l : list Expense.t) (t : Expense.t) :
  category_totals_of (l ++ [t])
  = add_to_category_totals (category_totals_of l) t.
Proof. unfold category_totals_of. now rewrite fold_left_app. Qed.

Lemma no_expense_of_category (c : string) (l : list Expense.t) :
  (forall t, In t l -> ~ (is_expense t = true /\ Expense.category t = c)) ->
  filter (expense_of_category c) l = [].
Proof.
  induction l as [|t l IH]; intros H; [reflexivity|].
  cbn [filter]. unfold expense_of_category at 1.
  destruct (is_expense t) eqn:E; cbn [andb].
  - destruct (String.eqb_spec (Expense.category t) c) as [Ec | _].
    + destruct (H t (or_introl eq_refl)). split; assumption.
    + apply IH. intros t' Ht'. apply H. now right.
  - apply IH. intros t' Ht'. apply H. now right.
Qed.

Lemma category_totals_invariant (l : list Expense.t) :
  totals_invariant l (category_totals_of l).
Proof.
  induction l as [|t l IH] using rev_ind.
  - split; [constructor|]. split.
    + intros c. split; [intros [] | intros (t & [] & _)].
    + intros c [].
  - rewrite category_totals_of_snoc. unfold add_to_category_totals.
    destruct IH as (ND & Keys & Vals).
    set (d := category_totals_of l) in *.
    destruct (is_expense t) eqn:E.
    + split; [now apply dict_keys_set_NoDup|]. split.
      * intros c. rewrite dict_keys_set, Keys. split.
        -- intros [-> | (t' & Ht' & He & Hc)].
           ++ exists t. split; [apply in_or_app; right; now left|]. now split.
           ++ exists t'. split; [apply in_or_app; now left|]. now split.
        -- intros (t' & Ht' & He & Hc). apply in_app_or in Ht'.
           destruct Ht' as [Ht' | [<- | []]]; [right | left; now symmetry].
           exists t'. now repeat split.
      * intros c Hc. rewrite dict_get_set, filter_app, map_app.
        cbn [filter]. unfold expense_of_category at 2. rewrite E. cbn [andb].
        rewrite (String.eqb_sym (Expense.category t) c).
        destruct (String.eqb_spec c (Expense.category t)) as [-> | Hne].
        -- cbn [map]. rewrite sum_snoc. f_equal.
           destruct (in_dec string_dec (Expense.category t) (dict_keys d))
             as [Hin | Hnin].
           ++ now apply Vals.
           ++ rewrite (dict_get_absent d _ _ Hnin).
              rewrite no_expense_of_category; [reflexivity|].
              intros t' Ht' [He Hc']. apply Hnin, Keys. exists t'.
              now repeat split.
        -- cbn [map]. rewrite app_nil_r. apply Vals.
           apply dict_keys_set in Hc. destruct Hc as [-> | Hc]; [|exact Hc].
           now destruct Hne.
    + split; [exact ND|]. split.
      * intros c. rewrite Keys. split.
        -- intros (t' & Ht' & He & Hc). exists t'.
           split; [apply in_or_app; now left|]. now split.
        -- intros (t' & Ht' & He & Hc). apply in_app_or in Ht'.
           destruct Ht' as [Ht' | [<- | []]]; [|congruence].
           exists t'. now repeat split.
      * intros c Hc. rewrite filter_app, map_app. cbn [filter].
        unfold expense_of_category at 2. rewrite E. cbn [andb map].
        rewrite app_nil_r. now apply Vals.
Qed.

(** With exact addition an amount added to a category's total is added
    to the sum of all totals. *)
Lemma fold_add_acc {X : ExactAdd N} (xs : list num) :
  forall x a, fold_left add xs (add x a) = add (fold_left add xs x) a.
Proof.
  induction xs as [|y xs IH]; intros x a; [reflexivity|].
  cbn [fold_left]. rewrite <- IH. f_equal.
  rewrite <- !add_assoc. f_equal. apply add_comm.
Qed.

Lemma fold_values_dict_set {X : ExactAdd N} (d : list (string * num))
    (k : string) (a : num) :
  forall x,
    fold_left add
      (dict_values (dict_set d k (add (dict_get d k (of_int 0)) a))) x
    = add (fold_left add (dict_values d) x) a.
Proof.
  unfold dict_values.
  induction d as [|[k' v'] d IH]; intros x; cbn [dict_set dict_get].
  - cbn [map snd fold_left]. now rewrite add_0_l.
  - destruct (k' =? k)%string; cbn [map snd fold_left].
    + rewrite add_assoc. apply fold_add_acc.
    + apply IH.
Qed.

Lemma breakdown_adds_up_exact {X : ExactAdd N} (l : list Expense.t) :
  sum (dict_values (category_totals_of l))
  = sum (map Expense.amount (filter is_expense l)).
Proof.
  induction l as [|t l IH] using rev_ind; [reflexivity|].
  rewrite category_totals_of_snoc, filter_app, map_app.
  unfold add_to_category_totals. cbn [filter].
  destruct (is_expense t); cbn [map].
  - rewrite sum_snoc, <- IH. unfold sum. apply fold_values_dict_set.
  - now rewrite app_nil_r.
Qed.

(** What the specification states of a summary. *)
Definition summary_adds_up (all_transactions : list Expense.t) : Prop :=
  forall period start_date end_date,
    let s := summarize all_transactions period start_date end_date in
    Summary.balance s = sub (Summary.total_income s) (Summary.total_expenses s) /\
    sum (dict_values (Summary.category_breakdown s)) = Summary.total_expenses s /\
    Summary.transaction_count s = List.length all_transactions.

(** C5, amended: the balance is the income total minus the expense
    total, the count is the size of the input, the breakdown has exactly
    the categories of the expense-type transactions, each once and with
    the sum of that category's expense amounts in input order, and the
    empty input gives zero totals and an empty breakdown.  The values of
    the breakdown add up to the expense total whenever addition of
    amounts is exact (associative and commutative with 0 neutral), which
    binary64 addition is not. *)
Theorem C5_summary (all_transactions : list Expense.t) (period : string)
    (start_date end_date : option string) :
  let s := summarize all_transactions period start_date end_date in
  Summary.balance s = sub (Summary.total_income s) (Summary.total_expenses s) /\
  Summary.total_expenses s
    = sum (map Expense.amount (filter is_expense all_transactions)) /\
  Summary.total_income s
    = sum (map Expense.amount (filter is_income all_transactions)) /\
  Summary.transaction_count s = List.length all_transactions /\
  NoDup (dict_keys (Summary.category_breakdown s)) /\
  (forall c, In c (dict_keys (Summary.category_breakdown s)) <->
     exists t, In t all_transactions /\ is_expense t = true /\
               Expense.category t = c) /\
  (forall c, In c (dict_keys (Summary.category_breakdown s)) ->
     dict_get (Summary.category_breakdown s) c (of_int 0)
     = sum (map Expense.amount
              (filter (expense_of_category c) all_transactions))) /\
  (all_transactions = [] ->
     Summary.total_expenses s = of_int 0 /\ Summary.total_income s = of_int 0 /\
     Summary.balance s = of_int 0 /\ Summary.category_breakdown s = [] /\
     Summary.transaction_count s = 0%nat) /\
  (ExactAdd N ->
     sum (dict_values (Summary.category_breakdown s)) = Summary.total_expenses s).
Proof.
  intros s. unfold s, summarize.
  cbn [Summary.balance Summary.total_expenses Summary.total_income
       Summary.transaction_count Summary.category_breakdown].
  destruct (category_totals_invariant all_transactions) as (ND & Keys & Vals).
  repeat (split; [first [reflexivity | assumption]|]).
  split.
  - intros ->. cbn. repeat split; try reflexivity. apply sub_0_0.
  - intros X. apply breakdown_adds_up_exact.
Qed.

End SummaryProperties.

(** ** Scenarios on binary64 amounts *)

#[local] Existing Instance float_PyNum | 0.

Definition uuid_of (n : nat) : string := "uuid-" ++ decimal (Z.of_nat n).

Definition world_of {N : PyNum} (stored : list Expense.t)
    (bs : list Budget.t) (alerts : list BudgetAlert.t) : World :=
  mkWorld N (mkDB N stored bs alerts) uuid_of 0 0.

(** 2026-11-04 10:00:00 UTC, in microseconds. *)
Definition ten_o_clock : Z := 1793786400000000.
Definition one_hour : Z := 3600000000.

Definition food_budget : Budget.t :=
  Budget.mk float_PyNum "b1" "u1" "Food & Dining" 100%float "monthly"
            "2026-11-01" "2026-11-30" 0%float true 0.

Definition food_expense (id : string) (amount : float) : Expense.t :=
  Expense.mk float_PyNum id "u1" "Lunch" amount "Food & Dining" "expense" None
             "2026-11-04" 0.

Definition salary : Expense.t :=
  Expense.mk float_PyNum "e9" "u1" "Salary" 3000%float "Salary" "income" None
             "2026-11-01" 0.

(** What a test would read off the alerts. *)
Definition alert_summary (a : BudgetAlert.t) : string * float * string :=
  (BudgetAlert.alert_type a, BudgetAlert.percentage a, BudgetAlert.message a).

(** A budget at 105% of its limit, with an [exceeded] alert created an
    hour ago and no [warning] alert. *)
Definition over_limit_world : World :=
  world_of [food_expense "e1" 105%float] [food_budget]
    [BudgetAlert.mk float_PyNum "a1" "u1" "b1"
       "Budget exceeded for Food & Dining! Spent $105.00 of $100.00"
       "exceeded" 105%float (ten_o_clock - one_hour) false].

(** The thresholds, on a budget of limit 100 with no alert stored. *)
Example threshold_boundaries :
  let kinds_at spent :=
    map BudgetAlert.alert_type
      (budget_alerts
         (db (exec (check_budget_alerts ten_o_clock "u1")
                (world_of [food_expense "e1" spent] [food_budget] [])))) in
  kinds_at 100%float = ["exceeded"] /\
  kinds_at 105%float = ["exceeded"] /\
  kinds_at 80%float = ["warning"] /\
  kinds_at 85%float = ["warning"] /\
  kinds_at 79.999%float = [] /\
  kinds_at 0%float = [].
Proof. vm_compute. repeat split; reflexivity. Qed.

(** C1: at 105% of the limit, where the policy calls for [exceeded] and
    that alert is suppressed because one was created an hour ago, the
    pass falls through to the second branch and inserts a [warning]
    alert with percentage 105. *)
Theorem C1_warning_inserted_over_limit :
  let w' := exec (check_budget_alerts ten_o_clock "u1") over_limit_world in
  budget_percentage "u1" food_budget over_limit_world = 105%float /\
  spec_candidate (budget_percentage "u1" food_budget over_limit_world)
    = Some "exceeded" /\
  recently_alerted "b1" "exceeded" ten_o_clock
    (budget_alerts (db over_limit_world)) = true /\
  map alert_summary (skipn 1 (budget_alerts (db w')))
    = [("warning", 105%float,
        "Budget warning for Food & Dining! 105.0% spent ($105.00 of $100.00)")].
Proof. vm_compute. repeat split; reflexivity. Qed.

(** The scenario of the specification: an expense of 85 gives a warning
    at 85%; a further expense of 20 gives an [exceeded] alert at 105% and
    leaves the warning in place. *)
Example warning_then_exceeded :
  let w0 := world_of [] [food_budget] [] in
  let add e w :=
    exec (create_expense (mkdate 2026 11 4) ten_o_clock e "u1") w in
  let lunch amount :=
    ExpenseCreate.mk float_PyNum "Lunch" amount "Food & Dining" "expense"
                     None None in
  let w1 := add (lunch 85%float) w0 in
  let w2 := add (lunch 20%float) w1 in
  map Budget.current_spent (budgets (db w1)) = [85%float] /\
  map alert_summary (budget_alerts (db w1))
    = [("warning", 85%float,
        "Budget warning for Food & Dining! 85.0% spent ($85.00 of $100.00)")] /\
  map Budget.current_spent (budgets (db w2)) = [105%float] /\
  map alert_summary (budget_alerts (db w2))
    = [("warning", 85%float,
        "Budget warning for Food & Dining! 85.0% spent ($85.00 of $100.00)");
       ("exceeded", 105%float,
        "Budget exceeded for Food & Dining! Spent $105.00 of $100.00")].
Proof. vm_compute. repeat split; reflexivity. Qed.

Definition warned_world : World :=
  world_of [food_expense "e1" 85%float] [food_budget] [].

Lemma C2_deduplication_witness :
  (exists inserted,
     budget_alerts (db (exec (check_budget ten_o_clock "u1" food_budget)
                             warned_world))
       = (budget_alerts (db warned_world) ++ inserted)%list /\
     ((exists a, In a inserted /\ BudgetAlert.alert_type a = "warning" /\
                 BudgetAlert.budget_id a = "b1") <->
      recently_alerted "b1" "warning" ten_o_clock
        (budget_alerts (db warned_world)) = false)) /\
  budgets (db (exec (check_budget_alerts (ten_o_clock + one_hour) "u1")
                 (exec (check_budget_alerts ten_o_clock "u1") warned_world)))
  = budgets (db (exec (check_budget_alerts ten_o_clock "u1") warned_world)).
Proof.
  destruct (C2_deduplication ten_o_clock "u1" warned_world) as [A B]. split.
  - destruct (A food_budget "warning") as (ins & _ & E & I);
      [vm_compute; reflexivity|].
    exists ins. split; [exact E | exact I].
  - assert (H : ten_o_clock + one_hour <= ten_o_clock + one_day)
      by (vm_compute; discriminate).
    exact (proj1 (proj2 (proj2 (B (ten_o_clock + one_hour) H)))).
Defined.

(** A budget whose limit was updated to a negative amount. *)
Definition negative_limit_budget : Budget.t :=
  Budget.mk float_PyNum "b1" "u1" "Food & Dining" (-5)%float "monthly"
            "2026-11-01" "2026-11-30" 0%float true 0.

Lemma C4_nonpositive_limit_witness :
  percentage_of 50%float (Budget.limit_amount negative_limit_budget)
                warned_world
  = (Ok 0%float, warned_world).
Proof.
  apply (C4_nonpositive_limit ten_o_clock "u1" negative_limit_budget 50%float
           warned_world).
  reflexivity.
Defined.



(** A test that two equal binary64 numbers pass. *)
Definition same_float (x y : float) : bool :=
  PrimFloat.eqb x y || negb (PrimFloat.eqb x x).

Lemma same_float_eq (x y : float) : x = y -> same_float x y = true.
Proof. intros <-. unfold same_float. now destruct (PrimFloat.eqb x x). Qed.



(** Three expenses in two categories whose amounts do not add up the
    same way in input order and category by category. *)
Definition three_expenses : list Expense.t :=
  [Expense.mk float_PyNum "e1" "u1" "Coffee" 0.1%float "Food" "expense" None
              "2026-11-02" 0;
   Expense.mk float_PyNum "e2" "u1" "Bus" 0.2%float "Travel" "expense" None
              "2026-11-03" 0;
   Expense.mk float_PyNum "e3" "u1" "Snack" 2.2%float "Food" "expense" None
              "2026-11-04" 0].

Example three_expenses_summary :
  let s := summarize three_expenses "month" None None in
  Summary.total_expenses s = 2.5%float /\
  Summary.category_breakdown s
    = [("Food", 2.3000000000000003%float); ("Travel", 0.2%float)] /\
  sum (dict_values (Summary.category_breakdown s)) = 2.5000000000000004%float.
Proof. vm_compute. repeat split; reflexivity. Qed.

Lemma C5_counterexample : ~ summary_adds_up three_expenses.
Proof.
  intros H. destruct (H "month" None None) as (_ & E & _).
  apply same_float_eq in E. vm_compute in E. discriminate E.
Qed.

Definition three_exact_expenses : list (@Expense.t Q_PyNum) :=
  [Expense.mk Q_PyNum "e1" "u1" "Coffee" (1 # 10)%Q "Food" "expense" None
              "2026-11-02" 0;
   Expense.mk Q_PyNum "e2" "u1" "Bus" (2 # 10)%Q "Travel" "expense" None
              "2026-11-03" 0;
   Expense.mk Q_PyNum "e3" "u1" "Snack" (22 # 10)%Q "Food" "expense" None
              "2026-11-04" 0].

Lemma C5_summary_witness :
  let s := summarize three_exact_expenses "month" None None in
  sum (dict_values (Summary.category_breakdown s)) = Summary.total_expenses s.
Proof.
  exact (proj2 (proj2 (proj2 (proj2 (proj2 (proj2 (proj2 (proj2
           (C5_summary three_exact_expenses "month" None None))))))))
         Q_ExactAdd).
Defined.

(** A budget created after an expense of 90 in its category was
    recorded: its stored [current_spent] is still 0 and no alert exists.
    The user then renames the salary transaction, which is of type
    ["income"]. *)
Definition stale_world : World :=
  world_of [food_expense "e1" 90%float; salary] [food_budget] [].

Definition rename_salary : ExpenseUpdate.t :=
  ExpenseUpdate.mk float_PyNum (Some "Pay") None None None None None.

(** What the specification states of a write to an income transaction. *)
Definition income_write_runs_no_evaluation {N : PyNum} (w w' : World) : Prop :=
  evaluations w' = evaluations w /\
  budgets (db w') = budgets (db w) /\
  budget_alerts (db w') = budget_alerts (db w).

Lemma C7_counterexample :
  let w' := exec (update_expense ten_o_clock "e9" rename_salary "u1")
                 stale_world in
  option_map Expense.type
    (find_one (owned_expense_filter "e9" "u1") (expenses (db stale_world)))
    = Some "income" /\
  map Expense.type (expenses (db w')) = ["expense"; "income"] /\
  evaluations w' = S (evaluations stale_world) /\
  map Budget.current_spent (budgets (db stale_world)) = [0%float] /\
  map Budget.current_spent (budgets (db w')) = [90%float] /\
  map alert_summary (budget_alerts (db w'))
    = [("warning", 90%float,
        "Budget warning for Food & Dining! 90.0% spent ($90.00 of $100.00)")] /\
  ~ income_write_runs_no_evaluation stale_world w'.
Proof.
  intros w'. repeat (split; [vm_compute; reflexivity|]).
  intros (E & _). vm_compute in E. discriminate E.
Qed.

Definition salary_request : ExpenseCreate.t :=
  ExpenseCreate.mk float_PyNum "Salary" 3000%float "Salary" "income" None None.

Lemma C7_evaluator_call_sites_witness :
  income_write_runs_no_evaluation stale_world
    (exec (create_expense (mkdate 2026 11 4) ten_o_clock salary_request "u1")
          stale_world).
Proof.
  apply (proj1 (proj2 (C7_evaluator_call_sites stale_world))
           (mkdate 2026 11 4) ten_o_clock salary_request "u1").
  discriminate.
Defined.

Definition food_request : BudgetCreate.t :=
  BudgetCreate.mk float_PyNum "Food & Dining" 200%float "monthly".

Lemma C8_create_budget_witness :
  create_budget (mkdate 2026 11 4) ten_o_clock food_request "u1" warned_world
  = (Raise (HTTPException 400
              "Active budget already exists for this category and period"),
     warned_world) /\
  exists budget,
    fst (create_budget (mkdate 2026 11 4) ten_o_clock food_request "u1"
           (world_of [] [] []))
    = Ok budget.
Proof.
  split.
  - apply (proj1 (C8_create_budget (mkdate 2026 11 4) ten_o_clock food_request
                    "u1" warned_world)).
    exists food_budget. split; [left; reflexivity|].
    repeat split; reflexivity.
  - destruct (proj2 (C8_create_budget (mkdate 2026 11 4) ten_o_clock
                       food_request "u1" (world_of [] [] [])))
      as (budget & E & _).
    + intros b [].
    + exists budget. exact E.
Defined.

(** A budget of limit 5000 and 1001 expenses of 1 in its category. *)
Definition large_budget : Budget.t :=
  Budget.mk float_PyNum "b1" "u1" "Food & Dining" 5000%float "monthly"
            "2026-11-01" "2026-11-30" 0%float true 0.

Definition busy_world : World :=
  world_of
    (map (fun i => food_expense ("e" ++ decimal (Z.of_nat i)) 1%float)
         (seq 0 1001))
    [large_budget] [].

(** C10: a pass fetches at most the first 100 active budgets of the user
    and sums, for each, at most the first 1000 matching transactions;
    with unique budget ids the budgets beyond the first 100 are left as
    stored, at most 100 alerts are inserted and each is for a fetched
    budget.  Past the caps [current_spent] undercounts: with 1001
    expenses of 1 in a budget's category the pass stores 1000. *)
Theorem C10_pass_caps :
  (forall (N : PyNum) (now : Z) (user_id : string) (w : World),
     NoDup (map Budget.id (budgets (db w))) ->
     let w' := exec (check_budget_alerts now user_id) w in
     (List.length (fetched_budgets user_id w) <= 100)%nat /\
     (forall b, (List.length (summed_expenses user_id b w) <= 1000)%nat) /\
     fetched_budgets user_id w
       = firstn 100 (filter (active_budget_filter user_id) (budgets (db w))) /\
     (forall b, summed_expenses user_id b w
                = firstn 1000 (matching_expenses user_id b w)) /\
     budgets (db w')
       = map (fun b =>
                if fetched_in (fetched_budgets user_id w) b
                then Budget.set_current_spent
                       (sum (map Expense.amount (summed_expenses user_id b w))) b
                else b)
             (budgets (db w)) /\
     exists inserted,
       budget_alerts (db w') = (budget_alerts (db w) ++ inserted)%list /\
       (List.length inserted <= 100)%nat /\
       forall a, In a inserted ->
         In (BudgetAlert.budget_id a)
            (map Budget.id (fetched_budgets user_id w))) /\
  (let w' := exec (check_budget_alerts ten_o_clock "u1") busy_world in
   List.length (matching_expenses "u1" large_budget busy_world) = 1001%nat /\
   sum (map Expense.amount (matching_expenses "u1" large_budget busy_world))
     = 1001%float /\
   map Budget.current_spent (budgets (db w')) = [1000%float]).
Proof.
  split.
  - intros N now user_id w ND. now apply pass_is_capped.
  - vm_compute. repeat split; reflexivity.
Qed.

Lemma C10_pass_caps_witness :
  (List.length (fetched_budgets "u1" busy_world) <= 100)%nat.
Proof.
  assert (ND : NoDup (map Budget.id (budgets (db busy_world)))).
  { cbn. constructor; [intros [] | constructor]. }
  exact (proj1 (proj1 C10_pass_caps float_PyNum ten_o_clock "u1" busy_world ND)).
Defined.

(** * Further properties *)

(** ** Calendar order, day numbers and date strings *)

(** Calendar order: by year, then month, then day. *)
Definition date_leb (a b : date) : bool :=
  (year a <? year b) ||
  ((year a =? year b) &&
   ((month a <? month b) || ((month a =? month b) && (day a <=? day b)))).

Definition year_length (y : Z) : Z := if is_leap y then 366 else 365.

Lemma days_before_year_next (y : Z) :
  days_before_year (y + 1) = days_before_year y + year_length y.
Proof.
  unfold days_before_year, year_length, is_leap.
  replace (y + 1 - 1) with y by lia.
  destruct (Z.eqb_spec (y mod 4) 0), (Z.eqb_spec (y mod 100) 0),
    (Z.eqb_spec (y mod 400) 0); cbn [andb orb negb];
    Z.div_mod_to_equations; lia.
Qed.

Lemma days_before_year_mono (y y' : Z) :
  y <= y' -> days_before_year y <= days_before_year y'.
Proof.
  unfold days_before_year. intros H. Z.div_mod_to_equations. lia.
Qed.

Lemma days_before_month_next (y m : Z) :
  1 <= m ->
  days_before_month y (m + 1) = days_before_month y m + days_in_month y m.
Proof.
  intros H. unfold days_before_month.
  replace (Z.to_nat (m + 1 - 1)) with (S (Z.to_nat (m - 1))) by lia.
  cbn [days_before_month_upto].
  replace (Z.of_nat (S (Z.to_nat (m - 1)))) with m by lia. reflexivity.
Qed.

Lemma days_before_month_1 (y : Z) : days_before_month y 1 = 0.
Proof. reflexivity. Qed.

(** The days before each month, written out. *)
Definition days_before_month_table (y m : Z) : Z :=
  let leap := if is_leap y then 1 else 0 in
  if m =? 1 then 0 else if m =? 2 then 31 else if m =? 3 then 59 + leap
  else if m =? 4 then 90 + leap else if m =? 5 then 120 + leap
  else if m =? 6 then 151 + leap else if m =? 7 then 181 + leap
  else if m =? 8 then 212 + leap else if m =? 9 then 243 + leap
  else if m =? 10 then 273 + leap else if m =? 11 then 304 + leap
  else if m =? 12 then 334 + leap else 365 + leap.

Lemma days_before_month_closed (y m : Z) :
  1 <= m <= 13 -> days_before_month y m = days_before_month_table y m.
Proof.
  intros H.
  assert (C : m = 1 \/ m = 2 \/ m = 3 \/ m = 4 \/ m = 5 \/ m = 6 \/ m = 7 \/
              m = 8 \/ m = 9 \/ m = 10 \/ m = 11 \/ m = 12 \/ m = 13) by lia.
  pose proof (days_before_month_1 y) as S1.
  pose proof (days_before_month_next y 1 ltac:(lia)) as S2.
  change (1 + 1) with 2 in S2. rewrite S1 in S2.
  change (days_in_month y 1) with 31 in S2.
  pose proof (days_before_month_next y 2 ltac:(lia)) as S3.
  change (2 + 1) with 3 in S3. rewrite S2 in S3.
  change (days_in_month y 2) with (if is_leap y then 29 else 28) in S3.
  pose proof (days_before_month_next y 3 ltac:(lia)) as S4.
  change (3 + 1) with 4 in S4. rewrite S3 in S4.
  change (days_in_month y 3) with 31 in S4.
  pose proof (days_before_month_next y 4 ltac:(lia)) as S5.
  change (4 + 1) with 5 in S5. rewrite S4 in S5.
  change (days_in_month y 4) with 30 in S5.
  pose proof (days_before_month_next y 5 ltac:(lia)) as S6.
  change (5 + 1) with 6 in S6. rewrite S5 in S6.
  change (days_in_month y 5) with 31 in S6.
  pose proof (days_before_month_next y 6 ltac:(lia)) as S7.
  change (6 + 1) with 7 in S7. rewrite S6 in S7.
  change (days_in_month y 6) with 30 in S7.
  pose proof (days_before_month_next y 7 ltac:(lia)) as S8.
  change (7 + 1) with 8 in S8. rewrite S7 in S8.
  change (days_in_month y 7) with 31 in S8.
  pose proof (days_before_month_next y 8 ltac:(lia)) as S9.
  change (8 + 1) with 9 in S9. rewrite S8 in S9.
  change (days_in_month y 8) with 31 in S9.
  pose proof (days_before_month_next y 9 ltac:(lia)) as S10.
  change (9 + 1) with 10 in S10. rewrite S9 in S10.
  change (days_in_month y 9) with 30 in S10.
  pose proof (days_before_month_next y 10 ltac:(lia)) as S11.
  change (10 + 1) with 11 in S11. rewrite S10 in S11.
  change (days_in_month y 10) with 31 in S11.
  pose proof (days_before_month_next y 11 ltac:(lia)) as S12.
  change (11 + 1) with 12 in S12. rewrite S11 in S12.
  change (days_in_month y 11) with 30 in S12.
  pose proof (days_before_month_next y 12 ltac:(lia)) as S13.
  change (12 + 1) with 13 in S13. rewrite S12 in S13.
  change (days_in_month y 12) with 31 in S13.
  destruct C as [-> | [-> | [-> | [-> | [-> | [-> | [-> | [-> | [-> | [-> |
    [-> | [-> | ->]]]]]]]]]]]];
    unfold days_before_month_table; cbn [Z.eqb Pos.eqb];
    destruct (is_leap y); lia.
Qed.

Lemma toordinal_positive (d : date) : valid_date d -> 1 <= toordinal d.
Proof.
  intros (Hy & Hm & Hd). unfold toordinal.
  pose proof (days_before_year_mono 1 (year d) Hy) as Y.
  change (days_before_year 1) with 0 in Y.
  rewrite days_before_month_closed by lia. unfold days_before_month_table.
  destruct (is_leap (year d));
    repeat (match goal with |- context [?a =? ?b] =>
              destruct (Z.eqb_spec a b) end); lia.
Qed.

Lemma days_before_month_mono (y m : Z) (k : nat) :
  1 <= m -> days_before_month y m <= days_before_month y (m + Z.of_nat k).
Proof.
  intros H. induction k as [|k IH].
  - replace (m + Z.of_nat 0) with m by lia. lia.
  - replace (m + Z.of_nat (S k)) with (m + Z.of_nat k + 1) by lia.
    rewrite days_before_month_next by lia.
    pose proof (days_in_month_bounds y (m + Z.of_nat k)). lia.
Qed.

Lemma days_before_month_le (y m m' : Z) :
  1 <= m <= m' -> days_before_month y m <= days_before_month y m'.
Proof.
  intros H. replace m' with (m + Z.of_nat (Z.to_nat (m' - m))) by lia.
  apply days_before_month_mono. lia.
Qed.

Lemma days_before_month_13 (y : Z) : days_before_month y 13 = year_length y.
Proof.
  rewrite days_before_month_closed by lia.
  unfold days_before_month_table, year_length. cbn [Z.eqb Pos.eqb].
  destruct (is_leap y); reflexivity.
Qed.

(** A date of year [y] has a day number after those of the years before
    and not after the last of [y]. *)
Lemma toordinal_year_bounds (d : date) :
  valid_date d ->
  days_before_year (year d) < toordinal d <= days_before_year (year d + 1).
Proof.
  intros (Hy & Hm & Hd). unfold toordinal.
  rewrite days_before_year_next, <- days_before_month_13.
  pose proof (days_before_month_le (year d) 1 (month d) ltac:(lia)) as L.
  rewrite days_before_month_1 in L.
  pose proof (days_before_month_le (year d) (month d + 1) 13 ltac:(lia)) as U.
  rewrite days_before_month_next in U by lia. lia.
Qed.

Lemma tomorrow_valid (d : date) : valid_date d -> valid_date (tomorrow d).
Proof.
  intros (Hy & Hm & Hd). unfold tomorrow, valid_date.
  destruct (Z.ltb_spec (day d) (days_in_month (year d) (month d))).
  - cbn [year month day]. lia.
  - destruct (Z.eqb_spec (month d) 12); cbn [year month day].
    + pose proof (days_in_month_bounds (year d + 1) 1). lia.
    + pose proof (days_in_month_bounds (year d) (month d + 1)). lia.
Qed.

(** The next calendar day has the next day number. *)
Lemma tomorrow_ordinal (d : date) :
  valid_date d -> toordinal (tomorrow d) = toordinal d + 1.
Proof.
  intros (Hy & Hm & Hd). unfold tomorrow, toordinal.
  destruct (Z.ltb_spec (day d) (days_in_month (year d) (month d))).
  - cbn [year month day]. lia.
  - destruct (Z.eqb_spec (month d) 12) as [E|E]; cbn [year month day].
    + rewrite days_before_year_next, days_before_month_1,
        <- days_before_month_13.
      change 13 with (12 + 1). rewrite days_before_month_next by lia.
      rewrite E in *. lia.
    + rewrite days_before_month_next by lia. lia.
Qed.

Definition first_day : date := mkdate 1 1 1.

Lemma yesterday_valid (d : date) :
  valid_date d -> d <> first_day -> valid_date (yesterday d).
Proof.
  destruct d as [y m n]. unfold valid_date, yesterday, first_day.
  cbn [year month day]. intros (Hy & Hm & Hd) Hne.
  destruct (Z.ltb_spec 1 n); cbn [year month day]; [lia|].
  destruct (Z.eqb_spec m 1) as [E|E]; cbn [year month day].
  - assert (y <> 1) by (intros ->; apply Hne; f_equal; lia).
    change (days_in_month (y - 1) 12) with 31. lia.
  - pose proof (days_in_month_bounds y (m - 1)). lia.
Qed.

Lemma tomorrow_yesterday (d : date) :
  valid_date d -> tomorrow (yesterday d) = d.
Proof.
  destruct d as [y m n]. unfold valid_date, yesterday.
  cbn [year month day]. intros (Hy & Hm & Hd).
  destruct (Z.ltb_spec 1 n).
  - rewrite tomorrow_within by lia. f_equal. lia.
  - destruct (Z.eqb_spec m 1) as [E|E].
    + rewrite tomorrow_last by (change (days_in_month (y - 1) 12) with 31; lia).
      cbn [Z.eqb Pos.eqb]. f_equal; lia.
    + rewrite tomorrow_last by lia.
      destruct (Z.eqb_spec (m - 1) 12); [lia|]. f_equal; lia.
Qed.

Lemma yesterday_ordinal (d : date) :
  valid_date d -> d <> first_day -> toordinal (yesterday d) = toordinal d - 1.
Proof.
  intros V Hne.
  pose proof (tomorrow_ordinal (yesterday d) (yesterday_valid d V Hne)) as E.
  rewrite tomorrow_yesterday in E by exact V. lia.
Qed.

(** Calendar order is the order of the day numbers. *)
Lemma date_leb_ordinal (a b : date) :
  valid_date a -> valid_date b ->
  date_leb a b = (toordinal a <=? toordinal b).
Proof.
  intros Va Vb.
  pose proof (toordinal_year_bounds a Va) as Ba.
  pose proof (toordinal_year_bounds b Vb) as Bb.
  destruct Va as (Ha1 & Ha2 & Ha3), Vb as (Hb1 & Hb2 & Hb3).
  unfold date_leb.
  destruct (Z.ltb_spec (year a) (year b)) as [L|L]; cbn [orb].
  - pose proof (days_before_year_mono (year a + 1) (year b) ltac:(lia)).
    symmetry. apply Z.leb_le. lia.
  - destruct (Z.eqb_spec (year a) (year b)) as [E|E]; cbn [andb].
    + unfold toordinal. rewrite E.
      destruct (Z.ltb_spec (month a) (month b)) as [M|M]; cbn [orb].
      * pose proof (days_before_month_le (year b) (month a + 1) (month b)
                      ltac:(lia)) as D.
        rewrite days_before_month_next in D by lia. rewrite E in Ha3.
        symmetry. apply Z.leb_le. lia.
      * destruct (Z.eqb_spec (month a) (month b)) as [F|F]; cbn [andb].
        -- rewrite F.
           destruct (Z.leb_spec (day a) (day b)); symmetry;
             [apply Z.leb_le | apply Z.leb_gt]; lia.
        -- pose proof (days_before_month_le (year b) (month b + 1) (month a)
                         ltac:(lia)) as D.
           rewrite days_before_month_next in D by lia.
           symmetry. apply Z.leb_gt. lia.
    + pose proof (days_before_year_mono (year b + 1) (year a) ltac:(lia)).
      symmetry. apply Z.leb_gt. lia.
Qed.

(** Going back [n] days and forward again. *)
Lemma iter_yesterday (n : nat) (d : date) :
  valid_date d -> Z.of_nat n < toordinal d ->
  valid_date (Nat.iter n yesterday d) /\
  toordinal (Nat.iter n yesterday d) = toordinal d - Z.of_nat n /\
  Nat.iter n tomorrow (Nat.iter n yesterday d) = d.
Proof.
  intros V. induction n as [|n IH]; intros H.
  - change (Nat.iter 0 yesterday d) with d.
    split; [exact V|]. split; [lia | reflexivity].
  - destruct IH as (V' & O' & R'); [lia|].
    assert (Hne : Nat.iter n yesterday d <> first_day).
    { intros E. rewrite E in O'. change (toordinal first_day) with 1 in O'. lia. }
    rewrite (Nat.iter_succ n date yesterday).
    split; [now apply yesterday_valid|].
    split; [rewrite yesterday_ordinal by assumption; lia|].
    rewrite Nat.iter_succ_r, tomorrow_yesterday by exact V'. exact R'.
Qed.

Lemma iter_tomorrow (n : nat) (d : date) :
  valid_date d ->
  valid_date (Nat.iter n tomorrow d) /\
  toordinal (Nat.iter n tomorrow d) = toordinal d + Z.of_nat n.
Proof.
  intros V. induction n as [|n (V' & O')].
  - change (Nat.iter 0 tomorrow d) with d. split; [exact V | lia].
  - rewrite Nat.iter_succ. split; [now apply tomorrow_valid|].
    rewrite tomorrow_ordinal by exact V'. lia.
Qed.

Lemma weekday_range (d : date) : 0 <= weekday d <= 6.
Proof. unfold weekday. pose proof (Z.mod_pos_bound (toordinal d + 6) 7). lia. Qed.

Lemma weekday_before (d : date) : valid_date d -> weekday d < toordinal d.
Proof.
  intros V. pose proof (toordinal_positive d V). unfold weekday.
  Z.div_mod_to_equations. lia.
Qed.


Lemma get_date_range_week (today : date) (custom_start custom_end : option string) :
  get_date_range today "week" custom_start custom_end
  = (date_str (fst (week_bounds today)), date_str (snd (week_bounds today))).
Proof.
  unfold get_date_range.
  change ("week" =? "today")%string with false.
  change ("week" =? "week")%string with true. cbv iota.
  destruct (week_bounds today) as [s e]. reflexivity.
Qed.
(** The week of a date, as [week_bounds] computes it. *)
Lemma week_bounds_spec (today : date) :
  valid_date today ->
  let start := fst (week_bounds today) in
  let end_ := snd (week_bounds today) in
  valid_date start /\ valid_date end_ /\
  weekday start = 0 /\ weekday end_ = 6 /\
  plus_days start (weekday today) = today /\
  end_ = plus_days start 6 /\
  toordinal end_ = toordinal start + 6 /\
  toordinal start <= toordinal today <= toordinal end_ /\
  (forall custom_start custom_end,
     get_date_range today "week" custom_start custom_end
     = (date_str start, date_str end_)).
Proof.
  intros V start end_.
  pose proof (weekday_range today) as R.
  pose proof (weekday_before today V) as B.
  destruct (iter_yesterday (Z.to_nat (weekday today)) today V ltac:(lia))
    as (Vs & Os & Rs).
  rewrite Z2Nat.id in Os by lia.
  destruct (iter_tomorrow 6 (Nat.iter (Z.to_nat (weekday today)) yesterday today)
              Vs) as (Ve & Oe).
  change (Z.of_nat 6) with 6 in Oe.
  pose proof (get_date_range_week today) as G.
  change (fst (week_bounds today)) with start in G.
  change (snd (week_bounds today)) with end_ in G.
  assert (Ee : end_ = plus_days start 6) by reflexivity.
  assert (Es : start = Nat.iter (Z.to_nat (weekday today)) yesterday today)
    by reflexivity.
  clearbody start end_.
  assert (P6 : plus_days start 6 = Nat.iter 6 tomorrow start).
  { unfold plus_days. change (Z.to_nat 6) with 6%nat. reflexivity. }
  split; [rewrite Es; exact Vs|].
  split; [rewrite Ee, P6, Es; exact Ve|].
  split; [unfold weekday in *; rewrite Es, Os; Z.div_mod_to_equations; lia|].
  split; [unfold weekday in *; rewrite Ee, P6, Es, Oe, Os;
          Z.div_mod_to_equations; lia|].
  split; [rewrite Es; exact Rs|]. split; [exact Ee|].
  split; [rewrite Ee, P6, Es; exact Oe|].
  split; [rewrite Ee, P6, Es, Oe, Os; lia | exact G].
Qed.



(** *** Date strings compare as dates *)

Lemma compare_append (a b s t : string) :
  String.length a = String.length b ->
  String.compare (a ++ s) (b ++ t)
  = match String.compare a b with
    | Eq => String.compare s t
    | c => c
    end.
Proof.
  revert b. induction a as [|x a IH]; intros [|y b] L; try discriminate L.
  - cbn. destruct (String.compare s t); reflexivity.
  - cbn [String.append String.compare].
    destruct (Ascii.compare x y); [|reflexivity|reflexivity].
    apply IH. now injection L.
Qed.

Lemma compare_refl (s : string) : String.compare s s = Eq.
Proof. now apply OrderedTypeEx.String_as_OT.cmp_eq. Qed.

Lemma compare_lt_trans (a b c : string) :
  String.compare a b = Lt -> String.compare b c = Lt -> String.compare a c = Lt.
Proof.
  intros H1 H2. apply OrderedTypeEx.String_as_OT.cmp_lt.
  apply OrderedTypeEx.String_as_OT.cmp_lt in H1, H2.
  exact (OrderedTypeEx.String_as_OT.lt_trans _ _ _ H1 H2).
Qed.

(** [leb] is a total preorder on strings. *)
Lemma leb_refl (s : string) : String.leb s s = true.
Proof. unfold String.leb. now rewrite compare_refl. Qed.

Lemma leb_trans (a b c : string) :
  String.leb a b = true -> String.leb b c = true -> String.leb a c = true.
Proof.
  unfold String.leb. intros H1 H2.
  destruct (String.compare a b) eqn:E1; [| |discriminate].
  - apply String.compare_eq_iff in E1. now subst.
  - destruct (String.compare b c) eqn:E2; [| |discriminate].
    + apply String.compare_eq_iff in E2. subst. now rewrite E1.
    + now rewrite (compare_lt_trans _ _ _ E1 E2).
Qed.

(** A number written with [w] digits, zeros in front. *)
Definition padded (w : nat) (z : Z) : string := zfill w (decimal z).

Definition padded_step (w : nat) (i : Z) : bool :=
  Nat.eqb (String.length (padded w i)) w &&
  Nat.eqb (String.length (padded w (i + 1))) w &&
  match String.compare (padded w i) (padded w (i + 1)) with
  | Lt => true
  | _ => false
  end.

(** The check of [n] numbers in a row, from [i] on. *)
Fixpoint padded_steps (w : nat) (n : nat) (i : Z) : bool :=
  match n with
  | O => true
  | S n' => padded_step w i && padded_steps w n' (i + 1)
  end.

Lemma padded_steps_spec (w n : nat) :
  forall i, padded_steps w n i = true ->
  forall k, 0 <= k < Z.of_nat n ->
    String.length (padded w (i + k)) = w /\
    String.length (padded w (i + k + 1)) = w /\
    String.compare (padded w (i + k)) (padded w (i + k + 1)) = Lt.
Proof.
  induction n as [|n IH]; intros i H k Hk; [lia|].
  cbn [padded_steps] in H. apply andb_prop in H. destruct H as [H0 H].
  destruct (Z.eq_dec k 0) as [->|Hn].
  - rewrite Z.add_0_r. unfold padded_step in H0.
    apply andb_prop in H0. destruct H0 as [H0 C].
    apply andb_prop in H0. destruct H0 as [L1 L2].
    apply Nat.eqb_eq in L1, L2.
    destruct (String.compare _ _); try discriminate. auto.
  - specialize (IH (i + 1) H (k - 1) ltac:(lia)).
    replace (i + 1 + (k - 1)) with (i + k) in IH by lia. exact IH.
Qed.

(** Checked for every number below [n], the order of the padded
    numerals up to [n] is the order of the numbers. *)
Lemma padded_order (w : nat) (n : Z) :
  padded_steps w (Z.to_nat n) 0 = true ->
  forall (d : nat) (i : Z), 0 <= i -> i + Z.of_nat (S d) <= n ->
    String.length (padded w i) = w /\
    String.length (padded w (i + Z.of_nat (S d))) = w /\
    String.compare (padded w i) (padded w (i + Z.of_nat (S d))) = Lt.
Proof.
  intros T.
  pose proof (padded_steps_spec w (Z.to_nat n) 0 T) as Step.
  induction d as [|d IH]; intros i Hi Hn.
  - specialize (Step i ltac:(lia)). cbn [Z.add] in Step.
    change (Z.of_nat 1) with 1. exact Step.
  - destruct (IH i Hi ltac:(lia)) as (Li & _ & Ci).
    specialize (Step (i + Z.of_nat (S d)) ltac:(lia)). cbn [Z.add] in Step.
    replace (i + Z.of_nat (S (S d))) with (i + Z.of_nat (S d) + 1) by lia.
    destruct Step as (_ & L & C).
    split; [exact Li|]. split; [exact L|].
    exact (compare_lt_trans _ _ _ Ci C).
Qed.

Lemma padded_compare (w : nat) (n : Z) :
  padded_steps w (Z.to_nat n) 0 = true ->
  forall a b : Z, 0 <= a <= n -> 0 <= b <= n ->
    String.compare (padded w a) (padded w b) = (a ?= b).
Proof.
  intros T a b Ha Hb.
  pose proof (padded_order w n T) as O.
  destruct (Z.compare_spec a b) as [E|L|G].
  - subst. apply compare_refl.
  - destruct (O (Z.to_nat (b - a - 1)) a ltac:(lia) ltac:(lia)) as (_ & _ & C).
    now replace (a + Z.of_nat (S (Z.to_nat (b - a - 1)))) with b in C by lia.
  - destruct (O (Z.to_nat (a - b - 1)) b ltac:(lia) ltac:(lia)) as (_ & _ & C).
    replace (b + Z.of_nat (S (Z.to_nat (a - b - 1)))) with a in C by lia.
    rewrite String.compare_antisym, C. reflexivity.
Qed.

Lemma padded_length (w : nat) (n : Z) :
  padded_steps w (Z.to_nat n) 0 = true ->
  0 < n -> forall a : Z, 0 <= a <= n -> String.length (padded w a) = w.
Proof.
  intros T Hp a Ha.
  destruct (Z.eq_dec a 0) as [->|Hn].
  - destruct (padded_order w n T 0%nat 0 ltac:(lia) ltac:(lia)) as (L & _ & _).
    exact L.
  - destruct (padded_order w n T 0%nat (a - 1) ltac:(lia) ltac:(lia))
      as (_ & L & _).
    now replace (a - 1 + Z.of_nat 1) with a in L by lia.
Qed.

Lemma years_checked : padded_steps 4 (Z.to_nat 9999) 0 = true.
Proof. vm_compute. reflexivity. Qed.

Lemma months_and_days_checked : padded_steps 2 (Z.to_nat 99) 0 = true.
Proof. vm_compute. reflexivity. Qed.

Lemma date_str_compare (a b : date) :
  0 <= year a <= 9999 -> 0 <= month a <= 99 -> 0 <= day a <= 99 ->
  0 <= year b <= 9999 -> 0 <= month b <= 99 -> 0 <= day b <= 99 ->
  String.compare (date_str a) (date_str b)
  = match year a ?= year b with
    | Eq => match month a ?= month b with
            | Eq => day a ?= day b
            | c => c
            end
    | c => c
    end.
Proof.
  intros Ya Ma Da Yb Mb Db. unfold date_str.
  fold (padded 4 (year a)) (padded 4 (year b)) (padded 2 (month a))
       (padded 2 (month b)) (padded 2 (day a)) (padded 2 (day b)).
  pose proof (padded_compare 4 9999 years_checked) as CY.
  pose proof (padded_compare 2 99 months_and_days_checked) as CM.
  pose proof (padded_length 4 9999 years_checked ltac:(lia)) as LY.
  pose proof (padded_length 2 99 months_and_days_checked ltac:(lia)) as LM.
  rewrite compare_append by (rewrite !LY by assumption; reflexivity).
  rewrite CY by assumption.
  destruct (year a ?= year b); [|reflexivity|reflexivity].
  rewrite (compare_append "-" "-") by reflexivity.
  change (String.compare "-" "-") with Eq. cbv iota.
  rewrite compare_append by (rewrite !LM by assumption; reflexivity).
  rewrite CM by assumption.
  destruct (month a ?= month b); [|reflexivity|reflexivity].
  rewrite (compare_append "-" "-") by reflexivity.
  change (String.compare "-" "-") with Eq. cbv iota.
  apply CM; assumption.
Qed.

Lemma date_str_order (a b : date) :
  valid_date a -> valid_date b -> year a <= 9999 -> year b <= 9999 ->
  String.leb (date_str a) (date_str b) = date_leb a b /\
  String.leb (date_str a) (date_str b) = (toordinal a <=? toordinal b) /\
  (date_str a = date_str b -> a = b).
Proof.
  intros Va Vb Ya Yb.
  pose proof (date_leb_ordinal a b Va Vb) as O.
  destruct Va as (Ha1 & Ha2 & Ha3), Vb as (Hb1 & Hb2 & Hb3).
  pose proof (days_in_month_bounds (year a) (month a)).
  pose proof (days_in_month_bounds (year b) (month b)).
  assert (C := date_str_compare a b ltac:(lia) ltac:(lia) ltac:(lia)
                 ltac:(lia) ltac:(lia) ltac:(lia)).
  assert (L : String.leb (date_str a) (date_str b) = date_leb a b).
  { unfold String.leb, date_leb. rewrite C.
    destruct (Z.compare_spec (year a) (year b)) as [E|E|E];
      destruct (Z.ltb_spec (year a) (year b)); try lia;
      destruct (Z.eqb_spec (year a) (year b)); try lia; cbn [orb andb];
      try reflexivity.
    destruct (Z.compare_spec (month a) (month b)) as [F|F|F];
      destruct (Z.ltb_spec (month a) (month b)); try lia;
      destruct (Z.eqb_spec (month a) (month b)); try lia; cbn [orb andb];
      reflexivity. }
  split; [exact L|]. split; [now rewrite L|].
  intros E. rewrite E, compare_refl in C.
  destruct a as [ya ma da], b as [yb mb db]. cbn [year month day] in *.
  destruct (Z.compare_spec ya yb); try discriminate.
  destruct (Z.compare_spec ma mb); try discriminate.
  destruct (Z.compare_spec da db); try discriminate.
  now subst.
Qed.

Lemma year_le_of_ordinal (a b : date) :
  valid_date a -> valid_date b -> toordinal a <= toordinal b ->
  year a <= year b.
Proof.
  intros Va Vb H.
  pose proof (toordinal_year_bounds a Va). pose proof (toordinal_year_bounds b Vb).
  destruct (Z.le_gt_cases (year a) (year b)) as [L|G]; [exact L|].
  pose proof (days_before_year_mono (year b + 1) (year a) ltac:(lia)). lia.
Qed.

Lemma year_next_of_ordinal (a b : date) :
  valid_date a -> valid_date b -> toordinal b < toordinal a + 365 ->
  year b <= year a + 1.
Proof.
  intros Va Vb H.
  pose proof (toordinal_year_bounds a Va). pose proof (toordinal_year_bounds b Vb).
  destruct (Z.le_gt_cases (year b) (year a + 1)) as [L|G]; [exact L|].
  pose proof (days_before_year_mono (year a + 1 + 1) (year b) ltac:(lia)) as M.
  rewrite (days_before_year_next (year a + 1)) in M.
  unfold year_length in M. destruct (is_leap (year a + 1)); lia.
Qed.

Lemma get_date_range_today (today : date) (custom_start custom_end : option string) :
  get_date_range today "today" custom_start custom_end
  = (date_str today, date_str today).
Proof. reflexivity. Qed.

Lemma get_date_range_year (today : date) (custom_start custom_end : option string) :
  get_date_range today "year" custom_start custom_end
  = (date_str (mkdate (year today) 1 1), date_str (mkdate (year today) 12 31)).
Proof. reflexivity. Qed.

(** Every tag other than [today], [week], [year] and a complete
    [custom] resolves to the current month. *)
Lemma get_date_range_month (today : date) (period : string)
    (custom_start custom_end : option string) :
  valid_date today ->
  period <> "today" -> period <> "week" -> period <> "year" ->
  (period =? "custom")%string && truthy custom_start && truthy custom_end = false ->
  get_date_range today period custom_start custom_end
  = (date_str (mkdate (year today) (month today) 1),
     date_str (mkdate (year today) (month today)
                 (days_in_month (year today) (month today)))).
Proof.
  intros V H1 H2 H3 H4. unfold get_date_range.
  apply String.eqb_neq in H1, H2, H3. rewrite H1, H2, H3, H4.
  rewrite month_bounds_spec by exact V.
  destruct (period =? "month")%string; reflexivity.
Qed.

Lemma string_cases (period : string) :
  period = "today" \/ period = "week" \/ period = "year" \/
  (period <> "today" /\ period <> "week" /\ period <> "year").
Proof.
  destruct (String.eqb_spec period "today"); [tauto|].
  destruct (String.eqb_spec period "week"); [tauto|].
  destruct (String.eqb_spec period "year"); tauto.
Qed.

(** The range of every tag but a complete [custom] holds today's date
    string, in the order of strings. *)
Lemma range_holds_today (today : date) (period : string)
    (custom_start custom_end : option string) :
  valid_date today -> year today <= 9998 ->
  (period =? "custom")%string && truthy custom_start && truthy custom_end = false ->
  String.leb (fst (get_date_range today period custom_start custom_end))
             (date_str today) = true /\
  String.leb (date_str today)
             (snd (get_date_range today period custom_start custom_end)) = true.
Proof.
  intros V Y C.
  destruct (string_cases period) as [-> | [-> | [-> | (H1 & H2 & H3)]]].
  - rewrite get_date_range_today. cbn [fst snd]. split; apply leb_refl.
  - destruct (week_bounds_spec today V)
      as (Vs & Ve & _ & _ & _ & _ & Oe & Ot & G).
    rewrite G. cbn [fst snd].
    assert (Ys : year (fst (week_bounds today)) <= 9999).
    { pose proof (year_le_of_ordinal _ _ Vs V ltac:(lia)). lia. }
    assert (Ye : year (snd (week_bounds today)) <= 9999).
    { pose proof (year_next_of_ordinal _ _ V Ve ltac:(lia)). lia. }
    destruct (date_str_order _ _ Vs V ltac:(lia) ltac:(lia)) as (_ & -> & _).
    destruct (date_str_order _ _ V Ve ltac:(lia) ltac:(lia)) as (_ & -> & _).
    split; apply Z.leb_le; lia.
  - rewrite get_date_range_year. cbn [fst snd].
    destruct V as (Hy & Hm & Hd).
    pose proof (days_in_month_bounds (year today) (month today)).
    assert (V1 : valid_date (mkdate (year today) 1 1))
      by (unfold valid_date; cbn [year month day];
          change (days_in_month (year today) 1) with 31; lia).
    assert (V2 : valid_date (mkdate (year today) 12 31))
      by (unfold valid_date; cbn [year month day];
          change (days_in_month (year today) 12) with 31; lia).
    assert (V : valid_date today) by (unfold valid_date; lia).
    destruct (date_str_order _ _ V1 V ltac:(cbn [year]; lia) ltac:(lia))
      as (-> & _).
    destruct (date_str_order _ _ V V2 ltac:(lia) ltac:(cbn [year]; lia))
      as (-> & _).
    unfold date_leb. cbn [year month day]. rewrite !Z.eqb_refl. cbn [andb].
    split; apply orb_true_iff; right; apply orb_true_iff.
    + destruct (Z.ltb_spec 1 (month today)); [now left | right].
      replace (month today) with 1 by lia. apply Z.leb_le. lia.
    + destruct (Z.ltb_spec (month today) 12); [now left | right].
      replace (month today) with 12 by lia. apply Z.leb_le. lia.
  - rewrite get_date_range_month by assumption. cbn [fst snd].
    destruct V as (Hy & Hm & Hd).
    pose proof (days_in_month_bounds (year today) (month today)).
    assert (V1 : valid_date (mkdate (year today) (month today) 1))
      by (unfold valid_date; cbn [year month day]; lia).
    assert (V2 : valid_date (mkdate (year today) (month today)
                               (days_in_month (year today) (month today))))
      by (unfold valid_date; cbn [year month day]; lia).
    assert (V : valid_date today) by (unfold valid_date; lia).
    destruct (date_str_order _ _ V1 V ltac:(cbn [year]; lia) ltac:(lia))
      as (-> & _).
    destruct (date_str_order _ _ V V2 ltac:(lia) ltac:(cbn [year]; lia))
      as (-> & _).
    unfold date_leb. cbn [year month day]. rewrite !Z.eqb_refl, !Z.ltb_irrefl.
    cbn [andb orb]. split; apply Z.leb_le; lia.
Qed.

(** X2: whatever the period tag (a complete [custom] apart), the range
    contains today: for a current date of the years 1 to 9998, today's
    date string lies between the two bounds returned, in the order in
    which the queries compare [date] fields. *)
Theorem every_named_range_contains_today (today : date) (period : string)
    (custom_start custom_end : option string) :
  valid_date today -> year today <= 9998 ->
  (period =? "custom")%string && truthy custom_start && truthy custom_end = false ->
  String.leb (fst (get_date_range today period custom_start custom_end))
             (date_str today) = true /\
  String.leb (date_str today)
             (snd (get_date_range today period custom_start custom_end)) = true.
Proof. exact (range_holds_today today period custom_start custom_end). Qed.

Lemma every_named_range_contains_today_witness :
  String.leb (fst (get_date_range (mkdate 2026 11 4) "week" None None))
             (date_str (mkdate 2026 11 4)) = true.
Proof.
  apply (every_named_range_contains_today (mkdate 2026 11 4) "week" None None);
    vm_compute; intuition discriminate.
Defined.

(** ** Collections *)

Section StoreFacts.
Context {A : Type}.
Local Open Scope list_scope.

Lemma found_find_one (p : A -> bool) (l : list A) :
  found (find_one p l) = existsb p l.
Proof.
  unfold find_one. induction l as [|x l IH]; [reflexivity|].
  cbn [find existsb]. destruct (p x); [reflexivity | exact IH].
Qed.

Lemma find_one_none (p : A -> bool) (l : list A) :
  find_one p l = None -> forall x, In x l -> p x = false.
Proof. unfold find_one. intros H x Hx. exact (find_none _ _ H x Hx). Qed.

Lemma update_one_none (p : A -> bool) (f : A -> A) (l : list A) :
  find_one p l = None -> update_one p f l = l.
Proof.
  unfold find_one. induction l as [|x l IH]; [reflexivity|].
  cbn [find update_one]. destruct (p x); [discriminate|].
  intros H. now rewrite IH.
Qed.

Lemma delete_one_none (p : A -> bool) (l : list A) :
  find_one p l = None -> delete_one p l = l.
Proof.
  unfold find_one. induction l as [|x l IH]; [reflexivity|].
  cbn [find delete_one]. destruct (p x); [discriminate|].
  intros H. now rewrite IH.
Qed.

Lemma matched_count_found (p : A -> bool) (l : list A) :
  Nat.eqb (matched_count p l) 0 = negb (found (find_one p l)).
Proof.
  rewrite found_find_one. unfold matched_count.
  destruct (existsb p l); reflexivity.
Qed.

(** [update_one] changes the first match and nothing else. *)
Lemma update_one_split (p : A -> bool) (f : A -> A) (l : list A) (x : A) :
  find_one p l = Some x ->
  exists before after,
    l = before ++ x :: after /\
    update_one p f l = before ++ f x :: after /\
    (forall y, In y before -> p y = false) /\ p x = true.
Proof.
  unfold find_one. induction l as [|y l IH]; [discriminate|].
  cbn [find update_one]. destruct (p y) eqn:E.
  - intros [= ->]. exists [], l. repeat split; auto. intros z [].
  - intros H. destruct (IH H) as (b & a & E1 & E2 & E3 & E4).
    exists (y :: b), a. cbn [app]. rewrite <- E1, <- E2.
    repeat split; auto. intros z [<- | Hz]; auto.
Qed.

Lemma filter_update_one_outside (q p : A -> bool) (f : A -> A) (l : list A) :
  (forall x, p x = true -> q x = false /\ q (f x) = false) ->
  filter q (update_one p f l) = filter q l.
Proof.
  intros H. induction l as [|x l IH]; [reflexivity|].
  cbn [update_one]. destruct (p x) eqn:E; cbn [filter].
  - destruct (H x E) as [-> ->]. reflexivity.
  - now rewrite IH.
Qed.

Lemma filter_delete_one_outside (q p : A -> bool) (l : list A) :
  (forall x, p x = true -> q x = false) ->
  filter q (delete_one p l) = filter q l.
Proof.
  intros H. induction l as [|x l IH]; [reflexivity|].
  cbn [delete_one]. destruct (p x) eqn:E; cbn [filter].
  - now rewrite (H x E).
  - now rewrite IH.
Qed.

Lemma filter_insert_one_outside (q : A -> bool) (x : A) (l : list A) :
  q x = false -> filter q (insert_one x l) = filter q l.
Proof.
  intros H. unfold insert_one. rewrite filter_app. cbn [filter].
  rewrite H. apply app_nil_r.
Qed.

Lemma filter_map_outside (q : A -> bool) (g : A -> A) (l : list A) :
  (forall x, In x l -> g x = x \/ (q x = false /\ q (g x) = false)) ->
  filter q (map g l) = filter q l.
Proof.
  induction l as [|x l IH]; intros H; [reflexivity|].
  cbn [map filter]. rewrite IH by (intros y Hy; apply H; now right).
  destruct (H x (or_introl eq_refl)) as [-> | [-> ->]]; reflexivity.
Qed.

Lemma filter_app_outside (q : A -> bool) (l ins : list A) :
  (forall x, In x ins -> q x = false) -> filter q (l ++ ins) = filter q l.
Proof.
  intros H. rewrite filter_app.
  assert (E : filter q ins = []).
  { induction ins as [|x ins IH]; [reflexivity|].
    cbn [filter]. rewrite (H x (or_introl eq_refl)).
    apply IH. intros y Hy. apply H. now right. }
  rewrite E. apply app_nil_r.
Qed.

End StoreFacts.

(** ** What the routes do to the store *)

Ltac run_handler :=
  unfold exec, bind, get_db, modify_db, with_db, uuid4, ret, raise;
  cbn [fst snd db evaluations uuid_source uuid_drawn].

Section UnknownIds.
Context {N : PyNum}.
Local Open Scope list_scope.

Lemma set_expenses_same (d : DB) : set_expenses (expenses d) d = d.
Proof. destruct d; reflexivity. Qed.

Lemma set_budgets_same (d : DB) : set_budgets (budgets d) d = d.
Proof. destruct d; reflexivity. Qed.

Lemma set_budget_alerts_same (d : DB) : set_budget_alerts (budget_alerts d) d = d.
Proof. destruct d; reflexivity. Qed.

(** X3: an id that names no document of the caller (none at all, or one
    of another user) gets HTTP 404 from each of the five routes that
    take an id, and the store is left exactly as it was, also by the
    three routes that write before they look at the count. *)
Theorem unknown_id_is_404_and_no_change (doc_id current_user : string)
    (w : World) :
  find_one (owned_budget_filter doc_id current_user) (budgets (db w)) = None ->
  find_one (owned_alert_filter doc_id current_user) (budget_alerts (db w)) = None ->
  find_one (owned_expense_filter doc_id current_user) (expenses (db w)) = None ->
  (forall budget_data,
     update_budget doc_id budget_data current_user w
     = (Raise (HTTPException 404 "Budget not found"), w)) /\
  delete_budget doc_id current_user w
    = (Raise (HTTPException 404 "Budget not found"), w) /\
  mark_alert_read doc_id current_user w
    = (Raise (HTTPException 404 "Alert not found"), w) /\
  (forall now expense_data,
     update_expense now doc_id expense_data current_user w
     = (Raise (HTTPException 404 "Expense not found"), w)) /\
  delete_expense doc_id current_user w
    = (Raise (HTTPException 404 "Expense not found"), w).
Proof.
  intros Hb Ha He. repeat split.
  - intros budget_data. unfold update_budget. run_handler. now rewrite Hb.
  - unfold delete_budget. run_handler.
    rewrite matched_count_found, Hb, delete_one_none by exact Hb.
    cbn [found negb]. now rewrite set_budgets_same, world_eta.
  - unfold mark_alert_read. run_handler.
    rewrite matched_count_found, Ha, update_one_none by exact Ha.
    cbn [found negb]. now rewrite set_budget_alerts_same, world_eta.
  - intros now expense_data. unfold update_expense. run_handler. now rewrite He.
  - unfold delete_expense. run_handler.
    rewrite matched_count_found, He, delete_one_none by exact He.
    cbn [found negb]. now rewrite set_expenses_same, world_eta.
Qed.

End UnknownIds.

(** ** The alerts of a pass, one by one *)

Section PassAlerts.
Context {N : PyNum}.
Local Open Scope list_scope.

(** The alerts a pass over the fetched budgets [l] inserts, in order. *)
Fixpoint pass_alerts (now : Z) (user_id : string) (l : list Budget.t)
    (w : World) : list BudgetAlert.t :=
  match l with
  | [] => []
  | b :: rest =>
      new_alerts now user_id b (db w) (uuid_source w (uuid_drawn w)) ++
      pass_alerts now user_id rest (after_check_budget now user_id b w)
  end.

Lemma fold_check_pass_alerts now user_id (l : list Budget.t) :
  forall w : World,
    budget_alerts
      (db (fold_left (fun w' b => after_check_budget now user_id b w') l w))
    = budget_alerts (db w) ++ pass_alerts now user_id l w.
Proof.
  induction l as [|b l IH]; intros w; cbn [fold_left pass_alerts].
  - now rewrite app_nil_r.
  - rewrite IH. unfold after_check_budget at 2. cbn [db budget_alerts].
    now rewrite app_assoc.
Qed.

Definition inserted_by_pass (now : Z) (user_id : string) (w : World)
    : list BudgetAlert.t :=
  pass_alerts now user_id
    (find_to_list (active_budget_filter user_id) 100 (budgets (db w)))
    (started_pass w).

Lemma after_pass_alerts_exact now user_id (w : World) :
  budget_alerts (db (after_pass now user_id w))
  = budget_alerts (db w) ++ inserted_by_pass now user_id w.
Proof. unfold after_pass. now rewrite fold_check_pass_alerts. Qed.

(** What an inserted alert says. *)
Definition well_formed_alert (now : Z) (user_id : string) (stored : list Expense.t)
    (b : Budget.t) (a : BudgetAlert.t) : Prop :=
  BudgetAlert.user_id a = user_id /\
  BudgetAlert.budget_id a = Budget.id b /\
  BudgetAlert.created_at a = now /\
  BudgetAlert.is_read a = false /\
  BudgetAlert.percentage a
    = percentage_value (spent_of user_id b stored) (Budget.limit_amount b) /\
  ((BudgetAlert.alert_type a = "exceeded" /\
    ge (BudgetAlert.percentage a) (of_int 100) = true /\
    BudgetAlert.message a = exceeded_message b (spent_of user_id b stored)) \/
   (BudgetAlert.alert_type a = "warning" /\
    ge (BudgetAlert.percentage a) (of_int 80) = true /\
    BudgetAlert.message a
      = warning_message b (spent_of user_id b stored) (BudgetAlert.percentage a))).

Lemma new_alerts_well_formed now user_id (b : Budget.t) (d : DB) new_id
    (a : BudgetAlert.t) :
  In a (new_alerts now user_id b d new_id) ->
  well_formed_alert now user_id (expenses d) b a /\ BudgetAlert.id a = new_id.
Proof.
  unfold new_alerts, well_formed_alert.
  destruct (ge _ (of_int 100) && _) eqn:E1.
  - intros [<- | []]. cbn. apply andb_prop in E1. destruct E1 as [E1 _].
    repeat split; auto.
  - destruct (ge _ (of_int 80) && _) eqn:E2; [|intros []].
    intros [<- | []]. cbn. apply andb_prop in E2. destruct E2 as [E2 _].
    repeat split; auto.
Qed.

Lemma pass_alerts_well_formed now user_id (l : list Budget.t) :
  forall (w : World) (a : BudgetAlert.t),
    In a (pass_alerts now user_id l w) ->
    exists b, In b l /\ well_formed_alert now user_id (expenses (db w)) b a.
Proof.
  induction l as [|b l IH]; intros w a H; [destruct H|].
  cbn [pass_alerts] in H. apply in_app_or in H. destruct H as [H | H].
  - exists b. split; [now left|].
    now apply (new_alerts_well_formed _ _ _ _ _ _ H).
  - destruct (IH _ _ H) as (x & Hx & W). exists x. split; [now right | exact W].
Qed.

Lemma pass_alerts_length now user_id (l : list Budget.t) :
  forall w : World, (List.length (pass_alerts now user_id l w) <= List.length l)%nat.
Proof.
  induction l as [|b l IH]; intros w; cbn [pass_alerts List.length]; [lia|].
  rewrite length_app.
  pose proof (new_alerts_length now user_id b (db w) (uuid_source w (uuid_drawn w))).
  specialize (IH (after_check_budget now user_id b w)). lia.
Qed.

(** X4: an evaluation pass never fails, keeps every stored alert in
    place, and appends no more alerts than it fetched budgets.
    Every alert appended belongs to the user, is unread, is stamped with
    the time of the pass, names one of the first 100 active budgets of
    the user, and carries the percentage computed for that budget, which
    is at least 80 for a [warning] and at least 100 for an [exceeded]
    alert: a budget below 80% gets no alert. *)
Theorem pass_appends_well_formed_alerts (now : Z) (user_id : string)
    (w : World) :
  exists inserted,
    check_budget_alerts now user_id w
      = (Ok tt, exec (check_budget_alerts now user_id) w) /\
    budget_alerts (db (exec (check_budget_alerts now user_id) w))
      = budget_alerts (db w) ++ inserted /\
    (List.length inserted
     <= List.length (find_to_list (active_budget_filter user_id) 100
                                  (budgets (db w))))%nat /\
    forall a, In a inserted ->
      exists b,
        In b (budgets (db w)) /\ Budget.user_id b = user_id /\
        Budget.is_active b = true /\
        well_formed_alert now user_id (expenses (db w)) b a.
Proof.
  exists (inserted_by_pass now user_id w).
  unfold exec. rewrite check_budget_alerts_eq. cbn [fst snd].
  split; [reflexivity|]. split; [apply after_pass_alerts_exact|].
  split; [apply pass_alerts_length|].
  intros a Ha. unfold inserted_by_pass in Ha.
  destruct (pass_alerts_well_formed _ _ _ _ _ Ha) as (b & Hb & W).
  apply find_to_list_In in Hb. destruct Hb as [Hb Hf].
  unfold active_budget_filter in Hf. apply andb_prop in Hf.
  destruct Hf as [Hu Hact]. apply String.eqb_eq in Hu.
  apply Bool.eqb_prop in Hact.
  exists b. repeat split; try assumption; apply W.
Qed.

End PassAlerts.

(** ** One user's requests and the other users' documents *)

Section Isolation.
Context {N : PyNum}.
Local Open Scope list_scope.

Definition foreign_expense (current_user : string) (e : Expense.t) : bool :=
  negb (Expense.user_id e =? current_user)%string.

Definition foreign_budget (current_user : string) (b : Budget.t) : bool :=
  negb (Budget.user_id b =? current_user)%string.

Definition foreign_alert (current_user : string) (a : BudgetAlert.t) : bool :=
  negb (BudgetAlert.user_id a =? current_user)%string.

(** The documents of the three collections that belong to other users. *)
Definition foreign_data (current_user : string) (w : World)
    : list Expense.t * list Budget.t * list BudgetAlert.t :=
  (filter (foreign_expense current_user) (expenses (db w)),
   filter (foreign_budget current_user) (budgets (db w)),
   filter (foreign_alert current_user) (budget_alerts (db w))).

Lemma pass_budget_ids now user_id (w : World) :
  map Budget.id (budgets (db (after_pass now user_id w)))
  = map Budget.id (budgets (db w)).
Proof.
  rewrite after_pass_budgets.
  pose proof (blank_fold_write_back user_id (expenses (db w))
                (find_to_list (active_budget_filter user_id) 100 (budgets (db w)))
                (budgets (db w))) as E.
  apply (f_equal (map Budget.id)) in E. rewrite !map_map in E. exact E.
Qed.

Lemma pass_foreign now user_id (w : World) :
  NoDup (map Budget.id (budgets (db w))) ->
  foreign_data user_id (after_pass now user_id w) = foreign_data user_id w.
Proof.
  intros ND. unfold foreign_data.
  rewrite after_pass_expenses, after_pass_alerts_exact,
    after_pass_budgets_unique by exact ND.
  f_equal; [f_equal|].
  - apply filter_map_outside. intros b Hb.
    destruct (fetched_in _ b) eqn:F; [right | now left].
    unfold fetched_in in F. apply existsb_exists in F.
    destruct F as (x & Hx & Ei). apply String.eqb_eq in Ei.
    apply find_to_list_In in Hx. destruct Hx as [Hx Hf].
    assert (b = x) as -> by (apply (same_id_same_budget _ _ _ ND); assumption).
    unfold active_budget_filter in Hf. apply andb_prop in Hf.
    destruct Hf as [Hu _]. unfold foreign_budget, refreshed. cbn.
    now rewrite Hu.
  - apply filter_app_outside. intros a Ha. unfold inserted_by_pass in Ha.
    destruct (pass_alerts_well_formed _ _ _ _ _ Ha) as (b & _ & (U & _)).
    unfold foreign_alert. rewrite U, String.eqb_refl. reflexivity.
Qed.

Lemma passes_foreign now user_id {A : Type} (l : list A) :
  forall w : World,
    NoDup (map Budget.id (budgets (db w))) ->
    foreign_data user_id (fold_left (fun w' _ => after_pass now user_id w') l w)
    = foreign_data user_id w.
Proof.
  induction l as [|x l IH]; intros w ND; [reflexivity|].
  cbn [fold_left]. rewrite IH by (now rewrite pass_budget_ids).
  now apply pass_foreign.
Qed.

Lemma owned_expense_is_own expense_id current_user (e : Expense.t) :
  owned_expense_filter expense_id current_user e = true ->
  foreign_expense current_user e = false.
Proof.
  unfold owned_expense_filter, foreign_expense. intros H.
  apply andb_prop in H. destruct H as [_ ->]. reflexivity.
Qed.

Lemma owned_budget_is_own budget_id current_user (b : Budget.t) :
  owned_budget_filter budget_id current_user b = true ->
  foreign_budget current_user b = false.
Proof.
  unfold owned_budget_filter, foreign_budget. intros H.
  apply andb_prop in H. destruct H as [_ ->]. reflexivity.
Qed.

Lemma owned_alert_is_own alert_id current_user (a : BudgetAlert.t) :
  owned_alert_filter alert_id current_user a = true ->
  foreign_alert current_user a = false.
Proof.
  unfold owned_alert_filter, foreign_alert. intros H.
  apply andb_prop in H. destruct H as [_ ->]. reflexivity.
Qed.

Lemma writes_leave_foreign_data (current_user : string) (w : World) :
  NoDup (map Budget.id (budgets (db w))) ->
  (forall today now expense_data,
     foreign_data current_user
       (exec (create_expense today now expense_data current_user) w)
     = foreign_data current_user w) /\
  (forall now expense_id expense_data,
     foreign_data current_user
       (exec (update_expense now expense_id expense_data current_user) w)
     = foreign_data current_user w) /\
  (forall expense_id,
     foreign_data current_user (exec (delete_expense expense_id current_user) w)
     = foreign_data current_user w) /\
  (forall today now budget_data,
     foreign_data current_user
       (exec (create_budget today now budget_data current_user) w)
     = foreign_data current_user w) /\
  (forall budget_id budget_data,
     foreign_data current_user
       (exec (update_budget budget_id budget_data current_user) w)
     = foreign_data current_user w) /\
  (forall budget_id,
     foreign_data current_user (exec (delete_budget budget_id current_user) w)
     = foreign_data current_user w) /\
  (forall alert_id,
     foreign_data current_user (exec (mark_alert_read alert_id current_user) w)
     = foreign_data current_user w) /\
  (forall now,
     foreign_data current_user (exec (get_budgets now current_user) w)
     = foreign_data current_user w) /\
  (forall now,
     foreign_data current_user (exec (get_budget_alerts now current_user) w)
     = foreign_data current_user w).
Proof.
  intros ND. repeat split.
  - intros today now expense_data. unfold create_expense. run_handler.
    set (w1 := mkWorld N _ _ _ _).
    assert (F1 : foreign_data current_user w1 = foreign_data current_user w).
    { unfold foreign_data, w1, set_expenses. cbn [db expenses budgets budget_alerts].
      rewrite filter_insert_one_outside; [reflexivity|].
      unfold foreign_expense. cbn [Expense.user_id].
      now rewrite String.eqb_refl. }
    destruct (ExpenseCreate.type expense_data =? "expense")%string.
    + rewrite check_budget_alerts_eq. cbn [fst snd].
      rewrite pass_foreign; [exact F1 | exact ND].
    + exact F1.
  - intros now expense_id expense_data. unfold update_expense. run_handler.
    destruct (negb _); [reflexivity|].
    destruct (has_update expense_data); [|reflexivity].
    cbn [fst snd]. rewrite check_budget_alerts_eq. cbn [fst snd].
    rewrite pass_foreign by exact ND.
    unfold foreign_data, set_expenses. cbn [db expenses budgets budget_alerts].
    rewrite filter_update_one_outside; [reflexivity|].
    intros e He. split; [exact (owned_expense_is_own _ _ _ He)|].
    apply owned_expense_is_own in He. exact He.
  - intros expense_id. unfold delete_expense. run_handler.
    assert (F : foreign_data current_user
                  (mkWorld N
                     (set_expenses
                        (delete_one (owned_expense_filter expense_id current_user)
                                    (expenses (db w))) (db w))
                     (uuid_source w) (uuid_drawn w) (evaluations w))
                = foreign_data current_user w).
    { unfold foreign_data, set_expenses. cbn [db expenses budgets budget_alerts].
      rewrite filter_delete_one_outside; [reflexivity|].
      intros e He. exact (owned_expense_is_own _ _ _ He). }
    destruct (Nat.eqb _ 0); exact F.
  - intros today now budget_data. unfold create_budget.
    destruct (if (BudgetCreate.period budget_data =? "monthly")%string
              then month_bounds today else week_bounds today) as [s e].
    run_handler. destruct (found _); [reflexivity|]. cbn [fst snd].
    unfold foreign_data, set_budgets. cbn [db expenses budgets budget_alerts].
    rewrite filter_insert_one_outside; [reflexivity|].
    unfold foreign_budget. cbn [Budget.user_id]. now rewrite String.eqb_refl.
  - intros budget_id budget_data. unfold update_budget. run_handler.
    destruct (negb _); [reflexivity|]. destruct (_ || _); [|reflexivity].
    cbn [fst snd]. unfold foreign_data, set_budgets.
    cbn [db expenses budgets budget_alerts].
    rewrite filter_update_one_outside; [reflexivity|].
    intros b Hb. split; [exact (owned_budget_is_own _ _ _ Hb)|].
    apply owned_budget_is_own in Hb. unfold apply_budget_update.
    destruct (BudgetUpdate.limit_amount budget_data),
      (BudgetUpdate.is_active budget_data); exact Hb.
  - intros budget_id. unfold delete_budget. run_handler.
    assert (F : foreign_data current_user
                  (mkWorld N
                     (set_budgets
                        (delete_one (owned_budget_filter budget_id current_user)
                                    (budgets (db w))) (db w))
                     (uuid_source w) (uuid_drawn w) (evaluations w))
                = foreign_data current_user w).
    { unfold foreign_data, set_budgets. cbn [db expenses budgets budget_alerts].
      rewrite filter_delete_one_outside; [reflexivity|].
      intros b Hb. exact (owned_budget_is_own _ _ _ Hb). }
    destruct (Nat.eqb _ 0); exact F.
  - intros alert_id. unfold mark_alert_read. run_handler.
    assert (F : foreign_data current_user
                  (mkWorld N
                     (set_budget_alerts
                        (update_one (owned_alert_filter alert_id current_user)
                                    (BudgetAlert.set_is_read true)
                                    (budget_alerts (db w))) (db w))
                     (uuid_source w) (uuid_drawn w) (evaluations w))
                = foreign_data current_user w).
    { unfold foreign_data, set_budget_alerts.
      cbn [db expenses budgets budget_alerts].
      rewrite filter_update_one_outside; [reflexivity|].
      intros a Ha. split; [exact (owned_alert_is_own _ _ _ Ha)|].
      apply owned_alert_is_own in Ha. exact Ha. }
    destruct (Nat.eqb _ 0); exact F.
  - intros now. unfold get_budgets. run_handler. rewrite repeated_passes.
    cbn [fst snd]. now apply passes_foreign.
  - intros now. unfold get_budget_alerts. run_handler.
    rewrite check_budget_alerts_eq. cbn [fst snd]. now apply pass_foreign.
Qed.

Lemma reads_change_nothing (current_user : string) (w : World) :
  (forall category type start_date end_date,
     exec (get_expenses category type start_date end_date current_user) w = w) /\
  (forall today period start_date end_date,
     exec (get_summary today period start_date end_date current_user) w = w) /\
  (forall today period start_date end_date,
     exec (get_chart_data today period start_date end_date current_user) w = w) /\
  (forall today now period start_date end_date,
     exec (generate_report today now period start_date end_date current_user) w
     = w).
Proof.
  repeat split; intros.
  - unfold get_summary.
    destruct (negb (or_else period "month" =? "custom")%string);
      [|reflexivity].
    destruct (get_date_range today (or_else period "month") None None).
    reflexivity.
  - unfold get_chart_data.
    destruct (negb (or_else period "month" =? "custom")%string);
      [|reflexivity].
    destruct (get_date_range today (or_else period "month") None None).
    reflexivity.
  - unfold generate_report.
    destruct (negb (or_else period "month" =? "custom")%string);
      [|reflexivity].
    destruct (get_date_range today (or_else period "month") None None).
    reflexivity.
Qed.

(** X5: when budget ids are unique, no request of a user changes a
    document of another user: after each of the writing routes, and
    after the two listing routes that run the evaluator, the expenses,
    budgets and alerts that belong to other users are stored as before,
    in the same order.  The four reading routes change nothing at all. *)
Theorem requests_leave_other_users_documents (current_user : string)
    (w : World) :
  NoDup (map Budget.id (budgets (db w))) ->
  ((forall today now expense_data,
     foreign_data current_user
       (exec (create_expense today now expense_data current_user) w)
     = foreign_data current_user w) /\
  (forall now expense_id expense_data,
     foreign_data current_user
       (exec (update_expense now expense_id expense_data current_user) w)
     = foreign_data current_user w) /\
  (forall expense_id,
     foreign_data current_user (exec (delete_expense expense_id current_user) w)
     = foreign_data current_user w) /\
  (forall today now budget_data,
     foreign_data current_user
       (exec (create_budget today now budget_data current_user) w)
     = foreign_data current_user w) /\
  (forall budget_id budget_data,
     foreign_data current_user
       (exec (update_budget budget_id budget_data current_user) w)
     = foreign_data current_user w) /\
  (forall budget_id,
     foreign_data current_user (exec (delete_budget budget_id current_user) w)
     = foreign_data current_user w) /\
  (forall alert_id,
     foreign_data current_user (exec (mark_alert_read alert_id current_user) w)
     = foreign_data current_user w) /\
  (forall now,
     foreign_data current_user (exec (get_budgets now current_user) w)
     = foreign_data current_user w) /\
  (forall now,
     foreign_data current_user (exec (get_budget_alerts now current_user) w)
     = foreign_data current_user w)) /\
  (forall category type start_date end_date,
     exec (get_expenses category type start_date end_date current_user) w = w) /\
  (forall today period start_date end_date,
     exec (get_summary today period start_date end_date current_user) w = w) /\
  (forall today period start_date end_date,
     exec (get_chart_data today period start_date end_date current_user) w = w) /\
  (forall today now period start_date end_date,
     exec (generate_report today now period start_date end_date current_user) w
     = w).
Proof.
  intros ND. split.
  - exact (writes_leave_foreign_data current_user w ND).
  - exact (reads_change_nothing current_user w).
Qed.

End Isolation.

(** ** Sorted listings *)

Section SortFacts.
Context {A : Type} (geb : A -> A -> bool) (P : A -> Prop).
Hypothesis geb_total :
  forall a b, P a -> P b -> geb a b = false -> geb b a = true.
Hypothesis geb_trans :
  forall a b c, P a -> P b -> P c ->
    geb a b = true -> geb b c = true -> geb a c = true.
Local Open Scope list_scope.

Lemma insert_desc_perm (x : A) (l : list A) :
  Permutation (insert_desc geb x l) (x :: l).
Proof.
  induction l as [|y l IH]; [apply Permutation_refl|].
  cbn [insert_desc]. destruct (geb x y); [apply Permutation_refl|].
  apply perm_trans with (y :: x :: l); [now apply perm_skip | apply perm_swap].
Qed.

Lemma sort_desc_perm (l : list A) : Permutation (sort_desc geb l) l.
Proof.
  unfold sort_desc. induction l as [|x l IH]; [apply perm_nil|].
  cbn [fold_right].
  apply perm_trans with (x :: fold_right (insert_desc geb) [] l);
    [apply insert_desc_perm | now apply perm_skip].
Qed.

Lemma sort_desc_In (l : list A) (x : A) : In x (sort_desc geb l) <-> In x l.
Proof.
  split; apply Permutation_in;
    [apply sort_desc_perm | apply Permutation_sym, sort_desc_perm].
Qed.

(** Sorting puts the elements in order, when [geb] is a total preorder
    on the elements that satisfy [P] and all of them do. *)
Lemma insert_desc_sorted (x : A) (l : list A) :
  P x -> Forall P l ->
  StronglySorted (fun a b => geb a b = true) l ->
  StronglySorted (fun a b => geb a b = true) (insert_desc geb x l).
Proof.
  intros Px. induction l as [|y l IH]; intros Pl S.
  - constructor; constructor.
  - apply Forall_cons_iff in Pl. destruct Pl as [Py Pl].
    rewrite Forall_forall in Pl.
    cbn [insert_desc]. destruct (geb x y) eqn:E.
    + constructor; [exact S|]. constructor; [exact E|].
      apply StronglySorted_inv in S. destruct S as [_ F].
      rewrite Forall_forall in *. intros z Hz.
      exact (geb_trans _ _ _ Px Py (Pl z Hz) E (F z Hz)).
    + apply StronglySorted_inv in S. destruct S as [S F].
      constructor; [apply IH; [now apply Forall_forall | exact S]|].
      rewrite Forall_forall in *. intros z Hz.
      apply (Permutation_in _ (insert_desc_perm x l)) in Hz.
      destruct Hz as [<- | Hz]; [now apply geb_total | now apply F].
Qed.

Lemma sort_desc_sorted (l : list A) :
  Forall P l -> StronglySorted (fun a b => geb a b = true) (sort_desc geb l).
Proof.
  unfold sort_desc. induction l as [|x l IH]; intros Pl; [constructor|].
  apply Forall_cons_iff in Pl. destruct Pl as [Px Pl].
  cbn [fold_right]. apply insert_desc_sorted; [exact Px| |now apply IH].
  apply Forall_forall. intros y Hy.
  change (In y (sort_desc geb l)) in Hy. apply (proj1 (sort_desc_In l y)) in Hy.
  rewrite Forall_forall in Pl. now apply Pl.
Qed.

Lemma firstn_sorted (R : A -> A -> Prop) (n : nat) (l : list A) :
  StronglySorted R l -> StronglySorted R (firstn n l).
Proof.
  revert n. induction l as [|x l IH]; intros n S.
  - rewrite firstn_nil. constructor.
  - destruct n as [|n]; [constructor|]. cbn [firstn].
    apply StronglySorted_inv in S. destruct S as [S F].
    constructor; [now apply IH|].
    rewrite Forall_forall in *. intros z Hz. apply F.
    exact (In_firstn _ _ _ Hz).
Qed.

(** The first [n] of a sorted list come before all the others. *)
Lemma firstn_first (R : A -> A -> Prop) (n : nat) (l : list A) :
  StronglySorted R l ->
  forall y, In y l ->
    In y (firstn n l) \/
    (List.length (firstn n l) = n /\ forall x, In x (firstn n l) -> R x y).
Proof.
  revert n. induction l as [|z l IH]; intros n S y Hy; [destruct Hy|].
  destruct n as [|n]; [right; split; [reflexivity | intros x []]|].
  apply StronglySorted_inv in S. destruct S as [S F].
  rewrite Forall_forall in F. cbn [firstn].
  destruct Hy as [<- | Hy]; [left; now left|].
  destruct (IH n S y Hy) as [H | [L H]]; [left; now right|].
  right. split; [cbn [List.length]; now rewrite L|].
  intros x [<- | Hx]; [now apply F | now apply H].
Qed.

End SortFacts.

Lemma leb_total_false (a b : string) :
  String.leb a b = false -> String.leb b a = true.
Proof. destruct (String.leb_total a b) as [H | H]; [congruence | auto]. Qed.

Section Listings.
Context {N : PyNum}.
Local Open Scope list_scope.

(** [a] is listed before [b]: it is not older. *)
Definition newer_expense (a b : Expense.t) : Prop :=
  String.leb (Expense.date b) (Expense.date a) = true.

Definition newer_alert (a b : BudgetAlert.t) : Prop :=
  BudgetAlert.created_at b <= BudgetAlert.created_at a.

Lemma listed_expenses (category type start_date end_date : option string)
    (current_user : string) (w : World) :
  let query := expenses_query category type start_date end_date current_user in
  exists listed,
    get_expenses category type start_date end_date current_user w
      = (Ok listed, w) /\
    (List.length listed <= 1000)%nat /\
    (forall e, In e listed -> In e (expenses (db w)) /\ query e = true) /\
    StronglySorted newer_expense listed /\
    ((List.length (filter query (expenses (db w))) <= 1000)%nat ->
     Permutation listed (filter query (expenses (db w)))).
Proof.
  intros query. eexists. split; [reflexivity|].
  split; [apply firstn_le_length|]. split; [|split].
  - intros e He. apply In_firstn in He. apply sort_desc_In in He.
    now apply filter_In in He.
  - apply firstn_sorted. unfold newer_expense.
    apply (sort_desc_sorted
             (fun a b => String.leb (Expense.date b) (Expense.date a))
             (fun _ => True)).
    + intros a b _ _. apply leb_total_false.
    + intros a b c _ _ _ H1 H2. exact (leb_trans _ _ _ H2 H1).
    + apply Forall_forall. intros; exact I.
  - intros L. rewrite firstn_all2.
    + apply sort_desc_perm.
    + rewrite (Permutation_length (sort_desc_perm _ _)). exact L.
Qed.

Lemma listed_alerts (now : Z) (current_user : string) (w : World) :
  let w' := exec (check_budget_alerts now current_user) w in
  exists listed,
    get_budget_alerts now current_user w = (Ok listed, w') /\
    (List.length listed <= 50)%nat /\
    (forall a, In a listed ->
       In a (budget_alerts (db w')) /\ BudgetAlert.user_id a = current_user) /\
    StronglySorted newer_alert listed /\
    ((List.length (filter (fun a => (BudgetAlert.user_id a =? current_user)%string)
                          (budget_alerts (db w'))) <= 50)%nat ->
     forall a, In a (budget_alerts (db w')) ->
       BudgetAlert.user_id a = current_user -> In a listed).
Proof.
  intros w'. unfold w', get_budget_alerts. run_handler.
  rewrite check_budget_alerts_eq. cbn [fst snd].
  eexists. split; [reflexivity|].
  split; [apply firstn_le_length|]. split; [|split].
  - intros a Ha. apply In_firstn in Ha. apply sort_desc_In in Ha.
    apply filter_In in Ha. destruct Ha as [Ha Hu].
    apply String.eqb_eq in Hu. now split.
  - apply firstn_sorted.
    assert (S := sort_desc_sorted
             (fun a b : BudgetAlert.t =>
                BudgetAlert.created_at b <=? BudgetAlert.created_at a)
             (fun _ => True)).
    eapply StronglySorted_ind with
      (P := fun l => StronglySorted newer_alert l);
      [constructor | | apply S].
    + intros a l _ IH F. constructor; [exact IH|].
      rewrite Forall_forall in *. intros b Hb. unfold newer_alert.
      apply Z.leb_le. now apply F.
    + intros a b _ _ H. apply Z.leb_gt in H. apply Z.leb_le. lia.
    + intros a b c _ _ _ H1 H2. apply Z.leb_le in H1, H2. apply Z.leb_le. lia.
    + apply Forall_forall. intros; exact I.
  - intros L a Ha Hu. rewrite firstn_all2.
    + apply sort_desc_In. apply filter_In. split; [exact Ha|].
      now apply String.eqb_eq.
    + rewrite (Permutation_length (sort_desc_perm _ _)). exact L.
Qed.

(** X6: [GET /expenses] changes nothing and returns at most 1000
    transactions, each one stored and matching the filter of the
    request, ordered by date string from the latest to the earliest;
    when at most 1000 transactions match, all of them are returned.
    [GET /budgets/alerts] returns, after its evaluation pass, at most 50
    alerts of the user, ordered from the newest to the oldest, and all
    of the user's alerts when there are at most 50. *)
Theorem listings_are_sorted_and_capped (now : Z)
    (category type start_date end_date : option string)
    (current_user : string) (w : World) :
  (let query := expenses_query category type start_date end_date current_user in
   exists listed,
     get_expenses category type start_date end_date current_user w
       = (Ok listed, w) /\
     (List.length listed <= 1000)%nat /\
     (forall e, In e listed -> In e (expenses (db w)) /\ query e = true) /\
     StronglySorted newer_expense listed /\
     ((List.length (filter query (expenses (db w))) <= 1000)%nat ->
      Permutation listed (filter query (expenses (db w))))) /\
  (let w' := exec (check_budget_alerts now current_user) w in
   exists listed,
     get_budget_alerts now current_user w = (Ok listed, w') /\
     (List.length listed <= 50)%nat /\
     (forall a, In a listed ->
        In a (budget_alerts (db w')) /\ BudgetAlert.user_id a = current_user) /\
     StronglySorted newer_alert listed /\
     ((List.length (filter (fun a => (BudgetAlert.user_id a =? current_user)%string)
                           (budget_alerts (db w'))) <= 50)%nat ->
      forall a, In a (budget_alerts (db w')) ->
        BudgetAlert.user_id a = current_user -> In a listed)).
Proof.
  split; [apply listed_expenses | apply listed_alerts].
Qed.

End Listings.

(** ** Writing a transaction *)

Section ExpenseWrites.
Context {N : PyNum}.
Local Open Scope list_scope.

Lemma date_str_truthy (d : date) : truthy (Some (date_str d)) = true.
Proof.
  unfold truthy, date_str.
  destruct (zfill 4 (decimal (year d))); reflexivity.
Qed.

(** The document [create_expense] builds. *)
Definition new_expense (today : date) (now : Z) (expense_data : ExpenseCreate.t)
    (current_user : string) (w : World) : Expense.t :=
  Expense.mk N (uuid_source w (uuid_drawn w)) current_user
    (ExpenseCreate.title expense_data) (ExpenseCreate.amount expense_data)
    (ExpenseCreate.category expense_data) (ExpenseCreate.type expense_data)
    (ExpenseCreate.description expense_data)
    (if truthy (ExpenseCreate.date expense_data)
     then str_or_empty (ExpenseCreate.date expense_data)
     else date_str today)
    now.

(** The world after the insertion, before the evaluator runs. *)
Definition with_new_expense (today : date) (now : Z)
    (expense_data : ExpenseCreate.t) (current_user : string) (w : World)
    : World :=
  mkWorld N
    (set_expenses
       (insert_one (new_expense today now expense_data current_user w)
                   (expenses (db w))) (db w))
    (uuid_source w) (S (uuid_drawn w)) (evaluations w).

Lemma create_expense_eq today now (expense_data : ExpenseCreate.t) current_user
    (w : World) :
  create_expense today now expense_data current_user w
  = (Ok (new_expense today now expense_data current_user w),
     if (ExpenseCreate.type expense_data =? "expense")%string
     then after_pass now current_user
            (with_new_expense today now expense_data current_user w)
     else with_new_expense today now expense_data current_user w).
Proof.
  unfold create_expense. run_handler.
  fold (new_expense today now expense_data current_user w).
  fold (with_new_expense today now expense_data current_user w).
  destruct (ExpenseCreate.type expense_data =? "expense")%string.
  - rewrite check_budget_alerts_eq. reflexivity.
  - reflexivity.
Qed.

Lemma create_expense_expenses today now (expense_data : ExpenseCreate.t)
    current_user (w : World) :
  expenses (db (exec (create_expense today now expense_data current_user) w))
  = expenses (db w) ++ [new_expense today now expense_data current_user w].
Proof.
  unfold exec. rewrite create_expense_eq. cbn [snd].
  destruct (ExpenseCreate.type expense_data =? "expense")%string;
    [rewrite after_pass_expenses|]; reflexivity.
Qed.

(** X7: [POST /expenses] never fails, whatever is stored: it returns
    the new transaction and the collection gains exactly that document,
    at the end.  The document carries a fresh id, the caller as owner,
    the time of the request and the fields of the body; its date is the
    one given, and today's date when none or an empty one is given. *)
Theorem create_expense_appends_the_transaction (today : date) (now : Z)
    (expense_data : ExpenseCreate.t) (current_user : string) (w : World) :
  exists expense,
    fst (create_expense today now expense_data current_user w) = Ok expense /\
    expenses (db (exec (create_expense today now expense_data current_user) w))
      = expenses (db w) ++ [expense] /\
    Expense.id expense = uuid_source w (uuid_drawn w) /\
    Expense.user_id expense = current_user /\
    Expense.created_at expense = now /\
    Expense.title expense = ExpenseCreate.title expense_data /\
    Expense.amount expense = ExpenseCreate.amount expense_data /\
    Expense.category expense = ExpenseCreate.category expense_data /\
    Expense.type expense = ExpenseCreate.type expense_data /\
    Expense.description expense = ExpenseCreate.description expense_data /\
    (forall s, ExpenseCreate.date expense_data = Some s -> s <> "" ->
       Expense.date expense = s) /\
    (ExpenseCreate.date expense_data = None \/
     ExpenseCreate.date expense_data = Some "" ->
     Expense.date expense = date_str today).
Proof.
  exists (new_expense today now expense_data current_user w).
  split; [now rewrite create_expense_eq|].
  split; [apply create_expense_expenses|].
  repeat split; try reflexivity.
  - intros s E Hs. unfold new_expense. cbn [Expense.date]. rewrite E.
    cbn [truthy str_or_empty]. apply String.eqb_neq in Hs. now rewrite Hs.
  - intros [E | E]; unfold new_expense; cbn [Expense.date]; rewrite E;
      reflexivity.
Qed.

Lemma named_range_strings (today : date) (period : string) :
  exists a b, get_date_range today period None None = (date_str a, date_str b).
Proof.
  unfold get_date_range. cbn [truthy andb]. rewrite andb_false_r.
  destruct (period =? "today")%string; [eexists; eexists; reflexivity|].
  destruct (period =? "week")%string;
    [destruct (week_bounds today); eexists; eexists; reflexivity|].
  destruct (period =? "month")%string;
    [destruct (month_bounds today); eexists; eexists; reflexivity|].
  destruct (period =? "year")%string; [eexists; eexists; reflexivity|].
  destruct (month_bounds today); eexists; eexists; reflexivity.
Qed.

Lemma get_summary_named today (period start_date end_date : option string)
    current_user (w : World) :
  or_else period "month" <> "custom" ->
  let range := get_date_range today (or_else period "month") None None in
  get_summary today period start_date end_date current_user w
  = (Ok (summarize
           (find_to_list
              (summary_query (Some (fst range)) (Some (snd range)) current_user)
              1000 (expenses (db w)))
           (or_else period "month") (Some (fst range)) (Some (snd range))),
     w).
Proof.
  intros H range. unfold get_summary, range. apply String.eqb_neq in H.
  rewrite H. cbn [negb].
  destruct (get_date_range today (or_else period "month") None None).
  reflexivity.
Qed.

(** A transaction dated today passes the filter of every named period. *)
Lemma summary_query_today today (period : string) current_user (e : Expense.t) :
  valid_date today -> year today <= 9998 ->
  Expense.user_id e = current_user -> Expense.date e = date_str today ->
  let range := get_date_range today period None None in
  summary_query (Some (fst range)) (Some (snd range)) current_user e = true.
Proof.
  intros V Y U D range. unfold summary_query. rewrite U, D, String.eqb_refl.
  destruct (range_holds_today today period None None V Y) as [L1 L2].
  { cbn [truthy andb]. apply andb_false_r. }
  fold range in L1, L2.
  destruct (named_range_strings today period) as (a & b & E).
  unfold range in *. rewrite E in *. cbn [fst snd] in *.
  rewrite !date_str_truthy. cbn [andb str_or_empty]. now rewrite L1, L2.
Qed.

Lemma firstn_snoc_below {A : Type} (n : nat) (l : list A) (x : A) :
  (List.length l < n)%nat -> firstn n (l ++ [x]) = l ++ [x].
Proof. intros H. apply firstn_all2. rewrite length_app. cbn. lia. Qed.

Lemma firstn_snoc_full {A : Type} (n : nat) (l : list A) (x : A) :
  (n <= List.length l)%nat -> firstn n (l ++ [x]) = firstn n l.
Proof.
  intros H. rewrite firstn_app.
  replace (n - List.length l)%nat with 0%nat by lia.
  cbn [firstn]. apply app_nil_r.
Qed.

(** X8: a transaction created without a date (or with an empty one) is
    dated today, and today lies in the range of every period tag but
    [custom]: for a current date of the years 1 to 9998, the summary of
    the same day for such a period counts one transaction more, as long
    as it counted fewer than 1000 before.  At 1000 the query is full:
    the new transaction is the last in the collection, is not fetched,
    and the summary is the same as before. *)
Theorem summary_counts_transaction_of_today (today : date) (now : Z)
    (expense_data : ExpenseCreate.t)
    (period start_date end_date : option string) (current_user : string)
    (w : World) :
  valid_date today -> year today <= 9998 ->
  truthy (ExpenseCreate.date expense_data) = false ->
  or_else period "month" <> "custom" ->
  let w' := exec (create_expense today now expense_data current_user) w in
  exists s s',
    get_summary today period start_date end_date current_user w = (Ok s, w) /\
    get_summary today period start_date end_date current_user w' = (Ok s', w') /\
    ((Summary.transaction_count s < 1000)%nat ->
     Summary.transaction_count s' = S (Summary.transaction_count s)) /\
    (Summary.transaction_count s = 1000%nat -> s' = s).
Proof.
  intros V Y D P w'.
  rewrite !(get_summary_named today period start_date end_date current_user)
    by exact P.
  cbv zeta. eexists. eexists. split; [reflexivity|]. split; [reflexivity|].
  unfold w'. rewrite create_expense_expenses.
  set (range := get_date_range today (or_else period "month") None None).
  set (q := summary_query (Some (fst range)) (Some (snd range)) current_user).
  assert (Q : q (new_expense today now expense_data current_user w) = true).
  { apply summary_query_today; try assumption; [reflexivity|].
    unfold new_expense. cbn [Expense.date]. now rewrite D. }
  unfold summarize. cbn [Summary.transaction_count]. unfold find_to_list.
  rewrite filter_app. cbn [filter]. rewrite Q.
  split.
  - intros L. rewrite length_firstn in L. rewrite firstn_snoc_below by lia.
    rewrite firstn_all2 by lia. rewrite length_app. cbn [List.length]. lia.
  - intros L. rewrite length_firstn in L. rewrite firstn_snoc_full by lia.
    reflexivity.
Qed.

(** *** Budgets after a write *)

Lemma pass_refreshes_active now user_id (w : World) :
  NoDup (map Budget.id (budgets (db w))) ->
  (List.length (filter (active_budget_filter user_id) (budgets (db w))) <= 100)%nat ->
  forall b, In b (budgets (db (after_pass now user_id w))) ->
    active_budget_filter user_id b = true ->
    Budget.current_spent b = spent_of user_id b (expenses (db w)).
Proof.
  intros ND L b Hb Ha.
  rewrite after_pass_budgets_unique in Hb by exact ND.
  apply in_map_iff in Hb. destruct Hb as (x & E & Hx).
  destruct (fetched_in _ x) eqn:F.
  - subst b. reflexivity.
  - subst b.
    pose proof (all_active_fetched user_id w x L Hx Ha) as Hf.
    apply fetched_in_In in Hf. unfold fetched_budgets in Hf.
    rewrite Hf in F. discriminate.
Qed.

(** The stored [current_spent] of every active budget of the user is the
    sum over the transactions the evaluator would fetch for it now. *)
Definition budgets_up_to_date (user_id : string) (w : World) : Prop :=
  forall b, In b (budgets (db w)) -> active_budget_filter user_id b = true ->
    Budget.current_spent b
    = sum (map Expense.amount
             (find_to_list (budget_expense_filter user_id b) 1000
                           (expenses (db w)))).

Lemma pass_brings_up_to_date now user_id (w : World) :
  NoDup (map Budget.id (budgets (db w))) ->
  (List.length (filter (active_budget_filter user_id) (budgets (db w))) <= 100)%nat ->
  budgets_up_to_date user_id (after_pass now user_id w).
Proof.
  intros ND L b Hb Ha. rewrite after_pass_expenses.
  exact (pass_refreshes_active now user_id w ND L b Hb Ha).
Qed.

(** X9: when budget ids are unique and the user has at most 100 active
    budgets, creating a transaction of type [expense], or updating any
    field of a transaction, leaves every active budget of the user with
    [current_spent] equal to the sum of the first 1000 transactions the
    evaluator's query matches for it in the collection as just written.
    Deleting a transaction leaves the budgets as stored, with
    [current_spent] still counting it. *)
Theorem budgets_follow_expense_writes (current_user : string) (w : World) :
  NoDup (map Budget.id (budgets (db w))) ->
  (List.length (filter (active_budget_filter current_user) (budgets (db w)))
   <= 100)%nat ->
  (forall today now expense_data,
     ExpenseCreate.type expense_data = "expense" ->
     budgets_up_to_date current_user
       (exec (create_expense today now expense_data current_user) w)) /\
  (forall now expense_id expense_data,
     fst (update_expense now expense_id expense_data current_user w) = Ok tt ->
     has_update expense_data = true ->
     budgets_up_to_date current_user
       (exec (update_expense now expense_id expense_data current_user) w)) /\
  (forall expense_id,
     budgets (db (exec (delete_expense expense_id current_user) w))
     = budgets (db w)).
Proof.
  intros ND L. split; [|split].
  - intros today now expense_data T. unfold exec.
    rewrite create_expense_eq, T. cbn [snd String.eqb].
    change ("expense" =? "expense")%string with true. cbv iota.
    apply pass_brings_up_to_date; [exact ND | exact L].
  - intros now expense_id expense_data. unfold update_expense. run_handler.
    destruct (negb _); [discriminate|]. intros _ ->. cbn [fst snd].
    rewrite check_budget_alerts_eq. cbn [fst snd].
    apply pass_brings_up_to_date; [exact ND | exact L].
  - intros expense_id. unfold delete_expense. run_handler.
    destruct (Nat.eqb _ 0); reflexivity.
Qed.

End ExpenseWrites.

(** ** Creating a budget *)

Section BudgetWrites.
Context {N : PyNum}.
Local Open Scope list_scope.

(** The period [create_budget] gives a budget: the month of [today] for
    ["monthly"], and the week of [today] for every other string. *)
Definition budget_bounds (today : date) (budget_data : BudgetCreate.t)
    : date * date :=
  if (BudgetCreate.period budget_data =? "monthly")%string
  then month_bounds today else week_bounds today.

Lemma create_budget_ok today now (budget_data : BudgetCreate.t) current_user
    (w : World) (budget : Budget.t) :
  fst (create_budget today now budget_data current_user w) = Ok budget ->
  find_one (existing_budget_filter current_user budget_data) (budgets (db w))
    = None /\
  budget
  = Budget.mk N (uuid_source w (uuid_drawn w)) current_user
      (BudgetCreate.category budget_data) (BudgetCreate.limit_amount budget_data)
      (BudgetCreate.period budget_data)
      (date_str (fst (budget_bounds today budget_data)))
      (date_str (snd (budget_bounds today budget_data))) (of_int 0) true now /\
  budgets (db (exec (create_budget today now budget_data current_user) w))
  = budgets (db w) ++ [budget].
Proof.
  unfold create_budget. fold (budget_bounds today budget_data).
  destruct (budget_bounds today budget_data) as [s e]. run_handler.
  destruct (find_one _ (budgets (db w))); cbn [found fst snd]; [discriminate|].
  intros [= <-]. repeat split; reflexivity.
Qed.

Lemma budget_bounds_range today (budget_data : BudgetCreate.t) :
  valid_date today ->
  exists period,
    get_date_range today period None None
    = (date_str (fst (budget_bounds today budget_data)),
       date_str (snd (budget_bounds today budget_data))).
Proof.
  intros V. unfold budget_bounds.
  destruct (BudgetCreate.period budget_data =? "monthly")%string.
  - exists "month". rewrite get_date_range_month; try discriminate;
      [|exact V|reflexivity].
    rewrite month_bounds_spec by exact V. reflexivity.
  - exists "week". apply get_date_range_week.
Qed.

(** X10: a budget created on a valid day of the years 1 to 9998 gets the
    calendar month of that day when its period is ["monthly"], and the
    Monday-to-Sunday week of that day for every other period string,
    whatever it says.  Either way the day of creation lies within the
    period, so a transaction of type [expense] in the budget's category
    that the same user creates that day without a date passes the
    filter by which the evaluator sums the budget's spending. *)
Theorem new_budget_covers_the_day (today : date) (now : Z)
    (budget_data : BudgetCreate.t) (current_user : string) (w : World)
    (budget : Budget.t) :
  valid_date today -> year today <= 9998 ->
  fst (create_budget today now budget_data current_user w) = Ok budget ->
  String.leb (Budget.start_date budget) (date_str today) = true /\
  String.leb (date_str today) (Budget.end_date budget) = true /\
  (BudgetCreate.period budget_data = "monthly" ->
   Budget.start_date budget
     = date_str (mkdate (year today) (month today) 1) /\
   Budget.end_date budget
     = date_str (mkdate (year today) (month today)
                   (days_in_month (year today) (month today)))) /\
  (BudgetCreate.period budget_data <> "monthly" ->
   Budget.start_date budget = date_str (fst (week_bounds today)) /\
   Budget.end_date budget = date_str (snd (week_bounds today)) /\
   weekday (fst (week_bounds today)) = 0 /\
   snd (week_bounds today) = plus_days (fst (week_bounds today)) 6) /\
  (forall (expense_data : ExpenseCreate.t) now' (w' : World),
     truthy (ExpenseCreate.date expense_data) = false ->
     ExpenseCreate.type expense_data = "expense" ->
     ExpenseCreate.category expense_data = BudgetCreate.category budget_data ->
     exists expense,
       fst (create_expense today now' expense_data current_user w') = Ok expense /\
       budget_expense_filter current_user budget expense = true).
Proof.
  intros V Y H. apply create_budget_ok in H. destruct H as (_ & -> & _).
  cbn [Budget.start_date Budget.end_date].
  destruct (budget_bounds_range today budget_data V) as (period & R).
  assert (L : String.leb (date_str (fst (budget_bounds today budget_data)))
                         (date_str today) = true /\
              String.leb (date_str today)
                         (date_str (snd (budget_bounds today budget_data))) = true).
  { destruct (range_holds_today today period None None V Y) as [L1 L2].
    { cbn [truthy andb]. apply andb_false_r. }
    rewrite R in L1, L2. cbn [fst snd] in L1, L2. now split. }
  destruct L as [L1 L2].
  split; [exact L1|]. split; [exact L2|]. split; [|split].
  - intros M. unfold budget_bounds. rewrite M.
    change ("monthly" =? "monthly")%string with true. cbv iota.
    rewrite month_bounds_spec by exact V. cbn [fst snd]. now split.
  - intros M. unfold budget_bounds. apply String.eqb_neq in M. rewrite M.
    destruct (week_bounds_spec today V) as (_ & _ & W0 & _ & _ & E6 & _).
    repeat split; assumption.
  - intros expense_data now' w' D T C.
    exists (new_expense today now' expense_data current_user w').
    split; [now rewrite create_expense_eq|].
    unfold budget_expense_filter, new_expense.
    cbn [Expense.user_id Expense.category Expense.type Expense.date
         Budget.category Budget.start_date Budget.end_date].
    rewrite D, T, C, !String.eqb_refl, L1, L2. reflexivity.
Qed.

(** *** One active budget per user, category and period *)

(** Two budgets that [create_budget] would not let coexist. *)
Definition clash (a b : Budget.t) : Prop :=
  Budget.user_id a = Budget.user_id b /\
  Budget.category a = Budget.category b /\
  Budget.period a = Budget.period b /\
  Budget.is_active a = true /\ Budget.is_active b = true.

Definition no_clashes (bs : list Budget.t) : Prop :=
  ForallOrdPairs (fun a b => ~ clash a b) bs.

Lemma no_clashes_snoc (bs : list Budget.t) (x : Budget.t) :
  no_clashes bs -> (forall a, In a bs -> ~ clash a x) -> no_clashes (bs ++ [x]).
Proof.
  unfold no_clashes. induction bs as [|b bs IH]; intros H F.
  - cbn. constructor; constructor.
  - inversion H as [|? ? Hb Hbs]; subst. cbn [app]. constructor.
    + apply Forall_app. split; [exact Hb|].
      constructor; [|constructor]. apply F. now left.
    + apply IH; [exact Hbs|]. intros a Ha. apply F. now right.
Qed.

Lemma no_clashes_delete_one (p : Budget.t -> bool) (bs : list Budget.t) :
  no_clashes bs -> no_clashes (delete_one p bs).
Proof.
  unfold no_clashes. induction bs as [|b bs IH]; intros H; [exact H|].
  inversion H as [|? ? Hb Hbs]; subst. cbn [delete_one].
  destruct (p b); [exact Hbs|]. constructor; [|now apply IH].
  rewrite Forall_forall in *. intros x Hx. apply Hb.
  clear - Hx. induction bs as [|y bs IHb]; [destruct Hx|].
  cbn [delete_one] in Hx. destruct (p y); [now right|].
  destruct Hx as [<- | Hx]; [now left | right; now apply IHb].
Qed.

(** A change of fields that activates no budget and keeps the owner, the
    category and the period. *)
Definition keeps_identity (f : Budget.t -> Budget.t) : Prop :=
  forall b, Budget.user_id (f b) = Budget.user_id b /\
            Budget.category (f b) = Budget.category b /\
            Budget.period (f b) = Budget.period b /\
            (Budget.is_active (f b) = true -> Budget.is_active b = true).

Lemma update_one_In {A : Type} (p : A -> bool) (f : A -> A) (l : list A) (y : A) :
  In y (update_one p f l) -> In y l \/ exists x, In x l /\ y = f x.
Proof.
  induction l as [|x l IH]; [intros []|].
  cbn [update_one]. destruct (p x).
  - intros [<- | H]; [right; exists x; split; [now left | reflexivity]|].
    left. now right.
  - intros [<- | H]; [left; now left|].
    destruct (IH H) as [H' | (z & Hz & E)]; [left; now right|].
    right. exists z. split; [now right | exact E].
Qed.

Lemma no_clashes_update_one (p : Budget.t -> bool) (f : Budget.t -> Budget.t)
    (bs : list Budget.t) :
  keeps_identity f -> no_clashes bs -> no_clashes (update_one p f bs).
Proof.
  unfold no_clashes. intros K. induction bs as [|b bs IH]; intros H; [exact H|].
  inversion H as [|? ? Hb Hbs]; subst. cbn [update_one].
  rewrite Forall_forall in Hb. destruct (p b).
  - constructor; [|exact Hbs]. apply Forall_forall. intros x Hx.
    intros (U & C & P & A1 & A2). destruct (K b) as (Ub & Cb & Pb & Ab).
    apply (Hb x Hx). unfold clash.
    repeat split; [congruence | congruence | congruence | auto | auto].
  - constructor; [|now apply IH]. apply Forall_forall. intros y Hy.
    destruct (update_one_In _ _ _ _ Hy) as [Hy' | (x & Hx & ->)];
      [now apply Hb|].
    intros (U & C & P & A1 & A2). destruct (K x) as (Ux & Cx & Px & Ax).
    apply (Hb x Hx). unfold clash.
    repeat split; [congruence | congruence | congruence | auto | auto].
Qed.

Lemma no_clashes_write_backs user_id stored (l : list Budget.t) :
  forall bs, no_clashes bs ->
    no_clashes (fold_left (write_back user_id stored) l bs).
Proof.
  induction l as [|x l IH]; intros bs H; [exact H|].
  cbn [fold_left]. apply IH. unfold write_back.
  apply no_clashes_update_one; [|exact H].
  intros b. repeat split; auto.
Qed.

(** X11: that no two active budgets of a user share category and period
    is an invariant of the store: [create_budget] keeps it, whether it
    succeeds or refuses, and so do [delete_budget], every evaluation
    pass, and [update_budget] as long as it is not asked to activate a
    budget. *)
Theorem one_active_budget_per_category_and_period (w : World) :
  no_clashes (budgets (db w)) ->
  (forall today now budget_data current_user,
     no_clashes
       (budgets (db (exec (create_budget today now budget_data current_user) w)))) /\
  (forall budget_id budget_data current_user,
     BudgetUpdate.is_active budget_data <> Some true ->
     no_clashes
       (budgets (db (exec (update_budget budget_id budget_data current_user) w)))) /\
  (forall budget_id current_user,
     no_clashes (budgets (db (exec (delete_budget budget_id current_user) w)))) /\
  (forall now user_id,
     no_clashes (budgets (db (exec (check_budget_alerts now user_id) w)))).
Proof.
  intros H. split; [|split; [|split]].
  - intros today now budget_data current_user.
    destruct (fst (create_budget today now budget_data current_user w))
      as [budget|e] eqn:E.
    + destruct (create_budget_ok _ _ _ _ _ _ E) as (F & B & ->).
      apply no_clashes_snoc; [exact H|].
      intros a Ha (U & C & P & A & _).
      pose proof (find_one_none _ _ F a Ha) as Hf.
      rewrite B in U, C, P. cbn in U, C, P.
      unfold existing_budget_filter in Hf.
      rewrite U, C, P, A, !String.eqb_refl in Hf. discriminate.
    + revert E. unfold create_budget.
      destruct (if (BudgetCreate.period budget_data =? "monthly")%string
                then month_bounds today else week_bounds today) as [s t].
      run_handler. destruct (found _); [intros _; exact H | discriminate].
  - intros budget_id budget_data current_user A. unfold update_budget.
    run_handler. destruct (negb _); [exact H|].
    destruct (_ || _); [|exact H]. cbn [fst snd db budgets set_budgets].
    apply no_clashes_update_one; [|exact H].
    intros b. unfold apply_budget_update.
    destruct (BudgetUpdate.limit_amount budget_data),
      (BudgetUpdate.is_active budget_data) as [[|]|];
      try congruence; repeat split; auto; discriminate.
  - intros budget_id current_user. unfold delete_budget. run_handler.
    destruct (Nat.eqb _ 0); cbn [fst snd db budgets set_budgets];
      now apply no_clashes_delete_one.
  - intros now user_id. unfold exec. rewrite check_budget_alerts_eq.
    cbn [snd]. rewrite after_pass_budgets. now apply no_clashes_write_backs.
Qed.

End BudgetWrites.

(** ** Listing the budgets *)

Section BudgetListing.
Context {N : PyNum}.
Local Open Scope list_scope.

Lemma user_budget_filter_blank current_user (b : Budget.t) :
  user_budget_filter current_user (blank b) = user_budget_filter current_user b.
Proof. reflexivity. Qed.

Lemma pass_blank now user_id (w : World) :
  map blank (budgets (db (after_pass now user_id w)))
  = map blank (budgets (db w)).
Proof. rewrite after_pass_budgets. apply blank_fold_write_back. Qed.

(** After the first pass, further passes leave the budgets alone. *)
Lemma passes_after_the_first now user_id {A : Type} (l : list A) :
  forall w : World,
    budgets (db (fold_left (fun w' _ => after_pass now user_id w') l
                   (after_pass now user_id w)))
    = budgets (db (after_pass now user_id w)).
Proof.
  induction l as [|x l IH]; intros w; [reflexivity|].
  cbn [fold_left]. rewrite IH. apply after_pass_budgets_twice.
Qed.

Lemma map_blank_nil (l : list Budget.t) : map blank l = [] -> l = [].
Proof. destruct l; [reflexivity | discriminate]. Qed.

Lemma get_budgets_as_one_pass now current_user (w : World) :
  fst (get_budgets now current_user w)
  = Ok (find_to_list (user_budget_filter current_user) 100
          (budgets (db (exec (check_budget_alerts now current_user) w)))).
Proof.
  unfold get_budgets. run_handler. rewrite repeated_passes. cbn [fst snd].
  rewrite check_budget_alerts_eq. cbn [snd].
  destruct (find_to_list (user_budget_filter current_user) 100 (budgets (db w)))
    as [|b l] eqn:E.
  - cbn [fold_left]. rewrite E.
    pose proof (blank_find_to_list (user_budget_filter current_user) 100
                  (budgets (db w)) (budgets (db (after_pass now current_user w)))
                  (user_budget_filter_blank current_user)
                  (pass_blank now current_user w)) as B.
    rewrite E in B. apply map_blank_nil in B. now rewrite B.
  - cbn [fold_left]. now rewrite passes_after_the_first.
Qed.

Lemma find_to_list_length {A : Type} (p : A -> bool) (n : nat) (l : list A) :
  (List.length (find_to_list p n l) <= n)%nat.
Proof. apply firstn_le_length. Qed.

(** X12: [GET /budgets] runs one evaluation pass per stored budget of
    the user, and returns what a single pass leaves: the first 100
    budgets of the user as stored after one pass.  With unique budget
    ids and at most 100 active budgets, every active budget listed
    carries the sum of the first 1000 transactions its query matches;
    an inactive one is listed as it was stored, its [current_spent]
    not recomputed.  The transactions are left as they were. *)
Theorem get_budgets_lists_one_pass (now : Z) (current_user : string)
    (w : World) :
  NoDup (map Budget.id (budgets (db w))) ->
  (List.length (filter (active_budget_filter current_user) (budgets (db w)))
   <= 100)%nat ->
  exists listed,
    fst (get_budgets now current_user w) = Ok listed /\
    listed
    = find_to_list (user_budget_filter current_user) 100
        (budgets (db (exec (check_budget_alerts now current_user) w))) /\
    (List.length listed <= 100)%nat /\
    expenses (db (exec (get_budgets now current_user) w)) = expenses (db w) /\
    forall b, In b listed ->
      Budget.user_id b = current_user /\
      (Budget.is_active b = true ->
       Budget.current_spent b
       = sum (map Expense.amount
                (find_to_list (budget_expense_filter current_user b) 1000
                              (expenses (db w))))) /\
      (Budget.is_active b = false -> In b (budgets (db w))).
Proof.
  intros ND L. eexists. split; [apply get_budgets_as_one_pass|].
  split; [reflexivity|]. split; [apply find_to_list_length|]. split.
  - unfold get_budgets. run_handler. rewrite repeated_passes. cbn [fst snd].
    clear. generalize (find_to_list (user_budget_filter current_user) 100
                         (budgets (db w))).
    intros l. revert w. induction l as [|x l IH]; intros w; [reflexivity|].
    cbn [fold_left]. rewrite IH. apply after_pass_expenses.
  - intros b Hb. unfold exec in Hb. rewrite check_budget_alerts_eq in Hb.
    cbn [snd] in Hb. apply find_to_list_In in Hb. destruct Hb as [Hb Hu].
    unfold user_budget_filter in Hu. apply String.eqb_eq in Hu.
    split; [exact Hu|]. split.
    + intros Ha.
      apply (pass_refreshes_active now current_user w ND L b Hb).
      unfold active_budget_filter. rewrite Hu, Ha, String.eqb_refl. reflexivity.
    + intros Ha. rewrite after_pass_budgets_unique in Hb by exact ND.
      apply in_map_iff in Hb. destruct Hb as (x & E & Hx).
      destruct (fetched_in _ x) eqn:F; [|now subst].
      exfalso. unfold fetched_in in F. apply existsb_exists in F.
      destruct F as (y & Hy & Ei). apply String.eqb_eq in Ei.
      apply find_to_list_In in Hy. destruct Hy as [Hy Hf].
      assert (x = y) as -> by (apply (same_id_same_budget _ _ _ ND); assumption).
      unfold active_budget_filter in Hf. apply andb_prop in Hf.
      destruct Hf as [_ Hact]. apply Bool.eqb_prop in Hact.
      subst b. cbn in Ha. congruence.
Qed.

End BudgetListing.

(** ** Limits that are not positive, on binary64 *)

Section FloatLimits.
Local Open Scope list_scope.

Lemma zero_percent_is_below_thresholds :
  ge (of_int 0) (of_int 100) = false /\ ge (of_int 0) (of_int 80) = false.
Proof. split; vm_compute; reflexivity. Qed.

(** X13: on binary64 numbers, a budget whose limit is not greater than
    zero (zero, negative, or not a number) never gets an alert,
    whatever was spent: its evaluation succeeds, inserts nothing and
    draws no id. *)
Theorem no_positive_limit_no_alert (now : Z) (user_id : string)
    (budget : Budget.t) (w : World) :
  PrimFloat.ltb 0 (Budget.limit_amount budget) = false ->
  check_budget now user_id budget w
    = (Ok tt, exec (check_budget now user_id budget) w) /\
  budget_alerts (db (exec (check_budget now user_id budget) w))
    = budget_alerts (db w) /\
  uuid_drawn (exec (check_budget now user_id budget) w) = uuid_drawn w.
Proof.
  intros H. unfold exec. rewrite check_budget_eq. cbn [snd].
  split; [reflexivity|].
  assert (E : new_alerts now user_id budget (db w) (uuid_source w (uuid_drawn w))
              = []).
  { unfold new_alerts, percentage_value, gt.
    change (lt (of_int 0) (Budget.limit_amount budget))
      with (PrimFloat.ltb 0 (Budget.limit_amount budget)).
    rewrite H.
    destruct zero_percent_is_below_thresholds as [-> ->]. reflexivity. }
  unfold after_check_budget. cbn [db budget_alerts uuid_drawn].
  rewrite E. cbn [List.length]. rewrite app_nil_r, Nat.add_0_r. now split.
Qed.

End FloatLimits.

(** ** Charts *)

Section SortedSets.
Local Open Scope list_scope.

(** Strictly ascending, in the order of strings. *)
Definition ascending (l : list string) : Prop :=
  StronglySorted (fun a b => String.compare a b = Lt) l.

Lemma insert_sorted_In (x : string) (l : list string) (y : string) :
  In y (insert_sorted x l) <-> y = x \/ In y l.
Proof.
  induction l as [|z l IH]; cbn [insert_sorted].
  - cbn. intuition.
  - destruct (String.compare x z) eqn:C.
    + apply String.compare_eq_iff in C. subst z. cbn. intuition.
    + cbn. intuition.
    + cbn [In]. rewrite IH. intuition.
Qed.

Lemma insert_sorted_ascending (x : string) (l : list string) :
  ascending l -> ascending (insert_sorted x l).
Proof.
  unfold ascending. induction l as [|z l IH]; intros S; cbn [insert_sorted].
  - constructor; constructor.
  - destruct (String.compare x z) eqn:C; [exact S| |].
    + constructor; [exact S|]. constructor; [exact C|].
      apply StronglySorted_inv in S. destruct S as [_ F].
      rewrite Forall_forall in *. intros y Hy.
      exact (compare_lt_trans _ _ _ C (F y Hy)).
    + apply StronglySorted_inv in S. destruct S as [S F].
      constructor; [now apply IH|].
      rewrite Forall_forall in *. intros y Hy.
      apply insert_sorted_In in Hy. destruct Hy as [-> | Hy]; [|now apply F].
      rewrite String.compare_antisym, C. reflexivity.
Qed.

Lemma sorted_set_In (l : list string) (y : string) :
  In y (sorted_set l) <-> In y l.
Proof.
  unfold sorted_set. induction l as [|x l IH]; [reflexivity|].
  cbn [fold_right]. rewrite insert_sorted_In, IH. cbn. intuition.
Qed.

Lemma sorted_set_ascending (l : list string) : ascending (sorted_set l).
Proof.
  unfold sorted_set. induction l as [|x l IH]; [constructor|].
  cbn [fold_right]. now apply insert_sorted_ascending.
Qed.

End SortedSets.

Section Charts.
Context {N : PyNum}.
Local Open Scope list_scope.

(** The totals of the transactions that satisfy [p], by [key]. *)
Definition grouped (p : Expense.t -> bool) (key : Expense.t -> string)
    (l : list Expense.t) (acc : list (string * num)) : list (string * num) :=
  fold_left
    (fun d t => if p t then add_to d (key t) (Expense.amount t) else d) l acc.

(** The sum, in the stored order, of the amounts of the transactions of
    [l] that satisfy [p] and have the key [k]. *)
Definition total_of (p : Expense.t -> bool) (key : Expense.t -> string)
    (k : string) (l : list Expense.t) : num :=
  sum (map Expense.amount (filter (fun t => p t && (key t =? k)%string) l)).

Lemma grouped_get (p : Expense.t -> bool) (key : Expense.t -> string)
    (l : list Expense.t) :
  forall acc k,
    dict_get (grouped p key l acc) k (of_int 0)
    = fold_left add
        (map Expense.amount (filter (fun t => p t && (key t =? k)%string) l))
        (dict_get acc k (of_int 0)).
Proof.
  unfold grouped. induction l as [|t l IH]; intros acc k; [reflexivity|].
  cbn [fold_left filter]. rewrite IH. destruct (p t); cbn [andb]; [|reflexivity].
  unfold add_to. rewrite dict_get_set, (String.eqb_sym k (key t)).
  destruct (String.eqb_spec (key t) k) as [<- | Hne]; reflexivity.
Qed.

Lemma grouped_total (p : Expense.t -> bool) (key : Expense.t -> string)
    (l : list Expense.t) (k : string) :
  dict_get (grouped p key l []) k (of_int 0) = total_of p key k l.
Proof. apply grouped_get. Qed.

Lemma grouped_keys (p : Expense.t -> bool) (key : Expense.t -> string)
    (l : list Expense.t) :
  forall acc k,
    In k (dict_keys (grouped p key l acc)) <->
    In k (dict_keys acc) \/ exists t, In t l /\ p t = true /\ key t = k.
Proof.
  unfold grouped. induction l as [|t l IH]; intros acc k.
  - cbn. split; [now left | intros [H | (t & [] & _)]; exact H].
  - cbn [fold_left]. rewrite IH. destruct (p t) eqn:P.
    + unfold add_to. rewrite dict_keys_set. split.
      * intros [[-> | H] | (x & Hx & Px & Kx)].
        -- right. exists t. repeat split; [now left | exact P].
        -- now left.
        -- right. exists x. repeat split; [now right | exact Px | exact Kx].
      * intros [H | (x & [<- | Hx] & Px & Kx)].
        -- left. now right.
        -- left. left. now symmetry.
        -- right. exists x. repeat split; assumption.
    + split.
      * intros [H | (x & Hx & Px & Kx)]; [now left|].
        right. exists x. repeat split; [now right | exact Px | exact Kx].
      * intros [H | (x & [<- | Hx] & Px & Kx)]; [now left | congruence |].
        right. exists x. repeat split; assumption.
Qed.

Lemma grouped_NoDup (p : Expense.t -> bool) (key : Expense.t -> string)
    (l : list Expense.t) :
  forall acc, NoDup (dict_keys acc) -> NoDup (dict_keys (grouped p key l acc)).
Proof.
  unfold grouped. induction l as [|t l IH]; intros acc H; [exact H|].
  cbn [fold_left]. apply IH. destruct (p t); [|exact H].
  now apply dict_keys_set_NoDup.
Qed.

Lemma dict_values_get {V : Type} (d : list (string * V)) (default : V) :
  NoDup (dict_keys d) ->
  dict_values d = map (fun k => dict_get d k default) (dict_keys d).
Proof.
  unfold dict_values, dict_keys.
  induction d as [|[k v] d IH]; intros ND; [reflexivity|].
  cbn [map fst snd dict_get]. rewrite String.eqb_refl. f_equal.
  cbn [map fst] in ND. apply NoDup_cons_iff in ND. destruct ND as [Nin ND].
  rewrite IH by exact ND. apply map_ext_in. intros c Hc.
  destruct (String.eqb_spec k c) as [-> | _]; [now destruct Nin | reflexivity].
Qed.

Definition not_expense (t : Expense.t) : bool := negb (is_expense t).

Lemma chart_categories_grouped (l : list Expense.t) :
  chart_categories l
  = (grouped is_expense Expense.category l [],
     grouped not_expense Expense.category l []).
Proof.
  unfold chart_categories, grouped. generalize (@nil (string * num)) at 1 3.
  generalize (@nil (string * num)).
  induction l as [|t l IH]; intros b a; [reflexivity|].
  cbn [fold_left]. unfold not_expense at 2.
  destruct (is_expense t); cbn [negb]; apply IH.
Qed.

Lemma chart_days_grouped (l : list Expense.t) :
  chart_days l
  = (grouped is_expense Expense.date l [], grouped not_expense Expense.date l []).
Proof.
  unfold chart_days, grouped. generalize (@nil (string * num)) at 1 3.
  generalize (@nil (string * num)).
  induction l as [|t l IH]; intros b a; [reflexivity|].
  cbn [fold_left]. unfold not_expense at 2.
  destruct (is_expense t); cbn [negb]; apply IH.
Qed.

Lemma chart_of_eq (l : list Expense.t) (period : string)
    (start_date end_date : option string) :
  let sorted_dates :=
    sorted_set (dict_keys (grouped is_expense Expense.date l []) ++
                dict_keys (grouped not_expense Expense.date l [])) in
  chart_of l period start_date end_date
  = ChartData.mk N
      (PieChart.mk N
         (Series.mk N (dict_keys (category_totals_of l))
                      (dict_values (category_totals_of l)))
         (Series.mk N
            (dict_keys (grouped not_expense Expense.category l []))
            (dict_values (grouped not_expense Expense.category l []))))
      (BarChart.mk N sorted_dates
         (map (fun d => dict_get (grouped is_expense Expense.date l []) d (of_int 0))
              sorted_dates)
         (map (fun d => dict_get (grouped not_expense Expense.date l []) d (of_int 0))
              sorted_dates))
      period start_date end_date.
Proof.
  unfold chart_of. rewrite chart_categories_grouped, chart_days_grouped.
  reflexivity.
Qed.

Lemma chart_aggregates (l : list Expense.t) (period : string)
    (start_date end_date : option string) :
  let chart := chart_of l period start_date end_date in
  let pie := ChartData.pie_chart chart in
  let bar := ChartData.bar_chart chart in
  ascending (BarChart.labels bar) /\
  (forall d, In d (BarChart.labels bar) <->
             exists t, In t l /\ Expense.date t = d) /\
  BarChart.expenses bar
    = map (fun d => total_of is_expense Expense.date d l) (BarChart.labels bar) /\
  BarChart.income bar
    = map (fun d => total_of not_expense Expense.date d l) (BarChart.labels bar) /\
  Series.labels (PieChart.expenses pie) = dict_keys (category_totals_of l) /\
  Series.data (PieChart.expenses pie) = dict_values (category_totals_of l) /\
  NoDup (Series.labels (PieChart.income pie)) /\
  (forall c, In c (Series.labels (PieChart.income pie)) <->
             exists t, In t l /\ Expense.type t <> "expense" /\
                       Expense.category t = c) /\
  Series.data (PieChart.income pie)
    = map (fun c => total_of not_expense Expense.category c l)
          (Series.labels (PieChart.income pie)).
Proof.
  intros chart pie bar. unfold bar, pie, chart. rewrite chart_of_eq.
  cbn [ChartData.pie_chart ChartData.bar_chart BarChart.labels
       BarChart.expenses BarChart.income PieChart.expenses PieChart.income
       Series.labels Series.data].
  split; [apply sorted_set_ascending|]. split; [|split; [|split]].
  - intros d. rewrite sorted_set_In, in_app_iff, !grouped_keys. cbn [dict_keys map In].
    split.
    + intros [[[] | (t & Ht & _ & K)] | [[] | (t & Ht & _ & K)]];
        exists t; now split.
    + intros (t & Ht & K). destruct (is_expense t) eqn:E.
      * left. right. exists t. now repeat split.
      * right. right. exists t. unfold not_expense. rewrite E. now repeat split.
  - apply map_ext. intros d. apply grouped_total.
  - apply map_ext. intros d. apply grouped_total.
  - split; [reflexivity|]. split; [reflexivity|]. split; [|split].
    + apply grouped_NoDup. constructor.
    + intros c. rewrite grouped_keys. cbn [dict_keys map In]. split.
      * intros [[] | (t & Ht & P & K)]. exists t. split; [exact Ht|].
        split; [|exact K]. unfold not_expense, is_expense in P.
        apply negb_true_iff in P. now apply String.eqb_neq in P.
      * intros (t & Ht & P & K). right. exists t. split; [exact Ht|].
        split; [|exact K]. unfold not_expense, is_expense.
        apply negb_true_iff. now apply String.eqb_neq.
    + rewrite (dict_values_get _ (of_int 0)) by (apply grouped_NoDup; constructor).
      apply map_ext. intros c. apply grouped_total.
Qed.

Lemma get_chart_data_named today (period start_date end_date : option string)
    current_user (w : World) :
  exists fetched period' start' end',
    get_summary today period start_date end_date current_user w
      = (Ok (summarize fetched period' start' end'), w) /\
    get_chart_data today period start_date end_date current_user w
      = (Ok (chart_of fetched period' start' end'), w) /\
    (List.length fetched <= 1000)%nat /\
    forall t, In t fetched ->
      In t (expenses (db w)) /\ Expense.user_id t = current_user.
Proof.
  unfold get_summary, get_chart_data.
  destruct (negb (or_else period "month" =? "custom")%string).
  - destruct (get_date_range today (or_else period "month") None None) as [s e].
    eexists. eexists. eexists. eexists.
    split; [reflexivity|]. split; [reflexivity|].
    split; [apply firstn_le_length|].
    intros t Ht. apply find_to_list_In in Ht. destruct Ht as [Ht Q].
    split; [exact Ht|]. unfold summary_query in Q. apply andb_prop in Q.
    destruct Q as [Q _]. now apply String.eqb_eq.
  - eexists. eexists. eexists. eexists.
    split; [reflexivity|]. split; [reflexivity|].
    split; [apply firstn_le_length|].
    intros t Ht. apply find_to_list_In in Ht. destruct Ht as [Ht Q].
    split; [exact Ht|]. unfold summary_query in Q. apply andb_prop in Q.
    destruct Q as [Q _]. now apply String.eqb_eq.
Qed.

(** X14: the chart route never fails and changes nothing.  Over the
    transactions it fetched (at most 1000, all the caller's): the bar
    chart has one label for every date that occurs, and no other, in
    strictly ascending order of the date strings; its [expenses] series
    gives for each label the sum of the amounts of the transactions of
    type [expense] of that date, and its [income] series the sum of the
    amounts of all the other transactions of that date, whatever their
    type.  The income pie lists each category of such transactions once,
    with the sum of their amounts. *)
Theorem chart_groups_by_date_and_category (today : date)
    (period start_date end_date : option string) (current_user : string)
    (w : World) :
  exists fetched chart,
    get_chart_data today period start_date end_date current_user w
      = (Ok chart, w) /\
    (List.length fetched <= 1000)%nat /\
    (forall t, In t fetched ->
       In t (expenses (db w)) /\ Expense.user_id t = current_user) /\
    let pie := ChartData.pie_chart chart in
    let bar := ChartData.bar_chart chart in
    ascending (BarChart.labels bar) /\
    (forall d, In d (BarChart.labels bar) <->
               exists t, In t fetched /\ Expense.date t = d) /\
    BarChart.expenses bar
      = map (fun d => total_of is_expense Expense.date d fetched)
            (BarChart.labels bar) /\
    BarChart.income bar
      = map (fun d => total_of not_expense Expense.date d fetched)
            (BarChart.labels bar) /\
    NoDup (Series.labels (PieChart.income pie)) /\
    (forall c, In c (Series.labels (PieChart.income pie)) <->
               exists t, In t fetched /\ Expense.type t <> "expense" /\
                         Expense.category t = c) /\
    Series.data (PieChart.income pie)
      = map (fun c => total_of not_expense Expense.category c fetched)
            (Series.labels (PieChart.income pie)).
Proof.
  destruct (get_chart_data_named today period start_date end_date current_user w)
    as (fetched & p & s & e & _ & C & L & U).
  exists fetched, (chart_of fetched p s e).
  split; [exact C|]. split; [exact L|]. split; [exact U|].
  destruct (chart_aggregates fetched p s e)
    as (A1 & A2 & A3 & A4 & _ & _ & A7 & A8 & A9).
  cbv zeta. repeat split; try assumption; apply A2 || apply A8.
Qed.

(** X15: for the same request on the same store, the expense pie of the
    chart route is the category breakdown of the summary route: the
    same categories in the same order with the same totals, computed by
    the same additions, on binary64 as well.  The two answers name the
    same period and the same bounds. *)
Theorem expense_pie_is_the_summary_breakdown (today : date)
    (period start_date end_date : option string) (current_user : string)
    (w : World) :
  exists summary chart,
    get_summary today period start_date end_date current_user w
      = (Ok summary, w) /\
    get_chart_data today period start_date end_date current_user w
      = (Ok chart, w) /\
    Series.labels (PieChart.expenses (ChartData.pie_chart chart))
      = dict_keys (Summary.category_breakdown summary) /\
    Series.data (PieChart.expenses (ChartData.pie_chart chart))
      = dict_values (Summary.category_breakdown summary) /\
    ChartData.period chart = Summary.period summary /\
    ChartData.start_date chart = Summary.start_date summary /\
    ChartData.end_date chart = Summary.end_date summary.
Proof.
  destruct (get_chart_data_named today period start_date end_date current_user w)
    as (fetched & p & s & e & S & C & _ & _).
  exists (summarize fetched p s e), (chart_of fetched p s e).
  split; [exact S|]. split; [exact C|].
  rewrite chart_of_eq. repeat split; reflexivity.
Qed.

End Charts.

(** ** Reports *)

Section Reports.
Context {N : PyNum}.
Local Open Scope list_scope.

(** The keys of the dictionary kept for each category. *)
Definition stats_key (transaction_type : string) : bool :=
  (transaction_type =? "expenses")%string ||
  (transaction_type =? "income")%string ||
  (transaction_type =? "transactions")%string.

Lemma stats_add_key (stats : CategoryStats.t) (key : string) (amount : num) :
  (stats_key key = true -> exists stats', stats_add stats key amount = Some stats') /\
  (stats_key key = false -> stats_add stats key amount = None).
Proof.
  unfold stats_key, stats_add.
  destruct (key =? "expenses")%string; [split; [eauto | discriminate]|].
  destruct (key =? "income")%string; [split; [eauto | discriminate]|].
  destruct (key =? "transactions")%string; split; eauto; discriminate.
Qed.

Lemma count_transaction_key (category_stats : list (string * CategoryStats.t))
    (t : Expense.t) :
  (stats_key (Expense.type t) = true ->
   exists category_stats',
     count_transaction category_stats t = Returned category_stats') /\
  (stats_key (Expense.type t) = false ->
   count_transaction category_stats t = KeyError (Expense.type t)).
Proof.
  unfold count_transaction.
  set (d := if negb (dict_mem category_stats (Expense.category t)) then _ else _).
  destruct (stats_add_key (dict_get d (Expense.category t) no_stats)
              (Expense.type t) (Expense.amount t)) as [A B].
  split; intros K.
  - destruct (A K) as (s & ->). eauto.
  - now rewrite (B K).
Qed.

(** The loop stops at the first transaction whose type is not a key. *)
Lemma category_stats_of_outcome (l : list Expense.t) :
  forall category_stats,
    (forallb (fun t => stats_key (Expense.type t)) l = true ->
     exists category_stats',
       category_stats_of l category_stats = Returned category_stats') /\
    (forall before t after,
       l = before ++ t :: after ->
       forallb (fun t => stats_key (Expense.type t)) before = true ->
       stats_key (Expense.type t) = false ->
       category_stats_of l category_stats = KeyError (Expense.type t)).
Proof.
  induction l as [|x l IH]; intros category_stats.
  - split; [intros _; now exists category_stats|].
    intros [|y b] t after E; discriminate E.
  - cbn [category_stats_of forallb].
    destruct (count_transaction_key category_stats x) as [A B]. split.
    + intros H. apply andb_prop in H. destruct H as [Kx Kl].
      destruct (A Kx) as (s & ->). now apply (IH s).
    + intros [|y before] t after E Hb Kt.
      * injection E as -> ->. now rewrite (B Kt).
      * injection E as -> ->. cbn [forallb] in Hb. apply andb_prop in Hb.
        destruct Hb as [Ky Hb]. destruct (A Ky) as (s & ->).
        now apply (proj2 (IH s) before t after).
Qed.

(** A list splits at its first element that fails a test. *)
Lemma first_failure {A : Type} (p : A -> bool) (l : list A) :
  forallb p l = false ->
  exists before x after,
    l = before ++ x :: after /\ forallb p before = true /\ p x = false.
Proof.
  induction l as [|y l IH]; [discriminate|].
  cbn [forallb]. destruct (p y) eqn:P; cbn [andb].
  - intros H. destruct (IH H) as (b & x & a & -> & Hb & Hx).
    exists (y :: b), x, a. cbn [forallb app]. rewrite P. auto.
  - intros _. exists [], y, l. auto.
Qed.

Lemma no_expense_among_keys (l : list Expense.t) :
  forallb (fun t => stats_key (Expense.type t)) l = true ->
  filter is_expense l = [].
Proof.
  induction l as [|t l IH]; [reflexivity|].
  cbn [forallb filter]. intros H. apply andb_prop in H. destruct H as [K H].
  rewrite (IH H). unfold is_expense.
  destruct (String.eqb_spec (Expense.type t) "expense") as [E|]; [|reflexivity].
  rewrite E in K. discriminate K.
Qed.

Lemma report_outcome (now : Z) (l : list Expense.t)
    (start_date end_date : option string) :
  (forall t, In t l -> Expense.type t = "expense" ->
     exists key, report_of now l start_date end_date = KeyError key /\
                 stats_key key = false /\
                 exists t', In t' l /\ Expense.type t' = key) /\
  (forall report, report_of now l start_date end_date = Returned report ->
     (forall t, In t l -> stats_key (Expense.type t) = true) /\
     ReportSummary.total_expenses (Report.summary report) = of_int 0 /\
     ReportSummary.total_income (Report.summary report)
       = sum (map Expense.amount (filter is_income l)) /\
     ReportSummary.net_balance (Report.summary report)
       = sub (ReportSummary.total_income (Report.summary report)) (of_int 0) /\
     ReportSummary.total_transactions (Report.summary report) = List.length l /\
     Report.transactions report = l) /\
  ((forall t, In t l -> stats_key (Expense.type t) = true) ->
   exists report, report_of now l start_date end_date = Returned report).
Proof.
  unfold report_of.
  destruct (forallb (fun t => stats_key (Expense.type t)) l) eqn:F.
  - destruct (proj1 (category_stats_of_outcome l []) F) as (s & ->).
    split; [|split].
    + intros t Ht E. rewrite forallb_forall in F. specialize (F t Ht).
      rewrite E in F. discriminate F.
    + intros report [= <-]. cbn. rewrite (no_expense_among_keys l F).
      split; [now apply forallb_forall|]. repeat split; reflexivity.
    + intros _. eauto.
  - destruct (first_failure _ _ F) as (before & x & after & E & Hb & Hx).
    rewrite (proj2 (category_stats_of_outcome l []) before x after E Hb Hx).
    split; [|split].
    + intros t Ht _. exists (Expense.type x). split; [reflexivity|].
      split; [exact Hx|]. exists x. split; [|reflexivity].
      rewrite E. apply in_or_app. right. now left.
    + intros report [=].
    + intros H. assert (Hin : In x l) by (rewrite E; apply in_or_app; right; now left).
      rewrite (H x Hin) in Hx. discriminate Hx.
Qed.

(** The transactions [generate_report] fetches. *)
Definition report_transactions (today : date)
    (period start_date end_date : option string) (current_user : string)
    (w : World) : list Expense.t :=
  let period := or_else period "month" in
  let '(start_date, end_date) :=
    if negb (period =? "custom")%string
    then let '(s, e) := get_date_range today period None None in (Some s, Some e)
    else (start_date, end_date) in
  firstn 1000
    (sort_desc (fun a b => String.leb (Expense.date b) (Expense.date a))
       (filter (summary_query start_date end_date current_user)
               (expenses (db w)))).

Lemma generate_report_eq today now (period start_date end_date : option string)
    current_user (w : World) :
  exists start' end',
    generate_report today now period start_date end_date current_user w
    = (Ok (report_of now
             (report_transactions today period start_date end_date
                                  current_user w) start' end'), w).
Proof.
  unfold generate_report, report_transactions.
  destruct (negb (or_else period "month" =? "custom")%string).
  - destruct (get_date_range today (or_else period "month") None None).
    eexists. eexists. reflexivity.
  - eexists. eexists. reflexivity.
Qed.

(** X16: the report route adds each amount to the entry of its category
    under the transaction's own type, and the entries have the keys
    [expenses], [income] and [transactions]: the type [expense], which
    is the default of a new transaction, is not one of them.  So the
    request ends in an uncaught [KeyError] whenever a transaction of
    type [expense] is among those fetched, and it returns a report
    exactly when every fetched transaction has one of the three keys as
    its type.  A report that is returned therefore always shows total
    expenses of 0, and a net balance equal to the total income minus
    0. *)
Theorem report_fails_on_expense_transactions (today : date) (now : Z)
    (period start_date end_date : option string) (current_user : string)
    (w : World) :
  let fetched :=
    report_transactions today period start_date end_date current_user w in
  exists outcome,
    generate_report today now period start_date end_date current_user w
      = (Ok outcome, w) /\
    (forall t, In t fetched -> Expense.type t = "expense" ->
       exists key, outcome = KeyError key /\ stats_key key = false /\
                   exists t', In t' fetched /\ Expense.type t' = key) /\
    (forall report, outcome = Returned report ->
       (forall t, In t fetched -> stats_key (Expense.type t) = true) /\
       ReportSummary.total_expenses (Report.summary report) = of_int 0 /\
       ReportSummary.total_income (Report.summary report)
         = sum (map Expense.amount (filter is_income fetched)) /\
       ReportSummary.net_balance (Report.summary report)
         = sub (ReportSummary.total_income (Report.summary report)) (of_int 0) /\
       ReportSummary.total_transactions (Report.summary report)
         = List.length fetched /\
       Report.transactions report = fetched) /\
    ((forall t, In t fetched -> stats_key (Expense.type t) = true) ->
     exists report, outcome = Returned report).
Proof.
  intros fetched.
  destruct (generate_report_eq today now period start_date end_date
              current_user w) as (s & e & E).
  eexists. split; [exact E|]. apply report_outcome.
Qed.

End Reports.

(** ** Categories *)

Section CategoryProperties.
Context {N : PyNum}.
Local Open Scope list_scope.

(** The name is one of the predefined ones. *)
Definition predefined_name (name : string) : bool :=
  dict_mem PREDEFINED_CATEGORIES name.

(** No custom category has a predefined name, and no user has two custom
    categories of the same name. *)
Definition names_are_free (custom_categories : list CustomCategory.t) : Prop :=
  Forall (fun c => predefined_name (CustomCategory.name c) = false)
         custom_categories.

Definition same_user_and_name (a b : CustomCategory.t) : Prop :=
  CustomCategory.user_id a = CustomCategory.user_id b /\
  CustomCategory.name a = CustomCategory.name b.

Definition names_are_unique (custom_categories : list CustomCategory.t) : Prop :=
  ForallOrdPairs (fun a b => ~ same_user_and_name a b) custom_categories.

Lemma unique_snoc (cats : list CustomCategory.t) (x : CustomCategory.t) :
  names_are_unique cats -> (forall a, In a cats -> ~ same_user_and_name a x) ->
  names_are_unique (cats ++ [x]).
Proof.
  unfold names_are_unique. induction cats as [|c cats IH]; intros H F.
  - cbn. constructor; constructor.
  - inversion H as [|? ? Hc Hcs]; subst. cbn [app]. constructor.
    + apply Forall_app. split; [exact Hc|].
      constructor; [|constructor]. apply F. now left.
    + apply IH; [exact Hcs|]. intros a Ha. apply F. now right.
Qed.

Lemma created_category (new_id : string) (now : Z)
    (category_data : CategoryCreate.t) (current_user : string)
    (cats : list CustomCategory.t) :
  let name := CategoryCreate.name category_data in
  let taken :=
    found (find_one (named_category_filter current_user name) cats) in
  (taken = true ->
   create_category new_id now category_data current_user cats
   = (Raise (HTTPException 400 "Category already exists"), cats)) /\
  (taken = false -> predefined_name name = true ->
   create_category new_id now category_data current_user cats
   = (Raise (HTTPException 400 "Category already exists in predefined list"),
      cats)) /\
  (taken = false -> predefined_name name = false ->
   exists category,
     create_category new_id now category_data current_user cats
       = (Ok category, cats ++ [category]) /\
     CustomCategory.id category = new_id /\
     CustomCategory.user_id category = current_user /\
     CustomCategory.name category = name /\
     CustomCategory.goal category = CategoryCreate.goal category_data /\
     CustomCategory.created_at category = now /\
     CustomCategory.icon category
       = (if truthy (CategoryCreate.icon category_data)
          then str_or_empty (CategoryCreate.icon category_data)
          else "📦")).
Proof.
  intros name taken. unfold create_category. fold name. fold taken.
  fold (predefined_name name).
  split; [|split].
  - intros ->. reflexivity.
  - intros -> ->. reflexivity.
  - intros -> ->. eexists. split; [reflexivity|]. repeat split; reflexivity.
Qed.

Lemma create_category_keeps_names (new_id : string) (now : Z)
    (category_data : CategoryCreate.t) (current_user : string)
    (cats : list CustomCategory.t) :
  names_are_free cats -> names_are_unique cats ->
  names_are_free (snd (create_category new_id now category_data current_user cats)) /\
  names_are_unique (snd (create_category new_id now category_data current_user cats)).
Proof.
  intros F U.
  destruct (created_category new_id now category_data current_user cats)
    as (A & B & C).
  destruct (found (find_one (named_category_filter current_user
                               (CategoryCreate.name category_data)) cats)) eqn:T.
  - rewrite (A eq_refl). now split.
  - destruct (predefined_name (CategoryCreate.name category_data)) eqn:P.
    + rewrite (B eq_refl eq_refl). now split.
    + destruct (C eq_refl eq_refl) as (c & -> & _ & Hu & Hn & _). cbn [snd].
      split.
      * apply Forall_app. split; [exact F|].
        constructor; [|constructor]. now rewrite Hn.
      * apply unique_snoc; [exact U|]. intros a Ha [Eu En].
        rewrite found_find_one in T.
        assert (X : existsb (named_category_filter current_user
                               (CategoryCreate.name category_data)) cats = true).
        { apply existsb_exists. exists a. split; [exact Ha|].
          unfold named_category_filter.
          rewrite Eu, En, Hu, Hn, !String.eqb_refl. reflexivity. }
        rewrite X in T. discriminate T.
Qed.

(** X17: creating a category is refused with HTTP 400 when the user has
    a custom category of that name, and when the name is a predefined
    one; the collection is then unchanged.  Otherwise the category is
    stored at the end, with the box icon when the request gives no icon
    or an empty one.  So, as far as categories are only created, no
    custom category has a predefined name and no user has two categories
    of one name. *)
Theorem create_category_keeps_names_apart (new_id : string) (now : Z)
    (category_data : CategoryCreate.t) (current_user : string)
    (cats : list CustomCategory.t) :
  (let name := CategoryCreate.name category_data in
   let taken :=
     found (find_one (named_category_filter current_user name) cats) in
   (taken = true ->
    create_category new_id now category_data current_user cats
    = (Raise (HTTPException 400 "Category already exists"), cats)) /\
   (taken = false -> predefined_name name = true ->
    create_category new_id now category_data current_user cats
    = (Raise (HTTPException 400 "Category already exists in predefined list"),
       cats)) /\
   (taken = false -> predefined_name name = false ->
    exists category,
      create_category new_id now category_data current_user cats
        = (Ok category, cats ++ [category]) /\
      CustomCategory.id category = new_id /\
      CustomCategory.user_id category = current_user /\
      CustomCategory.name category = name /\
      CustomCategory.goal category = CategoryCreate.goal category_data /\
      CustomCategory.created_at category = now /\
      CustomCategory.icon category
        = (if truthy (CategoryCreate.icon category_data)
           then str_or_empty (CategoryCreate.icon category_data)
           else "📦"))) /\
  (names_are_free cats -> names_are_unique cats ->
   names_are_free
     (snd (create_category new_id now category_data current_user cats)) /\
   names_are_unique
     (snd (create_category new_id now category_data current_user cats))).
Proof.
  split.
  - apply created_category.
  - apply create_category_keeps_names.
Qed.

(** The document the update leaves in place of [c]. *)
Lemma update_category_found (category_id : string)
    (category_data : CategoryUpdate.t) (current_user : string)
    (cats : list CustomCategory.t) (c : CustomCategory.t) :
  find_one (owned_category_filter category_id current_user) cats = Some c ->
  exists before after,
    cats = before ++ c :: after /\
    update_category category_id category_data current_user cats
    = (Ok tt, before ++ apply_category_update category_data c :: after) /\
    CustomCategory.id c = category_id /\
    CustomCategory.user_id c = current_user.
Proof.
  intros F. unfold update_category. rewrite F. cbn [found negb].
  destruct (update_one_split _ (apply_category_update category_data) _ _ F)
    as (before & after & E1 & E2 & _ & P).
  exists before, after. split; [exact E1|].
  unfold owned_category_filter in P. apply andb_prop in P.
  destruct P as [Pi Pu]. apply String.eqb_eq in Pi, Pu.
  split; [|now split].
  destruct (_ || _) eqn:H; [now rewrite E2|].
  f_equal. rewrite E1 at 1. f_equal. f_equal.
  apply orb_false_elim in H. destruct H as [H Hg].
  apply orb_false_elim in H. destruct H as [Hn Hi].
  unfold apply_category_update.
  destruct (CategoryUpdate.name category_data); [discriminate|].
  destruct (CategoryUpdate.icon category_data); [discriminate|].
  destruct (CategoryUpdate.goal category_data); [discriminate|].
  destruct c; reflexivity.
Qed.

(** X18: renaming a category is not checked: whenever the category
    exists and belongs to the caller, [update_category] answers with
    success and stores the new name in place, keeping id, owner and
    creation time; no name is refused.  The collection then holds a
    custom category with a predefined name if the new name is one, and
    two categories of one name for the user if the user had another of
    that name: the two properties that creation keeps are lost.  An id
    that names no category of the caller gets HTTP 404 and changes
    nothing. *)
Theorem update_category_accepts_any_name (category_id : string)
    (category_data : CategoryUpdate.t) (current_user : string)
    (cats : list CustomCategory.t) :
  (find_one (owned_category_filter category_id current_user) cats = None ->
   update_category category_id category_data current_user cats
   = (Raise (HTTPException 404 "Category not found"), cats)) /\
  (forall c name,
     find_one (owned_category_filter category_id current_user) cats = Some c ->
     CategoryUpdate.name category_data = Some name ->
     exists before after c',
       cats = before ++ c :: after /\
       update_category category_id category_data current_user cats
       = (Ok tt, before ++ c' :: after) /\
       CustomCategory.name c' = name /\
       CustomCategory.id c' = category_id /\
       CustomCategory.user_id c' = current_user /\
       CustomCategory.created_at c' = CustomCategory.created_at c /\
       (predefined_name name = true ->
        ~ names_are_free (before ++ c' :: after)) /\
       (forall other, In other (before ++ after) ->
          CustomCategory.user_id other = current_user ->
          CustomCategory.name other = name ->
          ~ names_are_unique (before ++ c' :: after))).
Proof.
  split.
  - intros F. unfold update_category. now rewrite F.
  - intros c name F Hn.
    destruct (update_category_found category_id category_data current_user cats
                c F) as (before & after & E1 & E2 & Hi & Hu).
    exists before, after, (apply_category_update category_data c).
    split; [exact E1|]. split; [exact E2|].
    assert (Nm : CustomCategory.name (apply_category_update category_data c)
                 = name).
    { unfold apply_category_update. cbn [CustomCategory.name]. now rewrite Hn. }
    split; [exact Nm|]. split; [exact Hi|]. split; [exact Hu|].
    split; [reflexivity|]. split.
    + intros P Free. unfold names_are_free in Free.
      rewrite Forall_forall in Free.
      specialize (Free (apply_category_update category_data c)
                    ltac:(apply in_or_app; right; now left)).
      rewrite Nm, P in Free. discriminate Free.
    + intros other Ho Uo No Uniq. unfold names_are_unique in Uniq.
      set (c' := apply_category_update category_data c) in *.
      assert (S : same_user_and_name other c' /\ same_user_and_name c' other).
      { unfold same_user_and_name. rewrite Uo, No, Nm.
        change (CustomCategory.user_id c') with (CustomCategory.user_id c).
        rewrite Hu. auto. }
      clear - Ho Uniq S. revert Ho Uniq.
      induction before as [|b before IH]; cbn [app]; intros Ho Uniq.
      * inversion Uniq as [|? ? Hc _]; subst. rewrite Forall_forall in Hc.
        exact (Hc other Ho (proj2 S)).
      * inversion Uniq as [|? ? Hb Hrest]; subst.
        destruct Ho as [<- | Ho]; [|now apply IH].
        rewrite Forall_forall in Hb.
        apply (Hb c'); [apply in_or_app; right; now left | exact (proj1 S)].
Qed.

(** The entry [get_categories] lists for a custom category. *)
Definition custom_entry (c : CustomCategory.t) : CategoryEntry :=
  Custom (CustomCategory.name c) (CustomCategory.icon c)
         (CustomCategory.goal c) (CustomCategory.id c).

(** X19: the category listing is the ten predefined categories followed
    by the custom ones: the first 100 custom categories of the caller,
    in the order stored.  A category one user creates never shows in
    another user's listing; it is the last of the creator's own listing
    as long as the creator had fewer than 100, and from the 100th on it
    is stored but not listed. *)
Theorem category_listing (current_user : string)
    (cats : list CustomCategory.t) :
  let listing := get_categories current_user cats in
  Categories.all listing
    = Categories.predefined listing ++ Categories.custom listing /\
  List.length (Categories.predefined listing) = 10%nat /\
  (List.length (Categories.custom listing) <= 100)%nat /\
  Categories.custom listing
    = map custom_entry
        (firstn 100 (filter (user_category_filter current_user) cats)) /\
  (forall new_id now category_data other_user category,
     fst (create_category new_id now category_data other_user cats)
       = Ok category ->
     let cats' :=
       snd (create_category new_id now category_data other_user cats) in
     (other_user <> current_user ->
      get_categories current_user cats' = get_categories current_user cats) /\
     (other_user = current_user ->
      (List.length (filter (user_category_filter current_user) cats) < 100)%nat ->
      Categories.custom (get_categories current_user cats')
        = Categories.custom listing ++ [custom_entry category]) /\
     (other_user = current_user ->
      (100 <= List.length (filter (user_category_filter current_user) cats))%nat ->
      get_categories current_user cats' = get_categories current_user cats)).
Proof.
  intros listing. unfold listing, get_categories.
  cbn [Categories.all Categories.predefined Categories.custom].
  split; [reflexivity|]. split; [reflexivity|].
  split; [rewrite length_map; apply firstn_le_length|].
  split; [reflexivity|].
  intros new_id now category_data other_user category H.
  assert (E : snd (create_category new_id now category_data other_user cats)
              = cats ++ [category] /\
              CustomCategory.user_id category = other_user).
  { revert H. unfold create_category.
    destruct (found _); [discriminate|].
    destruct (dict_mem _ _); [discriminate|].
    cbn [fst snd]. intros [= <-]. split; reflexivity. }
  destruct E as [-> U]. unfold find_to_list. rewrite filter_app. cbn [filter].
  assert (Q : user_category_filter current_user category
              = (other_user =? current_user)%string)
    by (unfold user_category_filter; now rewrite U).
  rewrite Q.
  split; [|split].
  - intros Hne. apply String.eqb_neq in Hne. rewrite Hne, app_nil_r.
    reflexivity.
  - intros -> L. rewrite String.eqb_refl.
    rewrite firstn_snoc_below by exact L.
    rewrite firstn_all2 by lia. rewrite map_app. reflexivity.
  - intros -> L. rewrite String.eqb_refl.
    rewrite firstn_snoc_full by exact L. reflexivity.
Qed.

End CategoryProperties.

(** ** Writes by id *)

Section WritesById.
Context {N : PyNum}.
Local Open Scope list_scope.

Lemma found_some {A : Type} (o : option A) (x : A) : o = Some x -> found o = true.
Proof. now intros ->. Qed.

(** The first match, and what the two writes do around it. *)
Lemma first_match_split {A : Type} (p : A -> bool) (l : list A) (x : A) :
  find_one p l = Some x ->
  exists before after,
    l = before ++ x :: after /\
    (forall f, update_one p f l = before ++ f x :: after) /\
    delete_one p l = before ++ after.
Proof.
  unfold find_one. induction l as [|y l IH]; [discriminate|].
  cbn [find update_one delete_one]. destruct (p y) eqn:E.
  - intros [= ->]. exists [], l. repeat split; reflexivity.
  - intros H. destruct (IH H) as (b & a & E1 & E2 & E3).
    exists (y :: b), a. cbn [app]. rewrite <- E1, <- E3.
    repeat split; try reflexivity. intros f. now rewrite E2.
Qed.

(** X20: the five routes that write by id act on one document, the
    first stored one with that id that belongs to the caller, and leave
    every other document of the collection in place.  An update puts
    the changed document where the old one was; a deletion closes the
    gap.  [update_budget] changes the limit and the active flag only:
    [current_spent] stays as stored and no alert is inserted, since it
    runs no evaluation; [delete_budget] leaves the budget's alerts
    stored. *)
Theorem writes_by_id_touch_one_document (doc_id current_user : string)
    (w : World) :
  (forall e expense_data now,
     find_one (owned_expense_filter doc_id current_user) (expenses (db w))
       = Some e ->
     exists before after,
       expenses (db w) = before ++ e :: after /\
       fst (update_expense now doc_id expense_data current_user w) = Ok tt /\
       expenses (db (exec (update_expense now doc_id expense_data current_user) w))
         = before ++ apply_expense_update expense_data e :: after /\
       fst (delete_expense doc_id current_user w) = Ok tt /\
       expenses (db (exec (delete_expense doc_id current_user) w))
         = before ++ after) /\
  (forall b budget_data,
     find_one (owned_budget_filter doc_id current_user) (budgets (db w))
       = Some b ->
     exists before after,
       budgets (db w) = before ++ b :: after /\
       update_budget doc_id budget_data current_user w
         = (Ok tt, exec (update_budget doc_id budget_data current_user) w) /\
       budgets (db (exec (update_budget doc_id budget_data current_user) w))
         = before ++ apply_budget_update budget_data b :: after /\
       Budget.current_spent (apply_budget_update budget_data b)
         = Budget.current_spent b /\
       budget_alerts (db (exec (update_budget doc_id budget_data current_user) w))
         = budget_alerts (db w) /\
       fst (delete_budget doc_id current_user w) = Ok tt /\
       budgets (db (exec (delete_budget doc_id current_user) w))
         = before ++ after /\
       budget_alerts (db (exec (delete_budget doc_id current_user) w))
         = budget_alerts (db w)) /\
  (forall a,
     find_one (owned_alert_filter doc_id current_user) (budget_alerts (db w))
       = Some a ->
     exists before after,
       budget_alerts (db w) = before ++ a :: after /\
       fst (mark_alert_read doc_id current_user w) = Ok tt /\
       budget_alerts (db (exec (mark_alert_read doc_id current_user) w))
         = before ++ BudgetAlert.set_is_read true a :: after).
Proof.
  split; [|split].
  - intros e expense_data now F.
    destruct (first_match_split _ _ _ F) as (before & after & E1 & E2 & D2).
    specialize (E2 (apply_expense_update expense_data)).
    exists before, after. split; [exact E1|].
    unfold update_expense, delete_expense. run_handler.
    rewrite matched_count_found, (found_some _ _ F). cbn [negb fst snd].
    split; [destruct (has_update expense_data); [|reflexivity];
            cbn [fst snd]; now rewrite check_budget_alerts_eq|].
    split; [|split; [reflexivity|cbn; exact D2]].
    destruct (has_update expense_data) eqn:H; cbn [fst snd].
    + rewrite check_budget_alerts_eq. cbn [fst snd].
      rewrite after_pass_expenses. cbn. exact E2.
    + rewrite E1. f_equal. f_equal. unfold has_update in H.
      repeat (apply orb_false_elim in H; destruct H as [H ?]).
      unfold apply_expense_update.
      destruct (ExpenseUpdate.title expense_data); [discriminate|].
      destruct (ExpenseUpdate.amount expense_data); [discriminate|].
      destruct (ExpenseUpdate.category expense_data); [discriminate|].
      destruct (ExpenseUpdate.type expense_data); [discriminate|].
      destruct (ExpenseUpdate.description expense_data); [discriminate|].
      destruct (ExpenseUpdate.date expense_data); [discriminate|].
      destruct e; reflexivity.
  - intros b budget_data F.
    destruct (first_match_split _ _ _ F) as (before & after & E1 & E2 & D2).
    specialize (E2 (apply_budget_update budget_data)).
    exists before, after. split; [exact E1|].
    unfold update_budget, delete_budget. run_handler.
    rewrite matched_count_found, (found_some _ _ F). cbn [negb fst snd].
    split; [destruct (_ || _); reflexivity|].
    split; [|split; [|split; [|split; [reflexivity|split; [cbn; exact D2|reflexivity]]]]].
    + destruct (_ || _) eqn:H; cbn [fst snd]; [cbn; exact E2|].
      rewrite E1. f_equal. f_equal. apply orb_false_elim in H.
      destruct H as [H1 H2]. unfold apply_budget_update.
      destruct (BudgetUpdate.limit_amount budget_data); [discriminate|].
      destruct (BudgetUpdate.is_active budget_data); [discriminate|].
      reflexivity.
    + unfold apply_budget_update.
      destruct (BudgetUpdate.limit_amount budget_data),
        (BudgetUpdate.is_active budget_data); reflexivity.
    + destruct (_ || _); reflexivity.
  - intros a F.
    destruct (first_match_split _ _ _ F) as (before & after & E1 & E2 & _).
    specialize (E2 (BudgetAlert.set_is_read true)).
    exists before, after. split; [exact E1|].
    unfold mark_alert_read. run_handler.
    rewrite matched_count_found, (found_some _ _ F). cbn [negb fst snd].
    split; [reflexivity | cbn; exact E2].
Qed.

End WritesById.

(** ** Periods as calendar ranges *)

Section CalendarRanges.
Context {N : PyNum}.
Local Open Scope list_scope.

(** X21: dates are stored and compared as strings.  When the bounds of
    a budget and the date of a transaction are the ISO strings of dates
    of the years 1 to 9999, the evaluator's query selects the
    transaction exactly when it belongs to the user, has the budget's
    category and the type [expense], and its day is within the period
    in the calendar: not before the first day and not after the last.
    The query of the summary, chart and report routes selects by the
    calendar in the same way. *)
Theorem periods_select_by_calendar_day (user_id : string) (budget : Budget.t)
    (e : Expense.t) (first last day : date) :
  valid_date first -> valid_date last -> valid_date day ->
  year first <= 9999 -> year last <= 9999 -> year day <= 9999 ->
  Budget.start_date budget = date_str first ->
  Budget.end_date budget = date_str last ->
  Expense.date e = date_str day ->
  budget_expense_filter user_id budget e
  = (Expense.user_id e =? user_id)%string &&
    (Expense.category e =? Budget.category budget)%string &&
    (Expense.type e =? "expense")%string &&
    (toordinal first <=? toordinal day) && (toordinal day <=? toordinal last) /\
  summary_query (Some (date_str first)) (Some (date_str last)) user_id e
  = (Expense.user_id e =? user_id)%string &&
    ((toordinal first <=? toordinal day) && (toordinal day <=? toordinal last)).
Proof.
  intros Vf Vl Vd Yf Yl Yd S E D.
  destruct (date_str_order first day Vf Vd Yf Yd) as (_ & O1 & _).
  destruct (date_str_order day last Vd Vl Yd Yl) as (_ & O2 & _).
  unfold budget_expense_filter, summary_query.
  rewrite S, E, D, !date_str_truthy. cbn [str_or_empty andb].
  rewrite O1, O2. split; reflexivity.
Qed.

End CalendarRanges.

(** ** What a returned report holds *)

Section ReportContents.
Context {N : PyNum}.
Local Open Scope list_scope.

Lemma dict_mem_keys {V : Type} (d : list (string * V)) (k : string) :
  dict_mem d k = true <-> In k (dict_keys d).
Proof.
  unfold dict_mem, dict_keys. rewrite existsb_exists, in_map_iff. split.
  - intros (kv & H & E). apply String.eqb_eq in E. now exists kv.
  - intros (kv & E & H). exists kv. split; [exact H | now apply String.eqb_eq].
Qed.

(** The transactions of type [ty]. *)
Definition of_type (ty : string) (t : Expense.t) : bool :=
  (Expense.type t =? ty)%string.

(** One round of the loop, on the entry of a category. *)
Lemma count_transaction_step (d d' : list (string * CategoryStats.t))
    (t : Expense.t) :
  count_transaction d t = Returned d' ->
  (NoDup (dict_keys d) -> NoDup (dict_keys d')) /\
  (forall c, In c (dict_keys d') <-> c = Expense.category t \/ In c (dict_keys d)) /\
  (forall c,
     CategoryStats.expenses (dict_get d' c no_stats)
     = (if of_type "expenses" t && (Expense.category t =? c)%string
        then add (CategoryStats.expenses (dict_get d c no_stats)) (Expense.amount t)
        else CategoryStats.expenses (dict_get d c no_stats)) /\
     CategoryStats.income (dict_get d' c no_stats)
     = (if of_type "income" t && (Expense.category t =? c)%string
        then add (CategoryStats.income (dict_get d c no_stats)) (Expense.amount t)
        else CategoryStats.income (dict_get d c no_stats))).
Proof.
  unfold count_transaction.
  set (k := Expense.category t).
  set (d0 := if negb (dict_mem d k) then dict_set d k no_stats else d).
  assert (G0 : forall c, dict_get d0 c no_stats = dict_get d c no_stats).
  { intros c. unfold d0. destruct (dict_mem d k) eqn:M; cbn [negb]; [reflexivity|].
    rewrite dict_get_set. destruct (String.eqb_spec c k) as [-> | _]; [|reflexivity].
    symmetry. apply dict_get_absent. intros H. apply dict_mem_keys in H.
    rewrite H in M. discriminate M. }
  assert (K0 : forall c, In c (dict_keys d0) <-> c = k \/ In c (dict_keys d)).
  { intros c. unfold d0. destruct (dict_mem d k) eqn:M; cbn [negb].
    - apply dict_mem_keys in M. split; [now right | intros [-> | H]; assumption].
    - apply dict_keys_set. }
  assert (N0 : NoDup (dict_keys d) -> NoDup (dict_keys d0)).
  { unfold d0. destruct (dict_mem d k); cbn [negb]; [trivial|].
    apply dict_keys_set_NoDup. }
  destruct (stats_add (dict_get d0 k no_stats) (Expense.type t) (Expense.amount t))
    as [s|] eqn:S; [|discriminate].
  intros [= <-]. split; [|split].
  - intros ND. now apply dict_keys_set_NoDup, dict_keys_set_NoDup, N0.
  - intros c. rewrite !dict_keys_set, K0. tauto.
  - intros c. rewrite !dict_get_set.
    rewrite (String.eqb_sym k c). unfold of_type.
    destruct (String.eqb_spec c k) as [-> | _];
      [|rewrite !andb_false_r, G0; split; reflexivity].
    rewrite !andb_true_r. cbn [CategoryStats.expenses CategoryStats.income].
    revert S. unfold stats_add. rewrite G0.
    destruct (Expense.type t =? "expenses")%string eqn:E1.
    + intros [= <-]. cbn. apply String.eqb_eq in E1. rewrite E1.
      split; reflexivity.
    + destruct (Expense.type t =? "income")%string eqn:E2.
      * intros [= <-]. cbn. split; reflexivity.
      * destruct (Expense.type t =? "transactions")%string; [|discriminate].
        intros [= <-]. cbn. split; reflexivity.
Qed.

Lemma category_stats_of_returned (l : list Expense.t) :
  forall d d',
    category_stats_of l d = Returned d' ->
    (NoDup (dict_keys d) -> NoDup (dict_keys d')) /\
    (forall c, In c (dict_keys d') <->
               In c (dict_keys d) \/ exists t, In t l /\ Expense.category t = c) /\
    (forall c,
       CategoryStats.expenses (dict_get d' c no_stats)
       = fold_left add
           (map Expense.amount
              (filter (fun t => of_type "expenses" t &&
                                (Expense.category t =? c)%string) l))
           (CategoryStats.expenses (dict_get d c no_stats)) /\
       CategoryStats.income (dict_get d' c no_stats)
       = fold_left add
           (map Expense.amount
              (filter (fun t => of_type "income" t &&
                                (Expense.category t =? c)%string) l))
           (CategoryStats.income (dict_get d c no_stats))).
Proof.
  induction l as [|t l IH]; intros d d'.
  - cbn [category_stats_of]. intros [= <-]. split; [trivial|]. split.
    + intros c. split; [now left | intros [H | (t & [] & _)]; exact H].
    + intros c. split; reflexivity.
  - cbn [category_stats_of].
    destruct (count_transaction d t) as [d1|] eqn:C; [|discriminate].
    intros H. destruct (IH _ _ H) as (ND & K & G).
    destruct (count_transaction_step _ _ _ C) as (ND1 & K1 & G1).
    split; [auto|]. split.
    + intros c. rewrite K, K1. split.
      * intros [[-> | H1] | (x & Hx & Ex)].
        -- right. exists t. split; [now left | reflexivity].
        -- now left.
        -- right. exists x. split; [now right | exact Ex].
      * intros [H1 | (x & [<- | Hx] & Ex)].
        -- left. now right.
        -- left. left. now symmetry.
        -- right. exists x. now split.
    + intros c. destruct (G c) as [Ge Gi], (G1 c) as [Ge1 Gi1].
      rewrite Ge, Gi, Ge1, Gi1. cbn [filter].
      split.
      * destruct (of_type "expenses" t && (Expense.category t =? c)%string);
          reflexivity.
      * destruct (of_type "income" t && (Expense.category t =? c)%string);
          reflexivity.
Qed.

Lemma top_categories_from (category_stats : list (string * CategoryStats.t)) :
  (List.length (top_categories category_stats) <= 5)%nat /\
  forall c v, In (c, v) (top_categories category_stats) ->
    gt v (of_int 0) = true /\
    exists stats, In (c, stats) category_stats /\
                  CategoryStats.expenses stats = v.
Proof.
  unfold top_categories. split; [apply firstn_le_length|].
  intros c v H. apply In_firstn in H.
  apply (proj1 (sort_desc_In _ _ _)) in H.
  apply in_map_iff in H. destruct H as ([c' s] & E & H).
  injection E as -> <-. apply filter_In in H. destruct H as [H G].
  split; [exact G|]. now exists s.
Qed.

(** X22: a report that is returned lists in its category breakdown each
    category of the fetched transactions exactly once, with the sum of
    the amounts of its transactions of type [expenses] under [expenses]
    and of type [income] under [income], added in the order fetched.
    Its top expense categories are at most five categories of the
    breakdown, each with its [expenses] total, which is greater than
    0. *)
Theorem returned_report_breakdown (now : Z) (l : list Expense.t)
    (start_date end_date : option string) (report : Report.t) :
  report_of now l start_date end_date = Returned report ->
  let breakdown := Report.category_breakdown report in
  NoDup (dict_keys breakdown) /\
  (forall c, In c (dict_keys breakdown) <->
             exists t, In t l /\ Expense.category t = c) /\
  (forall c,
     CategoryStats.expenses (dict_get breakdown c no_stats)
       = total_of (of_type "expenses") Expense.category c l /\
     CategoryStats.income (dict_get breakdown c no_stats)
       = total_of (of_type "income") Expense.category c l) /\
  Report.top_expense_categories report = top_categories breakdown /\
  (List.length (Report.top_expense_categories report) <= 5)%nat /\
  (forall c v, In (c, v) (Report.top_expense_categories report) ->
     gt v (of_int 0) = true /\
     In c (dict_keys breakdown) /\
     v = total_of (of_type "expenses") Expense.category c l).
Proof.
  unfold report_of.
  destruct (category_stats_of l []) as [d|] eqn:C; [|discriminate].
  intros [= <-]. cbn [Report.category_breakdown Report.top_expense_categories].
  destruct (category_stats_of_returned _ _ _ C) as (ND & K & G).
  specialize (ND (NoDup_nil _)).
  assert (K' : forall c, In c (dict_keys d) <->
                         exists t, In t l /\ Expense.category t = c).
  { intros c. rewrite K. cbn. tauto. }
  split; [exact ND|]. split; [exact K'|]. split; [exact G|].
  split; [reflexivity|].
  destruct (top_categories_from d) as [L T]. split; [exact L|].
  intros c v H. destruct (T c v H) as (P & s & Hs & E).
  split; [exact P|].
  assert (Hk : In c (dict_keys d))
    by (unfold dict_keys; apply in_map_iff; now exists (c, s)).
  split; [exact Hk|].
  rewrite <- E. destruct (G c) as [Ge _].
  transitivity (CategoryStats.expenses (dict_get d c no_stats)); [|exact Ge].
  f_equal.
  clear - ND Hs. unfold dict_keys in ND.
  induction d as [|[k x] d IH]; [destruct Hs|].
  cbn [map fst] in ND. apply NoDup_cons_iff in ND. destruct ND as [Nin ND].
  cbn [dict_get]. destruct Hs as [[= -> ->] | Hs].
  - now rewrite String.eqb_refl.
  - destruct (String.eqb_spec k c) as [-> | _]; [|now apply IH].
    destruct Nin. apply in_map_iff. now exists (c, s).
Qed.

End ReportContents.

(** ** The order of positive binary64 numbers *)

Section FloatOrder.

(** Greater than zero: a positive finite number or plus infinity. *)
Definition positive_sf (f : spec_float) : Prop :=
  f = S754_infinity false \/ exists m e, f = S754_finite false m e.

Lemma positive_sf_spec (x : float) :
  PrimFloat.ltb 0 x = true -> positive_sf (Prim2SF x).
Proof.
  rewrite FloatAxioms.ltb_spec. change (Prim2SF 0) with (S754_zero false).
  unfold positive_sf.
  destruct (Prim2SF x) as [s|s| |s m e]; cbn; try destruct s; try discriminate;
    eauto.
Qed.

Lemma SFleb_total_positive (f g : spec_float) :
  positive_sf f -> positive_sf g -> SFleb f g = false -> SFleb g f = true.
Proof.
  intros [-> | (m & e & ->)] [-> | (m' & e' & ->)]; cbn; try discriminate;
    try reflexivity.
  unfold SFleb. cbn.
  change (Pos.compare_cont Eq m m') with (Pos.compare m m').
  change (Pos.compare_cont Eq m' m) with (Pos.compare m' m).
  destruct (Z.compare_spec e e'), (Z.compare_spec e' e); try lia;
    try discriminate; try reflexivity.
  destruct (Pos.compare_spec m m'), (Pos.compare_spec m' m); try lia;
    try discriminate; reflexivity.
Qed.

Lemma SFleb_trans_positive (f g h : spec_float) :
  positive_sf f -> positive_sf g -> positive_sf h ->
  SFleb f g = true -> SFleb g h = true -> SFleb f h = true.
Proof.
  intros [-> | (m & e & ->)] [-> | (m' & e' & ->)] [-> | (m'' & e'' & ->)];
    cbn; try discriminate; try reflexivity.
  unfold SFleb. cbn.
  change (Pos.compare_cont Eq m m') with (Pos.compare m m').
  change (Pos.compare_cont Eq m' m'') with (Pos.compare m' m'').
  change (Pos.compare_cont Eq m m'') with (Pos.compare m m'').
  destruct (Z.compare_spec e e'), (Z.compare_spec e' e''),
    (Z.compare_spec e e''); try lia; try discriminate; try reflexivity;
    destruct (Pos.compare_spec m m'), (Pos.compare_spec m' m''),
      (Pos.compare_spec m m''); try lia; try discriminate; reflexivity.
Qed.

Lemma float_leb_total_positive (x y : float) :
  PrimFloat.ltb 0 x = true -> PrimFloat.ltb 0 y = true ->
  PrimFloat.leb x y = false -> PrimFloat.leb y x = true.
Proof.
  intros Px Py. rewrite !FloatAxioms.leb_spec.
  apply SFleb_total_positive; now apply positive_sf_spec.
Qed.

Lemma float_leb_trans_positive (x y z : float) :
  PrimFloat.ltb 0 x = true -> PrimFloat.ltb 0 y = true ->
  PrimFloat.ltb 0 z = true ->
  PrimFloat.leb x y = true -> PrimFloat.leb y z = true ->
  PrimFloat.leb x z = true.
Proof.
  intros Px Py Pz. rewrite !FloatAxioms.leb_spec.
  apply SFleb_trans_positive; now apply positive_sf_spec.
Qed.

Local Open Scope list_scope.

(** X23: on binary64 numbers, the top expense categories of a report
    are in descending order of their totals, and they are the largest:
    every category of the breakdown whose [expenses] total is greater
    than 0 is either listed, or five are listed and each of them has a
    total at least as large. *)
Theorem top_expense_categories_are_the_largest
    (category_stats : list (string * CategoryStats.t)) :
  let top := top_categories category_stats in
  StronglySorted (fun x y => PrimFloat.leb (snd y) (snd x) = true) top /\
  forall c stats,
    In (c, stats) category_stats ->
    PrimFloat.ltb 0 (CategoryStats.expenses stats) = true ->
    In (c, CategoryStats.expenses stats) top \/
    (List.length top = 5%nat /\
     forall x, In x top ->
       PrimFloat.leb (CategoryStats.expenses stats) (snd x) = true).
Proof.
  intros top. unfold top, top_categories.
  set (positive := filter _ category_stats).
  set (pairs := map _ positive).
  assert (Pp : Forall (fun x : string * num => gt (snd x) (of_int 0) = true)
                      pairs).
  { apply Forall_forall. intros x Hx. unfold pairs in Hx.
    apply in_map_iff in Hx. destruct Hx as ([c s] & <- & H).
    unfold positive in H. apply filter_In in H. exact (proj2 H). }
  assert (S : StronglySorted
                (fun x y : string * num => le (snd y) (snd x) = true)
                (sort_desc (fun x y => le (snd y) (snd x)) pairs)).
  { apply (sort_desc_sorted (fun x y : string * num => le (snd y) (snd x))
             (fun x => gt (snd x) (of_int 0) = true)).
    - intros a b Pa Pb. exact (float_leb_total_positive _ _ Pb Pa).
    - intros a b c Pa Pb Pc H1 H2.
      exact (float_leb_trans_positive _ _ _ Pc Pb Pa H2 H1).
    - exact Pp. }
  split; [exact (firstn_sorted _ 5 _ S)|].
  intros c stats H P.
  apply (firstn_first _ 5 _ S (c, CategoryStats.expenses stats)).
  apply (proj2 (sort_desc_In _ _ _)). unfold pairs. apply in_map_iff.
  exists (c, stats). split; [reflexivity|]. unfold positive.
  apply filter_In. split; [exact H | exact P].
Qed.

End FloatOrder.

(** ** Scenarios on binary64 *)

Definition the_day : date := mkdate 2026 11 4.

Lemma the_day_is_valid : valid_date the_day.
Proof. vm_compute. intuition discriminate. Qed.

Example isoformat_samples :
  isoformat ten_o_clock = "2026-11-04T10:00:00" /\
  isoformat (ten_o_clock + 250000) = "2026-11-04T10:00:00.250000" /\
  isoformat (-1) = "1969-12-31T23:59:59.999999".
Proof. repeat split; vm_compute; reflexivity. Qed.

(** The store of two users. *)
Definition rent_budget : Budget.t :=
  Budget.mk float_PyNum "b2" "u2" "Bills & Utilities" 900%float "monthly"
            "2026-11-01" "2026-11-30" 0%float true 0.

Definition rent : Expense.t :=
  Expense.mk float_PyNum "e2" "u2" "Rent" 850%float "Bills & Utilities"
             "expense" None "2026-11-02" 0.

Definition shared_world : World :=
  world_of [food_expense "e1" 85%float; rent] [food_budget; rent_budget] [].

Definition lunch_request : ExpenseCreate.t :=
  ExpenseCreate.mk float_PyNum "Lunch" 12.5%float "Food & Dining" "expense"
                   None None.

Lemma unknown_id_is_404_and_no_change_witness :
  delete_budget "b2" "u1" shared_world
  = (Raise (HTTPException 404 "Budget not found"), shared_world).
Proof.
  apply (unknown_id_is_404_and_no_change "b2" "u1" shared_world); reflexivity.
Defined.

Lemma requests_leave_other_users_documents_witness :
  foreign_data "u1" (exec (get_budgets ten_o_clock "u1") shared_world)
  = foreign_data "u1" shared_world.
Proof.
  assert (ND : NoDup (map Budget.id (budgets (db shared_world)))).
  { cbn. repeat constructor; cbn; intuition discriminate. }
  destruct (requests_leave_other_users_documents "u1" shared_world ND)
    as [(_ & _ & _ & _ & _ & _ & _ & G & _) _].
  apply G.
Defined.

Lemma summary_counts_transaction_of_today_witness :
  exists s s',
    get_summary the_day None None None "u1" stale_world = (Ok s, stale_world) /\
    get_summary the_day None None None "u1"
      (exec (create_expense the_day ten_o_clock lunch_request "u1") stale_world)
    = (Ok s',
       exec (create_expense the_day ten_o_clock lunch_request "u1") stale_world) /\
    ((Summary.transaction_count s < 1000)%nat ->
     Summary.transaction_count s' = S (Summary.transaction_count s)) /\
    (Summary.transaction_count s = 1000%nat -> s' = s).
Proof.
  apply (summary_counts_transaction_of_today the_day ten_o_clock lunch_request
           None None None "u1" stale_world).
  - exact the_day_is_valid.
  - vm_compute. discriminate.
  - reflexivity.
  - discriminate.
Defined.

Lemma budgets_follow_expense_writes_witness :
  budgets_up_to_date "u1"
    (exec (create_expense the_day ten_o_clock lunch_request "u1") shared_world).
Proof.
  assert (ND : NoDup (map Budget.id (budgets (db shared_world)))).
  { cbn. repeat constructor; cbn; intuition discriminate. }
  assert (L : (List.length (filter (active_budget_filter "u1")
                              (budgets (db shared_world))) <= 100)%nat).
  { vm_compute. repeat constructor. }
  destruct (budgets_follow_expense_writes "u1" shared_world ND L) as (C & _ & _).
  apply C. reflexivity.
Defined.

(** The budget [POST /budgets] builds on that day in an empty store. *)
Definition new_food_budget : Budget.t :=
  Budget.mk float_PyNum "uuid-0" "u1" "Food & Dining" 200%float "monthly"
            "2026-11-01" "2026-11-30" 0%float true ten_o_clock.

Lemma new_budget_covers_the_day_witness :
  String.leb (Budget.start_date new_food_budget) (date_str the_day) = true /\
  String.leb (date_str the_day) (Budget.end_date new_food_budget) = true.
Proof.
  assert (E : fst (create_budget the_day ten_o_clock food_request "u1"
                     (world_of [] [] []))
              = Ok new_food_budget) by reflexivity.
  destruct (new_budget_covers_the_day the_day ten_o_clock food_request "u1"
              (world_of [] [] []) new_food_budget the_day_is_valid
              ltac:(vm_compute; discriminate) E) as (A & B & _).
  split; assumption.
Defined.

Lemma one_active_budget_per_category_and_period_witness :
  no_clashes
    (budgets (db (exec (create_budget the_day ten_o_clock food_request "u1")
                       shared_world))).
Proof.
  assert (H : no_clashes (budgets (db shared_world))).
  { cbn. repeat constructor. intros (U & _). discriminate U. }
  apply (one_active_budget_per_category_and_period shared_world H).
Defined.

Lemma get_budgets_lists_one_pass_witness :
  exists listed,
    fst (get_budgets ten_o_clock "u1" shared_world) = Ok listed /\
    (List.length listed <= 100)%nat.
Proof.
  assert (ND : NoDup (map Budget.id (budgets (db shared_world)))).
  { cbn. repeat constructor; cbn; intuition discriminate. }
  assert (L : (List.length (filter (active_budget_filter "u1")
                              (budgets (db shared_world))) <= 100)%nat).
  { vm_compute. repeat constructor. }
  destruct (get_budgets_lists_one_pass ten_o_clock "u1" shared_world ND L)
    as (listed & A & _ & B & _).
  exists listed. split; assumption.
Defined.

Lemma no_positive_limit_no_alert_witness :
  budget_alerts
    (db (exec (check_budget ten_o_clock "u1" negative_limit_budget)
           (world_of [food_expense "e1" 85%float] [negative_limit_budget] [])))
  = [].
Proof.
  apply (no_positive_limit_no_alert ten_o_clock "u1" negative_limit_budget
           (world_of [food_expense "e1" 85%float] [negative_limit_budget] [])).
  vm_compute. reflexivity.
Defined.

(** A month with one transaction of type [expense]: the report fails on
    it, the summary and the chart do not. *)
Example report_of_a_month_with_an_expense :
  fst (generate_report the_day ten_o_clock None None None "u1" stale_world)
  = Ok (KeyError "expense").
Proof. reflexivity. Qed.

Lemma periods_select_by_calendar_day_witness :
  budget_expense_filter "u1" food_budget (food_expense "e1" 85%float) = true.
Proof.
  assert (Vf : valid_date (mkdate 2026 11 1))
    by (vm_compute; intuition discriminate).
  assert (Vl : valid_date (mkdate 2026 11 30))
    by (vm_compute; intuition discriminate).
  destruct (periods_select_by_calendar_day "u1" food_budget
              (food_expense "e1" 85%float)
              (mkdate 2026 11 1) (mkdate 2026 11 30) the_day
              Vf Vl the_day_is_valid
              ltac:(vm_compute; discriminate) ltac:(vm_compute; discriminate)
              ltac:(vm_compute; discriminate) eq_refl eq_refl eq_refl)
    as [A _].
  rewrite A. reflexivity.
Defined.

Lemma pass_appends_well_formed_alerts_witness :
  exists inserted,
    budget_alerts (db (exec (check_budget_alerts ten_o_clock "u1") warned_world))
    = (budget_alerts (db warned_world) ++ inserted)%list /\
    (List.length inserted <= 1)%nat.
Proof.
  destruct (pass_appends_well_formed_alerts ten_o_clock "u1" warned_world)
    as (inserted & _ & E & L & _).
  exists inserted. split; [exact E | exact L].
Defined.

Lemma listings_are_sorted_and_capped_witness :
  exists listed,
    get_expenses None None None None "u1" stale_world = (Ok listed, stale_world) /\
    StronglySorted newer_expense listed /\
    Permutation listed
      (filter (expenses_query None None None None "u1")
              (expenses (db stale_world))).
Proof.
  destruct (proj1 (listings_are_sorted_and_capped ten_o_clock None None None
                     None "u1" stale_world))
    as (listed & E & _ & _ & S & P).
  exists listed. split; [exact E|]. split; [exact S|].
  apply P. vm_compute. repeat constructor.
Defined.

Lemma create_expense_appends_the_transaction_witness :
  exists expense,
    fst (create_expense the_day ten_o_clock lunch_request "u1" shared_world)
      = Ok expense /\
    Expense.date expense = "2026-11-04".
Proof.
  destruct (create_expense_appends_the_transaction the_day ten_o_clock
              lunch_request "u1" shared_world)
    as (expense & E & _ & _ & _ & _ & _ & _ & _ & _ & _ & _ & D).
  exists expense. split; [exact E|]. apply D. left. reflexivity.
Defined.

Lemma report_fails_on_expense_transactions_witness :
  exists key,
    generate_report the_day ten_o_clock None None None "u1" stale_world
    = (Ok (KeyError key), stale_world).
Proof.
  destruct (report_fails_on_expense_transactions the_day ten_o_clock None None
              None "u1" stale_world) as (outcome & E & K & _).
  destruct (K (food_expense "e1" 90%float)) as (key & -> & _).
  - change (In (food_expense "e1" 90%float)
               [food_expense "e1" 90%float; salary]).
    left. reflexivity.
  - reflexivity.
  - exists key. exact E.
Defined.

(** A custom category, and requests on it. *)
Definition pets : CustomCategory.t :=
  CustomCategory.mk float_PyNum "c1" "u1" "Pets" "🐾" None 0.

Definition other_again : CategoryCreate.t :=
  CategoryCreate.mk float_PyNum "Other" None None.

Definition pets_of_another : CategoryCreate.t :=
  CategoryCreate.mk float_PyNum "Pets" (Some "") (Some 50%float).

Definition rename_to_other : CategoryUpdate.t :=
  CategoryUpdate.mk float_PyNum (Some "Other") None None.

Lemma create_category_keeps_names_apart_witness :
  create_category "c2" ten_o_clock other_again "u1" [pets]
  = (Raise (HTTPException 400 "Category already exists in predefined list"),
     [pets]).
Proof.
  destruct (create_category_keeps_names_apart "c2" ten_o_clock other_again "u1"
              [pets]) as [(_ & B & _) _].
  apply B; reflexivity.
Defined.

Lemma update_category_accepts_any_name_witness :
  exists cats',
    update_category "c1" rename_to_other "u1" [pets] = (Ok tt, cats') /\
    ~ names_are_free cats'.
Proof.
  destruct (update_category_accepts_any_name "c1" rename_to_other "u1" [pets])
    as [_ R].
  destruct (R pets "Other" eq_refl eq_refl)
    as (before & after & c' & _ & E & _ & _ & _ & _ & F & _).
  exists (before ++ c' :: after)%list. split; [exact E|]. apply F. reflexivity.
Defined.

Lemma category_listing_witness :
  get_categories "u1"
    (snd (create_category "c2" ten_o_clock pets_of_another "u2" [pets]))
  = get_categories "u1" [pets].
Proof.
  destruct (category_listing "u1" [pets]) as (_ & _ & _ & _ & H).
  destruct (H "c2" ten_o_clock pets_of_another "u2"
              (CustomCategory.mk float_PyNum "c2" "u2" "Pets" "📦"
                 (Some 50%float) ten_o_clock) eq_refl) as (A & _).
  apply A. discriminate.
Defined.

Lemma writes_by_id_touch_one_document_witness :
  exists before after,
    expenses (db shared_world)
      = (before ++ food_expense "e1" 85%float :: after)%list /\
    expenses (db (exec (delete_expense "e1" "u1") shared_world))
      = (before ++ after)%list.
Proof.
  destruct (writes_by_id_touch_one_document "e1" "u1" shared_world) as (W & _).
  destruct (W (food_expense "e1" 85%float) rename_salary ten_o_clock eq_refl)
    as (before & after & E & _ & _ & _ & D).
  exists before, after. split; [exact E | exact D].
Defined.

Lemma returned_report_breakdown_witness :
  exists report,
    report_of ten_o_clock [salary] None None = Returned report /\
    NoDup (dict_keys (Report.category_breakdown report)) /\
    (List.length (Report.top_expense_categories report) <= 5)%nat.
Proof.
  destruct (proj2 (proj2 (report_outcome ten_o_clock [salary] None None)))
    as (report & E).
  { intros t [<- | []]. reflexivity. }
  exists report. split; [exact E|].
  destruct (returned_report_breakdown ten_o_clock [salary] None None report E)
    as (A & _ & _ & _ & B & _).
  split; [exact A | exact B].
Defined.
